(** * Moodify: the emotion-analysis pipeline of [app.py]

    A shallow embedding of the keyword fallback classifier, the intensity
    estimator, the pipeline entry point with its sticky fallback flag, and the
    persona greeting selection, followed by the properties proved about them.

    Python values are modelled as follows.
    - [str] is a list of Unicode code points ([pystr]).  The Unicode tables
      behind [str.lower], [str.isupper] and the whitespace test of
      [str.strip]/[str.split] are not part of the repository: they are the
      fields of the class [Unicode], fixed on ASCII where the code depends
      on it.
    - [float] arithmetic is the class [FloatOps]; [binary64] instantiates it
      with IEEE 754 double precision (what CPython computes, from the
      Standard Library's [SpecFloat]) and [exact_rationals] with exact
      arithmetic on [Q].  The functions are written once, over the class;
      what depends on the order of the scores is proved on doubles.
    - An exception is the [Raise] constructor of [res]; the module globals
      [emotion_classifier] and [fallback_mode] are the record [state],
      threaded through [analyze_emotion_with_confidence]. *)

From Stdlib Require Import List Bool Arith ZArith NArith QArith Lia.
From Stdlib Require Import String Ascii Permutation SpecFloat.
Import ListNotations.

Close Scope Q_scope.
Open Scope nat_scope.

Set Implicit Arguments.

(** ** Python runtime *)

Module Py.

(** Exceptions the modelled code can raise. *)
Inductive exn : Type :=
| ZeroDivisionError
| IndexError
| ClassifierError.   (* anything raised inside the [try] block by the model *)

Inductive res (A : Type) : Type :=
| Ok (a : A)
| Raise (e : exn).

Arguments Ok {A} a.
Arguments Raise {A} e.

Definition bind {A B : Type} (m : res A) (k : A -> res B) : res B :=
  match m with
  | Ok a => k a
  | Raise e => Raise e
  end.

(** A code point. *)
Definition char : Type := N.

(** A Python [str]. *)
Definition pystr : Type := list char.

(** A string literal of the source (all literals used here are ASCII). *)
Definition str (s : string) : pystr :=
  map N_of_ascii (list_ascii_of_string s).

Definition char_eqb (a b : char) : bool := N.eqb a b.

Fixpoint str_eqb (a b : pystr) : bool :=
  match a, b with
  | [], [] => true
  | x :: a', y :: b' => char_eqb x y && str_eqb a' b'
  | _, _ => false
  end.

(** [s.startswith(p)] *)
Fixpoint startswith (p s : pystr) : bool :=
  match p, s with
  | [], _ => true
  | _ :: _, [] => false
  | c :: p', d :: s' => char_eqb c d && startswith p' s'
  end.

(** [sub in s] *)
Fixpoint contains (sub s : pystr) : bool :=
  startswith sub s ||
  match s with
  | [] => false
  | _ :: s' => contains sub s'
  end.

(** [s.count(c)] for a one-character [c] *)
Definition count_char (c : char) (s : pystr) : nat :=
  List.length (filter (char_eqb c) s).

(** Whitespace among the code points below 128, as [str.isspace] has it:
    TAB, LF, VT, FF, CR, FS, GS, RS, US and SPACE. *)
Definition ascii_isspace (c : char) : bool :=
  ((9 <=? c) && (c <=? 13) || (28 <=? c) && (c <=? 32))%N.

(** The Unicode database of the interpreter. *)
Class Unicode : Type := {
  lower : pystr -> pystr;      (* [s.lower()] *)
  isupper : char -> bool;      (* [c.isupper()] *)
  isspace : char -> bool;      (* the whitespace of [strip()] and [split()] *)
  isspace_ascii : forall c, (c < 128)%N -> isspace c = ascii_isspace c
}.

Section Strings.
Context {U : Unicode}.

Fixpoint lstrip (s : pystr) : pystr :=
  match s with
  | [] => []
  | c :: s' => if isspace c then lstrip s' else s
  end.

(** [s.strip()] *)
Definition strip (s : pystr) : pystr :=
  rev (lstrip (rev (lstrip s))).

(** [s.split()]: the maximal runs of non-whitespace; [cur] is the word
    being read, reversed. *)
Fixpoint split_from (s : pystr) (cur : pystr) : list pystr :=
  match s with
  | [] => match cur with [] => [] | _ :: _ => [rev cur] end
  | c :: s' =>
      if isspace c then
        match cur with
        | [] => split_from s' []
        | _ :: _ => rev cur :: split_from s' []
        end
      else split_from s' (c :: cur)
  end.

Definition split (s : pystr) : list pystr := split_from s [].
End Strings.

(** Indexing and slicing of a list with Python's negative indices. *)
Definition norm_index (len : nat) (i : Z) : Z :=
  if (i <? 0)%Z then (i + Z.of_nat len)%Z else i.

Definition index {A : Type} (l : list A) (i : Z) : res A :=
  let j := norm_index (List.length l) i in
  if (j <? 0)%Z then Raise IndexError
  else match nth_error l (Z.to_nat j) with
       | Some x => Ok x
       | None => Raise IndexError
       end.

Definition clamp (len : nat) (i : Z) : nat :=
  Z.to_nat (Z.min (Z.max 0 (norm_index len i)) (Z.of_nat len)).

(** [l[start:stop]] *)
Definition slice {A : Type} (l : list A) (start stop : Z) : list A :=
  let a := clamp (List.length l) start in
  let b := clamp (List.length l) stop in
  firstn (b - a) (skipn a l).

(** [random.choice(seq)]: [seq[randbelow(len(seq))]], IndexError when empty. *)
Definition random_choice {A : Type} (randbelow : nat -> nat) (seq : list A)
  : res A :=
  match seq with
  | [] => Raise IndexError
  | _ :: _ => index seq (Z.of_nat (randbelow (List.length seq)))
  end.

(** Floating-point numbers. *)
Class FloatOps : Type := {
  float : Type;
  of_int : nat -> float;              (* [float(n)], [n >= 0] *)
  fadd : float -> float -> float;
  fmul : float -> float -> float;
  fdiv : float -> float -> float;     (* divisor already checked non-zero *)
  flt : float -> float -> bool;       (* [a < b] *)
  fle : float -> float -> bool        (* [a <= b] *)
}.

(** On the floats that satisfy [ordered], the comparison is a strict weak
    order.  All of [Q] is ordered; among the doubles a NaN is not. *)
Class FloatOrder (F : FloatOps) (ordered : float -> Prop) : Prop := {
  flt_trans : forall a b c : float,
    ordered a -> ordered b -> ordered c ->
    flt a b = true -> flt b c = true -> flt a c = true;
  flt_negtrans : forall a b c : float,
    ordered a -> ordered b -> ordered c ->
    flt a b = false -> flt b c = false -> flt a c = false
}.

Section Floats.
Context {F : FloatOps}.

(** The decimal literal [digits / 10^places], e.g. [0.3 = decimal 3 1];
    correctly rounded, as the parser does. *)
Definition decimal (digits places : nat) : float :=
  fdiv (of_int digits) (of_int (10 ^ places)).

(** [x / n] for a float [x] and an int [n] *)
Definition truediv (x : float) (n : nat) : res float :=
  match n with
  | O => Raise ZeroDivisionError
  | S _ => Ok (fdiv x (of_int n))
  end.

(** [a / b] for ints [a], [b] *)
Definition int_truediv (a b : nat) : res float :=
  truediv (of_int a) b.

(** [min(a, b)]: the first of the smallest *)
Definition pymin (a b : float) : float := if flt b a then b else a.

(** [a > b] and [a >= b] *)
Definition fgt (a b : float) : bool := flt b a.
Definition fge (a b : float) : bool := fle b a.

(** [max(items, key=...)] over an iterable whose first item is [cur]:
    a later item replaces the current one only when strictly greater. *)
Fixpoint max_by {A : Type} (key : A -> float) (cur : A) (rest : list A) : A :=
  match rest with
  | [] => cur
  | x :: rest' => max_by key (if fgt (key x) (key cur) then x else cur) rest'
  end.

(** [sorted(l, key=..., reverse=True)] and [l.sort(key=..., reverse=True)]:
    descending and stable, on keys that the comparison orders.  With a NaN
    among the keys the order Python's sort returns depends on the runs it
    finds and is not the one computed here; what is stated about the order
    of a sorted list below is stated for keys without a NaN. *)
Fixpoint insert_desc {A : Type} (key : A -> float) (x : A) (l : list A)
  : list A :=
  match l with
  | [] => [x]
  | y :: l' =>
      if flt (key x) (key y) then y :: insert_desc key x l' else x :: l
  end.

Fixpoint sort_desc {A : Type} (key : A -> float) (l : list A) : list A :=
  match l with
  | [] => []
  | x :: l' => insert_desc key x (sort_desc key l')
  end.
End Floats.

(** IEEE 754 binary64, round to nearest even. *)
Definition b64_of_int (n : nat) : spec_float :=
  binary_normalize 53 1024 (Z.of_nat n) 0 false.

#[export] Instance binary64 : FloatOps := {
  float := spec_float;
  of_int := b64_of_int;
  fadd := SFadd 53 1024;
  fmul := SFmul 53 1024;
  fdiv := SFdiv 53 1024;
  flt := SFltb;
  fle := SFleb
}.

(** Exact rational arithmetic. *)
Definition exact_rationals : FloatOps := {|
  float := Q;
  of_int := fun n => inject_Z (Z.of_nat n);
  fadd := Qplus;
  fmul := Qmult;
  fdiv := Qdiv;
  flt := fun a b => negb (Qle_bool b a);
  fle := Qle_bool
|}.

(** The tables of an interpreter that only ever sees ASCII text. *)
Definition ascii_lower_char (c : char) : char :=
  if ((65 <=? c) && (c <=? 90))%N then (c + 32)%N else c.

Definition ascii_isupper (c : char) : bool :=
  ((65 <=? c) && (c <=? 90))%N.

#[export] Instance ascii_unicode : Unicode := {
  lower := map ascii_lower_char;
  isupper := ascii_isupper;
  isspace := ascii_isspace;
  isspace_ascii := fun c _ => eq_refl
}.

End Py.

Import Py.

Notation "x <- m ;; k" := (bind m (fun x => k))
  (at level 61, m at next level, right associativity).

(** ** The application: data *)

(** The closed set of emotion labels, in the order of [EMOTION_KEYWORDS]. *)
Definition EMOTION_LABELS : list pystr :=
  [str "joy"; str "sadness"; str "anger"; str "fear"; str "surprise";
   str "love"; str "neutral"].

(** An entry of [all_emotions]: [{'label': ..., 'score': ...}]. *)
Definition scored (F : FloatOps) : Type := (pystr * float)%type.

(** The dict returned by the analysis functions.  [fallback_used] is [None]
    while the key is absent (the dict built by [fallback_emotion_detection]). *)
Record result (F : FloatOps) : Type := {
  emotion : pystr;
  confidence : float;
  all_emotions : list (scored F);
  intensity : pystr;
  fallback_used : option bool
}.

(** What a call [emotion_classifier(text)] can produce.  An element of the
    returned list is one of two kinds.

    [Item label score]: a dict with a [str] label and a [float] score, what
    the pipeline of the model returns.

    [Malformed]: an entry on which the statements of the [try] block raise
    wherever it stands in the list, because
    - [x['score']] raises in the key of [sorted] (the entry is a list, a
      tuple, a string, a number or [None], or a dict without the key), or
    - [result['label'].lower()] raises in the loop over the sorted entries
      (no key ['label'], or a label without [lower], such as [None] or a
      number), or
    - the score can neither be compared with nor added to a float ([None], a
      string, a list, a dict): next to a float score the comparison of
      [sorted] raises, and as the score of the first entry
      [intensity_score += min(...)] raises.

    Entries that are neither are not in this type: the code accepts a score
    that is a number but no [float] (an [int], a [bool], a [Fraction]) and a
    label of type [bytes], and returns the result of the model with them. *)
Inductive item (F : FloatOps) : Type :=
| Item (label : pystr) (score : float)
| Malformed.

Arguments Item {F} label score.
Arguments Malformed {F}.

Inductive response (F : FloatOps) : Type :=
| Raises                               (* the call raises *)
| NotAList                             (* returns something that is no list *)
| AList (items : list (item F)).       (* returns a list *)

Arguments Raises {F}.
Arguments NotAList {F}.
Arguments AList {F} items.

(** The loaded model: its answer to the [n]-th call of the process, on a text. *)
Definition classifier (F : FloatOps) : Type := nat -> pystr -> response F.

(** The module globals, and the number of calls made to the model so far. *)
Record state (F : FloatOps) : Type := {
  emotion_classifier : option (classifier F);
  fallback_mode : bool;
  cls_calls : nat
}.

(** A value of [EMOTION_KEYWORDS]. *)
Record category (F : FloatOps) : Type := {
  keywords : list pystr;
  weight : float
}.

(** A value of [MOOD_PERSONAS], as far as the greeting needs it: the key
    ['greeting_variations'] may be absent. *)
Record persona : Type := {
  greeting_variations : option (list pystr)
}.

Section Moodify.
Context {F : FloatOps} {U : Unicode}.

Definition EMOTION_KEYWORDS : list (pystr * category F) :=
  [ (str "joy",
     {| keywords := map str
          ["happy"; "excited"; "joy"; "celebration"; "amazing"; "wonderful";
           "fantastic"; "great"; "awesome"; "brilliant"; "perfect"; "love";
           "thrilled"; "ecstatic"; "delighted"; "cheerful"; "elated";
           "euphoric"; "blissful"; "overjoyed"]%string;
        weight := of_int 1 |});
    (str "sadness",
     {| keywords := map str
          ["sad"; "depressed"; "down"; "upset"; "crying"; "tears"; "lonely";
           "empty"; "heartbroken"; "devastated"; "miserable"; "gloomy";
           "melancholy"; "grief"; "sorrow"; "despair"; "hopeless";
           "disappointed"; "hurt"; "lost"]%string;
        weight := of_int 1 |});
    (str "anger",
     {| keywords := map str
          ["angry"; "mad"; "furious"; "rage"; "annoyed"; "frustrated";
           "irritated"; "pissed"; "outraged"; "livid"; "enraged"; "heated";
           "bitter"; "resentful"; "hostile"; "aggressive"; "indignant";
           "incensed"; "infuriated"; "fuming"]%string;
        weight := of_int 1 |});
    (str "fear",
     {| keywords := map str
          ["scared"; "afraid"; "terrified"; "anxious"; "worried"; "nervous";
           "panic"; "frightened"; "concerned"; "stressed"; "overwhelmed";
           "insecure"; "uncertain"; "apprehensive"; "alarmed"; "distressed";
           "uneasy"; "troubled"; "fearful"; "dread"]%string;
        weight := of_int 1 |});
    (str "surprise",
     {| keywords := map str
          ["surprised"; "shocked"; "amazed"; "unexpected"; "sudden"; "wow";
           "incredible"; "unbelievable"; "astonishing"; "stunning";
           "remarkable"; "extraordinary"; "mind-blowing"; "jaw-dropping";
           "startled"; "bewildered"; "flabbergasted"; "astounded";
           "dumbfounded"; "taken aback"]%string;
        weight := of_int 1 |});
    (str "love",
     {| keywords := map str
          ["love"; "adore"; "cherish"; "devoted"; "affection"; "romantic";
           "passionate"; "intimate"; "caring"; "tender"; "warmth"; "fondness";
           "attachment"; "bond"; "connection"; "soulmate"; "beloved";
           "darling"; "sweetheart"; "crush"]%string;
        weight := of_int 1 |});
    (str "neutral",
     {| keywords := map str
          ["okay"; "fine"; "normal"; "regular"; "usual"; "average"; "typical";
           "standard"; "ordinary"; "common"; "routine"; "everyday"; "mundane";
           "calm"; "steady"; "balanced"; "stable"; "peaceful"; "quiet";
           "still"]%string;
        weight := decimal 5 1 |}) ].

Definition high_intensity_words : list pystr :=
  map str ["extremely"; "absolutely"; "completely"; "totally"; "incredibly";
           "very"; "so"; "really"; "super"; "ultra"; "immensely"]%string.

(** ** [determine_emotion_intensity] *)

(** The body of [for word in high_intensity_words]. *)
Definition intensity_word_step (text_lower : pystr) (intensity_score : float)
  (word : pystr) : float :=
  if contains word text_lower
  then fadd intensity_score (decimal 1 1)
  else intensity_score.

Definition determine_emotion_intensity (text : pystr) (confidence : float)
  : res pystr :=
  let text_lower := lower text in
  caps_ratio <-
    match text with
    | [] => Ok (of_int 0)
    | _ :: _ =>
        int_truediv (List.length (filter isupper text)) (List.length text)
    end ;;
  let exclamation_count := count_char 33%N text in
  let intensity_score := confidence in
  let intensity_score :=
    fold_left (intensity_word_step text_lower) high_intensity_words
              intensity_score in
  let intensity_score :=
    if fgt caps_ratio (decimal 3 1)
    then fadd intensity_score (decimal 2 1)
    else intensity_score in
  let intensity_score :=
    fadd intensity_score
         (pymin (fmul (of_int exclamation_count) (decimal 1 1))
                (decimal 3 1)) in
  if fge intensity_score (decimal 8 1) then Ok (str "high")
  else if fge intensity_score (decimal 5 1) then Ok (str "moderate")
  else Ok (str "mild").

(** ** [fallback_emotion_detection] *)

(** The body of [for keyword in data['keywords']], on [(score, matches)]. *)
Definition keyword_step (text_lower : pystr) (w : float)
  (acc : float * nat) (keyword : pystr) : float * nat :=
  let '(score, matches) := acc in
  if contains keyword text_lower then
    let keyword_weight :=
      fadd (fdiv (of_int (List.length keyword)) (of_int 10)) w in
    (fadd score keyword_weight, S matches)
  else acc.

(** [scores[k] = v] on a dict kept in insertion order. *)
Fixpoint dict_set (scores : list (scored F)) (k : pystr) (v : float)
  : list (scored F) :=
  match scores with
  | [] => [(k, v)]
  | (k', v') :: rest =>
      if str_eqb k' k then (k', v) :: rest else (k', v') :: dict_set rest k v
  end.

(** [for emotion, data in EMOTION_KEYWORDS.items()], over the entries that
    remain, with the dict [scores] built so far. *)
Fixpoint score_categories (text_lower : pystr)
  (cats : list (pystr * category F)) (scores : list (scored F))
  : res (list (scored F)) :=
  match cats with
  | [] => Ok scores
  | (emotion, data) :: rest =>
      let '(score, matches) :=
        fold_left (keyword_step text_lower (weight data)) (keywords data)
                  (of_int 0, 0) in
      if 0 <? matches then
        q <- truediv score (List.length (split text_lower)) ;;
        let normalized_score := fadd q (fmul (of_int matches) (decimal 1 1)) in
        score_categories text_lower rest
          (dict_set scores emotion (pymin normalized_score (of_int 1)))
      else score_categories text_lower rest scores
  end.

Definition neutral_default (all : list (scored F)) (fb : option bool)
  : result F :=
  {| emotion := str "neutral";
     confidence := decimal 3 1;
     all_emotions := all;
     intensity := str "mild";
     fallback_used := fb |}.

(** The argument is [None] or a string. *)
Definition fallback_emotion_detection (text : option pystr)
  : res (result F) :=
  match text with
  | None | Some [] => Ok (neutral_default [] None)
  | Some text =>
      let text_lower := lower text in
      scores <- score_categories text_lower EMOTION_KEYWORDS [] ;;
      match scores with
      | [] =>
          Ok (neutral_default [(str "neutral", decimal 3 1)] None)
      | first :: others =>
          (* [scores[k]] is the value stored with the key [k] *)
          let '(primary_emotion, primary_confidence) :=
            max_by snd first others in
          intensity <- determine_emotion_intensity text primary_confidence ;;
          let all_emotions := sort_desc snd scores in
          Ok {| emotion := primary_emotion;
                confidence := primary_confidence;
                all_emotions := all_emotions;
                intensity := intensity;
                fallback_used := None |}
      end
  end.

(** ** [analyze_emotion_with_confidence] *)

Definition item_is_malformed (it : item F) : bool :=
  match it with
  | Item _ _ => false
  | Malformed => true
  end.

Definition item_fields (it : item F) : res (scored F) :=
  match it with
  | Item label score => Ok (label, score)
  | Malformed => Raise ClassifierError
  end.

Fixpoint all_fields (items : list (item F)) : res (list (scored F)) :=
  match items with
  | [] => Ok []
  | it :: rest =>
      x <- item_fields it ;;
      xs <- all_fields rest ;;
      Ok (x :: xs)
  end.

(** The statements of the [try] block after the call returned [results]:
    [Ok (Some r)] is [return r], [Ok None] falls out of the [if] through
    its [else], [Raise] goes to the [except] clause. *)
Definition primary_result (text : pystr) (results : response F)
  : res (option (result F)) :=
  match results with
  | Raises => Raise ClassifierError
  | NotAList | AList [] => Ok None
  | AList items =>
      fields <- all_fields items ;;
      match sort_desc snd fields with
      | [] => Raise IndexError
      | (primary_emotion :: _) as sorted_results =>
          let normalized_results :=
            map (fun r : scored F => (lower (fst r), snd r)) sorted_results in
          intensity <-
            determine_emotion_intensity text (snd primary_emotion) ;;
          Ok (Some {| emotion := lower (fst primary_emotion);
                      confidence := snd primary_emotion;
                      all_emotions := normalized_results;
                      intensity := intensity;
                      fallback_used := Some false |})
      end
  end.

Definition set_fallback_mode (st : state F) (b : bool) : state F :=
  {| emotion_classifier := emotion_classifier st;
     fallback_mode := b;
     cls_calls := cls_calls st |}.

Definition count_call (st : state F) : state F :=
  {| emotion_classifier := emotion_classifier st;
     fallback_mode := fallback_mode st;
     cls_calls := S (cls_calls st) |}.

(** The tail of the function: the keyword method, marked as fallback. *)
Definition use_fallback (text : pystr) : res (result F) :=
  fallback_result <- fallback_emotion_detection (Some text) ;;
  Ok {| emotion := emotion fallback_result;
        confidence := confidence fallback_result;
        all_emotions := all_emotions fallback_result;
        intensity := intensity fallback_result;
        fallback_used := Some true |}.

(** [not text or len(text.strip()) < 3], for a string *)
Definition too_short (text : pystr) : bool :=
  match text with
  | [] => true
  | _ :: _ => List.length (strip text) <? 3
  end.

Definition analyze_emotion_with_confidence (st : state F)
  (text : option pystr) : res (result F) * state F :=
  match text with
  | None => (Ok (neutral_default [(str "neutral", decimal 3 1)] (Some true)), st)
  | Some t =>
      if too_short t then
        (Ok (neutral_default [(str "neutral", decimal 3 1)] (Some true)), st)
      else
        match fallback_mode st, emotion_classifier st with
        | false, Some model =>
            let results := model (cls_calls st) t in
            let st := count_call st in
            match primary_result t results with
            | Ok (Some r) => (Ok r, st)
            | Ok None | Raise _ =>
                (use_fallback t, set_fallback_mode st true)
            end
        | _, _ => (use_fallback t, st)
        end
  end.

(** Successive requests of one process. *)
Fixpoint analyze_all (st : state F) (texts : list (option pystr))
  : list (res (result F)) * state F :=
  match texts with
  | [] => ([], st)
  | t :: rest =>
      let '(r, st1) := analyze_emotion_with_confidence st t in
      let '(rs, st2) := analyze_all st1 rest in
      (r :: rs, st2)
  end.

(** [initialize_emotion_classifier], run once when the module is loaded;
    [loaded] is [None] when building the model raised. *)
Definition initialize_emotion_classifier (loaded : option (classifier F))
  : state F :=
  match loaded with
  | Some model =>
      {| emotion_classifier := Some model; fallback_mode := false;
         cls_calls := 0 |}
  | None =>
      {| emotion_classifier := None; fallback_mode := true;
         cls_calls := 0 |}
  end.

(** ** [get_persona_greeting] *)

Definition default_greeting : pystr :=
  str "Hello! I'm here to help you with whatever you're feeling.".

(** [persona_data] is [None] for a falsy argument; [randbelow] is the
    generator behind [random.choice]. *)
Definition get_persona_greeting (randbelow : nat -> nat)
  (persona_data : option persona) (intensity : pystr) : res pystr :=
  match persona_data with
  | None => Ok default_greeting
  | Some data =>
      match greeting_variations data with
      | None => Ok default_greeting
      | Some greetings =>
          if 1 <? List.length greetings then
            if str_eqb intensity (str "high") then index greetings 0
            else if str_eqb intensity (str "mild") then index greetings (-1)
            else random_choice randbelow
                   (if 2 <? List.length greetings
                    then slice greetings 1 (-1)
                    else greetings)
          else random_choice randbelow greetings
      end
  end.

End Moodify.

(** ** The specification's wording of the two scoring rules

    [raw_score], [normalized_score], [category_scores],
    [accumulated_intensity] and [intensity_band] follow the sentences of the
    specification, not the loops of the code; the theorems below relate them
    to the functions above.  The section ends with the predicates the
    statements use. *)

Section Wording.
Context {F : FloatOps} {U : Unicode}.

(** A sum taken from left to right, starting at zero. *)
Definition sum_floats (l : list float) : float :=
  fold_left fadd l (of_int 0).

(** The keywords of a category present in the text as substrings. *)
Definition matched_keywords (text_lower : pystr) (data : category F)
  : list pystr :=
  filter (fun keyword => contains keyword text_lower) (keywords data).

(** "len(keyword)/10 + category_weight" *)
Definition keyword_weight (w : float) (keyword : pystr) : float :=
  fadd (fdiv (of_int (List.length keyword)) (of_int 10)) w.

(** "the sum over matched keywords of len(keyword)/10 + category_weight" *)
Definition raw_score (text_lower : pystr) (data : category F) : float :=
  sum_floats
    (map (keyword_weight (weight data)) (matched_keywords text_lower data)).

Definition word_count (text_lower : pystr) : nat :=
  List.length (split text_lower).

(** "min(raw_score/word_count(text) + matches*0.1, 1.0)" *)
Definition normalized_score (text_lower : pystr) (data : category F)
  : float :=
  pymin
    (fadd (fdiv (raw_score text_lower data) (of_int (word_count text_lower)))
          (fmul (of_int (List.length (matched_keywords text_lower data)))
                (decimal 1 1)))
    (of_int 1).

Definition has_match (text_lower : pystr) (entry : pystr * category F)
  : bool :=
  0 <? List.length (matched_keywords text_lower (snd entry)).

(** The normalized score of every category with a match, in declaration
    order. *)
Definition category_scores (text_lower : pystr)
  (cats : list (pystr * category F)) : list (scored F) :=
  map (fun entry => (fst entry, normalized_score text_lower (snd entry)))
      (filter (has_match text_lower) cats).

(** "ratio defined as 0 for empty text" *)
Definition uppercase_ratio (text : pystr) : float :=
  match text with
  | [] => of_int 0
  | _ :: _ =>
      fdiv (of_int (List.length (filter isupper text)))
           (of_int (List.length text))
  end.

(** The base confidence, plus 0.1 per intensifier present, plus 0.2 for
    shouting, plus the capped exclamation bonus. *)
Definition accumulated_intensity (text : pystr) (base : float) : float :=
  let present :=
    filter (fun word => contains word (lower text)) high_intensity_words in
  let s := fold_left (fun acc _ => fadd acc (decimal 1 1)) present base in
  let s :=
    if flt (decimal 3 1) (uppercase_ratio text)
    then fadd s (decimal 2 1) else s in
  fadd s (pymin (fmul (of_int (count_char 33%N text)) (decimal 1 1))
                (decimal 3 1)).

Definition intensity_band (score : float) : pystr :=
  if fle (decimal 8 1) score then str "high"
  else if fle (decimal 5 1) score then str "moderate"
  else str "mild".

(** The result is one of the three intensity names. *)
Definition is_intensity (s : pystr) : Prop :=
  s = str "mild" \/ s = str "moderate" \/ s = str "high".

(** A result dict as the callers read it: the key ['fallback_used'] is
    present and the intensity is one of the three names. *)
Definition well_formed (r : result F) : Prop :=
  (exists b, fallback_used r = Some b) /\ is_intensity (intensity r).

(** A keyword with an ASCII character that is not whitespace. *)
Definition keyword_has_letter (keyword : pystr) : bool :=
  existsb (fun c => (c <? 128)%N && negb (ascii_isspace c)) keyword.

(** The result of the short-circuit on a missing or too short text. *)
Definition short_circuit_result : result F :=
  {| emotion := str "neutral";
     confidence := decimal 3 1;
     all_emotions := [(str "neutral", decimal 3 1)];
     intensity := str "mild";
     fallback_used := Some true |}.

(** Two result dicts that agree on the four analysis fields. *)
Definition same_analysis (a b : result F) : Prop :=
  emotion a = emotion b /\ confidence a = confidence b
  /\ intensity a = intensity b /\ all_emotions a = all_emotions b.

(** The items of a well-formed answer of the model. *)
Definition items_of (fields : list (scored F)) : list (item F) :=
  map (fun p => Item (fst p) (snd p)) fields.
End Wording.

(** ** Doubles that are not NaN

    What is needed to see that the scores the keyword classifier compares
    are ordered: the sign of the results of the operations, and the finitely
    many sums the keyword loop can reach. *)

(** Not a NaN, with the sign [s]. *)
Definition sf_signed (s : bool) (x : spec_float) : Prop :=
  match x with
  | S754_nan => False
  | S754_zero s' | S754_infinity s' | S754_finite s' _ _ => s' = s
  end.

(** Zero, a positive finite number or plus infinity. *)
Definition sf_nonneg (x : spec_float) : Prop := sf_signed false x.

Definition sf_finite_pos (x : spec_float) : bool :=
  match x with
  | S754_finite false _ _ => true
  | _ => false
  end.

(** The rank of a non-negative double, compared lexicographically. *)
Definition sf_key (x : spec_float) : Z * Z * Z :=
  match x with
  | S754_zero _ | S754_nan => (0, 0, 0)%Z
  | S754_finite _ m e => (1, e, Z.pos m)%Z
  | S754_infinity _ => (2, 0, 0)%Z
  end.

Definition lex_lt (a b : Z * Z * Z) : Prop :=
  let '(a1, a2, a3) := a in
  let '(b1, b2, b3) := b in
  (a1 < b1 \/ (a1 = b1 /\ (a2 < b2 \/ (a2 = b2 /\ a3 < b3))))%Z.

(** Two finite doubles with the same representation. *)
Definition sf_eqb (x y : spec_float) : bool :=
  match x, y with
  | S754_finite s1 m1 e1, S754_finite s2 m2 e2 =>
      Bool.eqb s1 s2 && Pos.eqb m1 m2 && Z.eqb e1 e2
  | _, _ => false
  end.

(** The union of two ascending lists of sums. *)
Fixpoint merge_sums (l1 : list spec_float) : list spec_float -> list spec_float :=
  fix inner (l2 : list spec_float) : list spec_float :=
    match l1, l2 with
    | [], _ => l2
    | _, [] => l1
    | x :: l1', y :: l2' =>
        if sf_eqb x y then inner l2'
        else if SFltb y x then y :: inner l2'
        else x :: merge_sums l1' l2
    end.

(** Neighbours that repeat are dropped. *)
Fixpoint uniq_sums (l : list spec_float) : list spec_float :=
  match l with
  | [] => []
  | x :: l' =>
      match l' with
      | [] => [x]
      | y :: _ => if sf_eqb x y then uniq_sums l' else x :: uniq_sums l'
      end
  end.

(** The sums the keyword loop can hold after at least one match, the
    keywords having the given weights: each keyword either leaves the sum or
    is added to it, or to the initial zero. *)
Fixpoint reachable_sums (weights sums : list spec_float) : list spec_float :=
  match weights with
  | [] => sums
  | w :: ws =>
      reachable_sums ws
        (uniq_sums
           (merge_sums sums
              (map (fun s => SFadd 53 1024 s w) (b64_of_int 0 :: sums))))
  end.

Definition category_sums (data : category binary64) : list spec_float :=
  reachable_sums
    (map (keyword_weight (F:=binary64) (weight data)) (keywords data)) [].

(** ** Inputs of the concrete runs *)

(** The greetings of the persona 'joy'; each ends with an emoji. *)
Definition joy_greetings : list pystr :=
  [ str "Hey there, sunshine! I can feel your positive energy radiating! "
      ++ [10024%N];
    str "What a beautiful day to be alive! Your joy is absolutely contagious! "
      ++ [127775%N];
    str "Look at you glowing with happiness! This is what pure joy looks like! "
      ++ [9728%N; 65039%N];
    str "I'm practically bouncing with excitement just being here with you! "
      ++ [127881%N];
    str "Your smile is lighting up everything around you right now! "
      ++ [127752%N] ].

Definition joy_persona : persona :=
  {| greeting_variations := Some joy_greetings |}.

(** A model in the manner of the one the application loads, whose labels
    are anger, disgust, fear, joy, neutral, sadness and surprise. *)
Definition disgust_model : classifier binary64 :=
  fun _ _ =>
    AList [ Item (str "disgust") (decimal 90 2);
            Item (str "anger") (decimal 4 2);
            Item (str "neutral") (decimal 2 2);
            Item (str "fear") (decimal 1 2);
            Item (str "joy") (decimal 1 2);
            Item (str "sadness") (decimal 1 2);
            Item (str "surprise") (decimal 1 2) ].

Definition anger_model_fields : list (scored binary64) :=
  [ (str "anger", decimal 55 2);
    (str "disgust", decimal 40 2);
    (str "neutral", decimal 5 2) ].

Definition anger_model : classifier binary64 :=
  fun _ _ => AList (items_of anger_model_fields).

(** A model whose every call raises. *)
Definition raising_model : classifier binary64 := fun _ _ => Raises.

Definition started_with (model : classifier binary64) : state binary64 :=
  initialize_emotion_classifier (Some model).

(** ** More of [app.py]: input validation, activities, quotes *)

From Stdlib Require Import Sorted.

(** A double between 0.0 and 1.0, both included. *)
Definition in_unit_interval (x : spec_float) : Prop :=
  SFleb (b64_of_int 0) x = true /\ SFleb x (b64_of_int 1) = true.

(** The entry [a] does not score less than [b]. *)
Definition score_ge (a b : scored binary64) : Prop :=
  SFltb (snd a) (snd b) = false.

(** [sep.join(words)] *)
Fixpoint join (sep : pystr) (words : list pystr) : pystr :=
  match words with
  | [] => []
  | w :: rest =>
      match rest with
      | [] => w
      | _ :: _ => w ++ sep ++ join sep rest
      end
  end.

(** The table behind [\w] of the [re] module on [str] patterns: a word
    character is an alphanumeric one or the underscore. *)
Class WordChars : Type := {
  isalnum : char -> bool
}.

(** A [dict] with string keys, in insertion order. *)
Fixpoint dict_get {V : Type} (d : list (pystr * V)) (k : pystr) : option V :=
  match d with
  | [] => None
  | (k', v) :: rest => if str_eqb k' k then Some v else dict_get rest k
  end.

(** [d.get(k, default)] *)
Definition dict_get_or {V : Type} (d : list (pystr * V)) (k : pystr)
  (default : V) : V :=
  match dict_get d k with
  | Some v => v
  | None => default
  end.

(** [QUOTES_DATA]: the quotes of each emotion. *)
Definition quotes_table : Type := list (pystr * list pystr).

(** What reading and parsing [quotes.json] can do; a parsed file is taken
    to be an object whose values are lists of strings. *)
Inductive load_outcome : Type :=
| LoadRaises
| Loaded (quotes_data : quotes_table).

(** The dict [load_quotes] returns when the file cannot be read. *)
Definition builtin_quotes : quotes_table :=
  [ (str "joy", [str "Keep smiling!"; str "Happiness is contagious!"]);
    (str "sadness", [str "It's okay to feel down. Better days are coming."]);
    (str "anger", [str "Take a deep breath. You've got this."]);
    (str "fear", [str "Bravery is not the absence of fear."]);
    (str "surprise", [str "Life is full of surprises!"]);
    (str "love", [str "You are deeply loved."]);
    (str "neutral", [str "Keep going. You're doing fine."]) ].

(** [load_quotes] *)
Definition load_quotes (file : load_outcome) : quotes_table :=
  match file with
  | Loaded quotes_data => quotes_data
  | LoadRaises => builtin_quotes
  end.

(** A value of [MOOD_PERSONAS], as far as [generate_persona_response]
    reads it: the key ['response_patterns'] may be absent. *)
Record response_persona : Type := {
  response_patterns : option (list pystr)
}.

Section MoreOfTheApplication.
Context {U : Unicode} {W : WordChars}.

(** [re.sub] deletes the characters that match
    [[^\w\s\.\!\?\,\;\:\-\(\)]]; it keeps the others. *)
Definition kept_by_filter (c : char) : bool :=
  isalnum c || char_eqb c 95%N      (* \w *)
  || isspace c                      (* \s *)
  || existsb (char_eqb c) (str ".!?,;:-()").

(** [validate_input]: the pair (text or [None], message or [None]). *)
Definition validate_input (text : option pystr)
  : option pystr * option pystr :=
  match text with
  | None | Some [] =>
      (None, Some (str "Please share something about how you're feeling."))
  | Some text =>
      let text := join (str " ") (split text) in
      if List.length text <? 3 then
        (None, Some (str "Please share a bit more about how you're feeling."))
      else if 2000 <? List.length text then
        (Some (slice text 0 2000),
         Some (str "Input was truncated to 2000 characters."))
      else
        let text := filter kept_by_filter text in
        (Some text, None)
  end.

(** [get_time_based_activities] *)
Definition get_time_based_activities (activities : list pystr)
  (current_hour : Z) : list pystr :=
  if ((6 <=? current_hour) && (current_hour <? 12))%Z then
    map (fun activity => str "This morning: " ++ lower activity)
        (slice activities 0 3)
  else if ((12 <=? current_hour) && (current_hour <? 18))%Z then
    map (fun activity => str "This afternoon: " ++ lower activity)
        (slice activities 2 5)
  else
    map (fun activity => str "This evening: " ++ lower activity)
        (slice activities (-3) (Z.of_nat (List.length activities))).

(** The quotes [generate_persona_response] draws from:
    [QUOTES_DATA.get(emotion, QUOTES_DATA.get('neutral', [...]))]. *)
Definition quotes_for (QUOTES_DATA : quotes_table) (emotion : pystr)
  : list pystr :=
  dict_get_or QUOTES_DATA emotion
    (dict_get_or QUOTES_DATA (str "neutral") [str "You're doing great!"]).

(** [generate_persona_response]; [persona_data] is [None] for a falsy
    argument, [draw_quote] and [draw_pattern] are the generator at the first
    and at the second [random.choice]. *)
Definition generate_persona_response (QUOTES_DATA : quotes_table)
  (draw_quote draw_pattern : nat -> nat) (emotion : pystr)
  (persona_data : option response_persona) (intensity : pystr) : res pystr :=
  match persona_data with
  | None => Ok (str "Stay strong. You've got this! " ++ [128170%N])
  | Some data =>
      let emotion_quotes := quotes_for QUOTES_DATA emotion in
      quote <-
        (if 3 <? List.length emotion_quotes then
           if str_eqb intensity (str "high") then
             random_choice draw_quote
               (slice emotion_quotes (-2)
                      (Z.of_nat (List.length emotion_quotes)))
           else if str_eqb intensity (str "mild") then
             random_choice draw_quote (slice emotion_quotes 0 2)
           else random_choice draw_quote (slice emotion_quotes 1 (-1))
         else random_choice draw_quote emotion_quotes) ;;
      match response_patterns data with
      | Some patterns =>
          enhancement <- random_choice draw_pattern patterns ;;
          Ok (enhancement ++ str " " ++ quote)
      | None => Ok quote
      end
  end.

(** The quotes an intensity selects among more than three: the last two,
    the first two, or all but the first and the last. *)
Definition quote_pool (emotion_quotes : list pystr) (intensity : pystr)
  : list pystr :=
  if str_eqb intensity (str "high") then
    skipn (List.length emotion_quotes - 2) emotion_quotes
  else if str_eqb intensity (str "mild") then firstn 2 emotion_quotes
  else removelast (tl emotion_quotes).

End MoreOfTheApplication.

(** The word characters of ASCII: digits and letters. *)
Definition ascii_isalnum (c : char) : bool :=
  ((48 <=? c) && (c <=? 57) || (65 <=? c) && (c <=? 90)
   || (97 <=? c) && (c <=? 122))%N.

Definition ascii_words : WordChars := {| isalnum := ascii_isalnum |}.

(** A word of [split()]: not empty, without whitespace. *)
Definition is_word {U : Unicode} (w : pystr) : Prop :=
  w <> [] /\ forall c, In c w -> isspace c = false.

(** [' '.join(text.split())] *)
Definition normalize_spaces {U : Unicode} (text : pystr) : pystr :=
  join (str " ") (split text).

(** A [quotes.json] with five quotes for 'joy'. *)
Definition five_joy_quotes : quotes_table :=
  [ (str "joy",
     [ str "Joy is the simplest form of gratitude.";
       str "Happiness is contagious!";
       str "Keep smiling!";
       str "Today is a good day to have a good day.";
       str "Let your joy be loud." ]);
    (str "neutral", [str "Keep going. You're doing fine."]) ].

(** The response patterns of the persona of 'joy'. *)
Definition joy_responses : response_persona :=
  {| response_patterns :=
       Some [ str "That's absolutely wonderful!";
              str "I love hearing about your happiness!";
              str "Your joy is so inspiring!";
              str "This calls for a celebration!";
              str "You deserve all this happiness!" ] |}.

(** A double that is not a NaN. *)
Definition not_nan (x : spec_float) : Prop := x <> S754_nan.

(** The rank of a double that is not a NaN, compared lexicographically:
    minus infinity, the negative numbers, the zeros, the positive numbers,
    plus infinity. *)
Definition sf_rank (x : spec_float) : Z * Z * Z :=
  match x with
  | S754_nan | S754_zero _ => (0, 0, 0)%Z
  | S754_infinity true => (-2, 0, 0)%Z
  | S754_infinity false => (2, 0, 0)%Z
  | S754_finite true m e => (-1, - e, - Z.pos m)%Z
  | S754_finite false m e => (1, e, Z.pos m)%Z
  end.

(** An answer of the model that is not in order of score, with two equal
    scores and a label outside the closed set. *)
Definition unsorted_model_fields : list (scored binary64) :=
  [ (str "neutral", decimal 5 2);
    (str "Anger", decimal 40 2);
    (str "joy", decimal 15 2);
    (str "DISGUST", decimal 40 2) ].

Definition unsorted_model : classifier binary64 :=
  fun _ _ => AList (items_of unsorted_model_fields).

(** ** Facts about the runtime *)

Unset Implicit Arguments.

Section RuntimeFacts.
Context {U : Unicode}.

Lemma char_eqb_eq (a b : char) : char_eqb a b = true <-> a = b.
Proof. unfold char_eqb. apply N.eqb_eq. Qed.

Lemma str_eqb_eq (a b : pystr) : str_eqb a b = true <-> a = b.
Proof.
  revert b. induction a as [|x a IH]; intros [|y b]; simpl;
    try (split; intro H; discriminate H || reflexivity).
  rewrite andb_true_iff, char_eqb_eq, IH.
  split; [intros [-> ->]; reflexivity | intro H; inversion H; auto].
Qed.

Lemma str_eqb_refl (a : pystr) : str_eqb a a = true.
Proof. apply str_eqb_eq. reflexivity. Qed.

Lemma str_eqb_neq (a b : pystr) : a <> b -> str_eqb a b = false.
Proof.
  intro H. destruct (str_eqb a b) eqn:E; [|reflexivity].
  apply str_eqb_eq in E. contradiction.
Qed.

(** A prefix is an initial segment. *)
Lemma startswith_app (p s : pystr) :
  startswith p s = true -> exists rest, s = p ++ rest.
Proof.
  revert s. induction p as [|c p IH]; intros s H.
  - exists s. reflexivity.
  - destruct s as [|d s]; simpl in H; [discriminate|].
    apply andb_true_iff in H. destruct H as [Hc Hp].
    apply char_eqb_eq in Hc. subst d.
    destruct (IH _ Hp) as [rest ->]. exists rest. reflexivity.
Qed.

(** [sub in s] finds an occurrence. *)
Lemma contains_occurrence (sub s : pystr) :
  contains sub s = true -> exists pre post, s = pre ++ sub ++ post.
Proof.
  induction s as [|d s IH]; simpl; intro H.
  - rewrite orb_false_r in H. apply startswith_app in H.
    destruct H as [rest ->]. exists [], rest. reflexivity.
  - apply orb_true_iff in H. destruct H as [H|H].
    + apply startswith_app in H. destruct H as [rest ->].
      exists [], rest. reflexivity.
    + destruct (IH H) as (pre & post & ->).
      exists (d :: pre), post. reflexivity.
Qed.

Lemma contains_In (sub s : pystr) (c : char) :
  contains sub s = true -> In c sub -> In c s.
Proof.
  intros H Hc. destruct (contains_occurrence _ _ H) as (pre & post & ->).
  apply in_or_app. right. apply in_or_app. left. exact Hc.
Qed.

(** A word being read is always delivered. *)
Lemma split_from_pending (s cur : pystr) :
  cur <> [] -> split_from s cur <> [].
Proof.
  revert cur. induction s as [|c s IH]; intros cur Hcur; simpl.
  - destruct cur; [contradiction | discriminate].
  - destruct (isspace c).
    + destruct cur; [contradiction | discriminate].
    + apply IH. discriminate.
Qed.

(** A text with a non-whitespace character has at least one word. *)
Lemma split_from_nonspace (s cur : pystr) (c : char) :
  In c s -> isspace c = false -> split_from s cur <> [].
Proof.
  revert cur. induction s as [|d s IH]; intros cur Hin Hc; [contradiction|].
  simpl. destruct Hin as [->|Hin].
  - rewrite Hc. apply split_from_pending. discriminate.
  - destruct (isspace d).
    + destruct cur; [apply IH; assumption | discriminate].
    + apply IH; assumption.
Qed.

Lemma split_nonspace (s : pystr) (c : char) :
  In c s -> isspace c = false -> 0 < List.length (split s).
Proof.
  intros Hin Hc. unfold split.
  pose proof (split_from_nonspace s [] c Hin Hc) as H.
  destruct (split_from s []); [contradiction | simpl; lia].
Qed.

(** The indexing used by the greeting selection. *)
Lemma index_first {A : Type} (x : A) (l : list A) : index (x :: l) 0 = Ok x.
Proof. reflexivity. Qed.

Lemma index_last {A : Type} (l : list A) (x : A) :
  index (l ++ [x]) (-1) = Ok x.
Proof.
  unfold index, norm_index. rewrite length_app. cbn [List.length].
  change (-1 <? 0)%Z with true. cbv iota.
  assert (E : (-1 + Z.of_nat (List.length l + 1))%Z
              = Z.of_nat (List.length l)) by lia.
  rewrite E. clear E.
  destruct (Z.ltb_spec (Z.of_nat (List.length l)) 0); [lia|].
  rewrite Nat2Z.id, nth_error_app2, Nat.sub_diag by lia. reflexivity.
Qed.

Lemma index_nat {A : Type} (l : list A) (k : nat) :
  k < List.length l ->
  exists x, index l (Z.of_nat k) = Ok x /\ nth_error l k = Some x.
Proof.
  intro Hk. unfold index, norm_index.
  assert (E0 : (Z.of_nat k <? 0)%Z = false) by (apply Z.ltb_ge; lia).
  rewrite !E0, Nat2Z.id.
  destruct (nth_error l k) as [x|] eqn:E.
  - exists x. split; reflexivity.
  - apply nth_error_None in E. lia.
Qed.

(** [l[1:-1]] drops the first and the last element. *)
Lemma slice_interior {A : Type} (x y : A) (mid : list A) :
  slice (x :: mid ++ [y]) 1 (-1) = mid.
Proof.
  unfold slice, clamp, norm_index.
  change (1 <? 0)%Z with false. change (-1 <? 0)%Z with true. cbv iota.
  cbn [List.length]. rewrite length_app. cbn [List.length].
  set (n := List.length mid).
  assert (Ea : Z.to_nat (Z.min (Z.max 0 1) (Z.of_nat (S (n + 1)))) = 1)
    by lia.
  assert (Eb : Z.to_nat (Z.min (Z.max 0 (-1 + Z.of_nat (S (n + 1))))
                               (Z.of_nat (S (n + 1)))) = S n) by lia.
  rewrite Ea, Eb. cbn [skipn]. replace (S n - 1) with n by lia.
  subst n. rewrite firstn_app, Nat.sub_diag, firstn_all.
  cbn [firstn]. apply app_nil_r.
Qed.
End RuntimeFacts.

(** ** Facts about the classifier functions *)

Section ClassifierFacts.
Context {F : FloatOps} {U : Unicode}.

Lemma keywords_checked :
  forallb (fun entry : pystr * category F =>
             forallb keyword_has_letter (keywords (snd entry)))
          EMOTION_KEYWORDS = true.
Proof. vm_compute. reflexivity. Qed.

Lemma keyword_nonspace (e : pystr) (d : category F) (keyword : pystr) :
  In (e, d) EMOTION_KEYWORDS -> In keyword (keywords d) ->
  exists c, In c keyword /\ isspace c = false.
Proof.
  intros He Hk. pose proof keywords_checked as H.
  rewrite forallb_forall in H. specialize (H _ He). simpl in H.
  rewrite forallb_forall in H. specialize (H _ Hk).
  unfold keyword_has_letter in H. apply existsb_exists in H.
  destruct H as (c & Hc & Hb). apply andb_true_iff in Hb.
  destruct Hb as [Hlt Hsp]. apply N.ltb_lt in Hlt.
  exists c. split; [exact Hc|].
  rewrite (isspace_ascii Hlt). now apply negb_true_iff.
Qed.

Lemma labels_of_keywords : map fst EMOTION_KEYWORDS = EMOTION_LABELS.
Proof. reflexivity. Qed.

Lemma labels_distinct : NoDup EMOTION_LABELS.
Proof.
  vm_compute.
  repeat (constructor; [simpl; intuition discriminate|]). constructor.
Qed.

(** The keyword loop computes the left-to-right sum and the count of the
    keywords present. *)
Lemma keyword_loop (text_lower : pystr) (w : float) (kws : list pystr)
  (score : float) (matches : nat) :
  let present := filter (fun keyword => contains keyword text_lower) kws in
  fold_left (keyword_step text_lower w) kws (score, matches)
  = (fold_left fadd
       (map (fun keyword =>
               fadd (fdiv (of_int (List.length keyword)) (of_int 10)) w)
            present)
       score,
     matches + List.length present).
Proof.
  revert score matches. induction kws as [|k kws IH]; intros score matches.
  - simpl. now rewrite Nat.add_0_r.
  - simpl. destruct (contains k text_lower) eqn:E.
    + rewrite IH. simpl. f_equal. lia.
    + apply IH.
Qed.

Lemma keyword_loop_from_zero (text_lower : pystr) (data : category F) :
  fold_left (keyword_step text_lower (weight data)) (keywords data)
            (of_int 0, 0)
  = (raw_score text_lower data,
     List.length (matched_keywords text_lower data)).
Proof. apply keyword_loop. Qed.

(** A new key goes to the end of the dict. *)
Lemma dict_set_fresh (scores : list (scored F)) (k : pystr) (v : float) :
  ~ In k (map fst scores) -> dict_set scores k v = scores ++ [(k, v)].
Proof.
  induction scores as [|[k' v'] scores IH]; intro Hk; [reflexivity|].
  simpl in *. rewrite str_eqb_neq by tauto. f_equal. apply IH. tauto.
Qed.

(** A category with a match sits in a text that has a word. *)
Lemma match_gives_word (text_lower : pystr) (e : pystr) (d : category F) :
  In (e, d) EMOTION_KEYWORDS ->
  0 < List.length (matched_keywords text_lower d) ->
  0 < word_count text_lower.
Proof.
  intros He Hm. unfold matched_keywords in Hm.
  destruct (filter _ (keywords d)) as [|kw rest] eqn:E; [simpl in Hm; lia|].
  assert (Hin : In kw (filter (fun keyword => contains keyword text_lower)
                              (keywords d))) by (rewrite E; now left).
  apply filter_In in Hin. destruct Hin as [Hkw Hc].
  destruct (keyword_nonspace _ _ _ He Hkw) as (c & Hck & Hsp).
  apply split_nonspace with c; [|exact Hsp].
  eapply contains_In; eassumption.
Qed.

Lemma category_scores_cons (text_lower : pystr) (e : pystr) (d : category F)
  (cats : list (pystr * category F)) :
  category_scores text_lower ((e, d) :: cats)
  = if 0 <? List.length (matched_keywords text_lower d)
    then (e, normalized_score text_lower d) :: category_scores text_lower cats
    else category_scores text_lower cats.
Proof.
  unfold category_scores. cbn [filter]. unfold has_match at 1. cbn [snd].
  destruct (0 <? List.length (matched_keywords text_lower d)); reflexivity.
Qed.

(** The loop over the categories never divides by zero and leaves the
    scores of the matching categories, in declaration order. *)
Lemma score_categories_spec (text_lower : pystr)
  (cats : list (pystr * category F)) :
  incl cats EMOTION_KEYWORDS -> NoDup (map fst cats) ->
  forall scores : list (scored F),
    (forall k, In k (map fst scores) -> ~ In k (map fst cats)) ->
    score_categories text_lower cats scores
    = Ok (scores ++ category_scores text_lower cats).
Proof.
  induction cats as [|[e d] cats IH]; intros Hincl Hnd scores Hdisj.
  - simpl. now rewrite app_nil_r.
  - assert (He : In (e, d) EMOTION_KEYWORDS) by (apply Hincl; now left).
    assert (Hincl' : incl cats EMOTION_KEYWORDS)
      by (intros x Hx; apply Hincl; now right).
    inversion Hnd as [|? ? Hnotin Hnd']; subst.
    cbn [score_categories]. rewrite keyword_loop_from_zero.
    rewrite category_scores_cons.
    destruct (0 <? List.length (matched_keywords text_lower d)) eqn:Em.
    + apply Nat.ltb_lt in Em.
      pose proof (match_gives_word text_lower e d He Em) as Hw.
      unfold word_count in Hw. unfold truediv.
      destruct (List.length (split text_lower)) as [|n] eqn:En; [lia|].
      cbn [bind]. rewrite dict_set_fresh.
      2:{ intro Hk. apply (Hdisj _ Hk). now left. }
      rewrite IH; try assumption.
      * rewrite <- app_assoc. cbn [app].
        unfold normalized_score, word_count. rewrite En. reflexivity.
      * intros k Hk. rewrite map_app in Hk. apply in_app_or in Hk.
        destruct Hk as [Hk|Hk].
        -- intro Hin. apply (Hdisj _ Hk). now right.
        -- simpl in Hk. destruct Hk as [<-|[]]. exact Hnotin.
    + apply IH; try assumption.
      intros k Hk Hin. apply (Hdisj _ Hk). now right.
Qed.

Lemma scores_of_text (text_lower : pystr) :
  score_categories text_lower EMOTION_KEYWORDS []
  = Ok (category_scores text_lower EMOTION_KEYWORDS).
Proof.
  rewrite score_categories_spec; try reflexivity.
  - apply incl_refl.
  - rewrite labels_of_keywords. apply labels_distinct.
  - intros k [].
Qed.

Lemma category_scores_labels (text_lower : pystr) (e : pystr) (s : float) :
  In (e, s) (category_scores text_lower EMOTION_KEYWORDS) ->
  In e EMOTION_LABELS.
Proof.
  unfold category_scores. intro H. apply in_map_iff in H.
  destruct H as ([e' d] & Heq & Hin). inversion Heq; subst.
  apply filter_In in Hin. destruct Hin as [Hin _].
  rewrite <- labels_of_keywords. apply in_map_iff.
  exists (e, d). split; [reflexivity | exact Hin].
Qed.

(** The loop over the intensifiers adds one increment per word present. *)
Lemma intensity_loop (text_lower : pystr) (words : list pystr) (base : float) :
  fold_left (intensity_word_step text_lower) words base
  = fold_left (fun acc _ => fadd acc (decimal 1 1))
              (filter (fun word => contains word text_lower) words) base.
Proof.
  revert base. induction words as [|w words IH]; intro base; [reflexivity|].
  simpl. unfold intensity_word_step at 2.
  destruct (contains w text_lower); simpl; apply IH.
Qed.

Lemma caps_ratio_total (text : pystr) :
  match text with
  | [] => Ok (of_int 0)
  | _ :: _ => int_truediv (List.length (filter isupper text)) (List.length text)
  end = Ok (uppercase_ratio text).
Proof. destruct text; reflexivity. Qed.

Lemma intensity_band_is_intensity (s : float) : is_intensity (intensity_band s).
Proof.
  unfold intensity_band, is_intensity.
  destruct (fle (decimal 8 1) s); [tauto|].
  destruct (fle (decimal 5 1) s); tauto.
Qed.

(** [max] returns one of the items. *)
Lemma max_by_In {A : Type} (key : A -> float) (rest : list A) (cur : A) :
  In (max_by key cur rest) (cur :: rest).
Proof.
  revert cur. induction rest as [|x rest IH]; intro cur; [now left|].
  simpl. specialize (IH (if fgt (key x) (key cur) then x else cur)).
  destruct IH as [IH|IH].
  - rewrite <- IH. destruct (fgt (key x) (key cur)); auto.
  - right. now right.
Qed.

(** With a strict weak order on the keys, [max] returns the first of the
    greatest items: what stands before it is strictly smaller, nothing after
    it is strictly greater. *)
Lemma max_by_first_greatest {ordered : float -> Prop}
  {O : FloatOrder F ordered} {A : Type} (key : A -> float)
  (rest before after : list A) (cur : A) :
  (forall x, In x (before ++ cur :: after ++ rest) -> ordered (key x)) ->
  (forall x, In x before -> flt (key x) (key cur) = true) ->
  (forall x, In x after -> flt (key cur) (key x) = false) ->
  exists before' after',
    before ++ cur :: after ++ rest = before' ++ max_by key cur rest :: after'
    /\ (forall x, In x before' ->
          flt (key x) (key (max_by key cur rest)) = true)
    /\ (forall x, In x after' ->
          flt (key (max_by key cur rest)) (key x) = false).
Proof.
  revert before after cur.
  induction rest as [|y rest IH]; intros before after cur Hord Hb Ha.
  - exists before, after. rewrite app_nil_r. auto.
  - assert (Hcur : ordered (key cur))
      by (apply Hord, in_or_app; right; now left).
    assert (Hy : ordered (key y)).
    { apply Hord, in_or_app. right. right. apply in_or_app. right. now left. }
    assert (Hbefore : forall x, In x before -> ordered (key x))
      by (intros x Hx; apply Hord, in_or_app; now left).
    assert (Hafter : forall x, In x after -> ordered (key x)).
    { intros x Hx. apply Hord, in_or_app. right. right.
      apply in_or_app. now left. }
    cbn [max_by]. unfold fgt. destruct (flt (key cur) (key y)) eqn:E.
    + destruct (IH (before ++ cur :: after) [] y) as (b' & a' & Heq & Hb' & Ha').
      * intros x Hx. apply Hord. rewrite <- app_assoc in Hx. exact Hx.
      * intros x Hx. apply in_app_or in Hx. destruct Hx as [Hx|[<-|Hx]].
        -- apply (flt_trans (key x) (key cur) (key y)); auto.
        -- exact E.
        -- destruct (flt (key x) (key y)) eqn:Exy; [reflexivity|].
           rewrite (flt_negtrans (key cur) (key x) (key y)) in E;
             auto; discriminate.
      * intros x [].
      * exists b', a'. split; [|auto].
        rewrite <- Heq. cbn [app]. rewrite <- !app_assoc. reflexivity.
    + destruct (IH before (after ++ [y]) cur) as (b' & a' & Heq & Hb' & Ha').
      * intros x Hx. apply Hord. rewrite <- app_assoc in Hx. exact Hx.
      * exact Hb.
      * intros x Hx. apply in_app_or in Hx. destruct Hx as [Hx|[<-|[]]].
        -- apply Ha; exact Hx.
        -- exact E.
      * exists b', a'. split; [|auto].
        rewrite <- Heq. rewrite <- !app_assoc. reflexivity.
Qed.

End ClassifierFacts.

(** ** The keyword classifier and the intensity estimator *)

Section ClassifierClaims.
Context {F : FloatOps} {U : Unicode}.

Lemma intensity_eq (text : pystr) (confidence : float) :
  determine_emotion_intensity text confidence
  = Ok (intensity_band (accumulated_intensity text confidence)).
Proof.
  unfold determine_emotion_intensity. rewrite caps_ratio_total. cbn [bind].
  rewrite intensity_loop. unfold fgt, fge.
  fold (accumulated_intensity text confidence).
  unfold intensity_band.
  destruct (fle (decimal 8 1) (accumulated_intensity text confidence));
    [reflexivity|].
  destruct (fle (decimal 5 1) (accumulated_intensity text confidence));
    reflexivity.
Qed.

Lemma neutral_is_label : In (str "neutral") EMOTION_LABELS.
Proof. unfold EMOTION_LABELS. do 6 right. left. reflexivity. Qed.

Lemma mild_is_intensity : is_intensity (str "mild").
Proof. left. reflexivity. Qed.

(** A text without any keyword has no scored category. *)
Lemma no_match_no_scores (text_lower : pystr) (cats : list (pystr * category F)) :
  (forall e d keyword, In (e, d) cats -> In keyword (keywords d) ->
     contains keyword text_lower = false) ->
  category_scores text_lower cats = [].
Proof.
  induction cats as [|[e d] cats IH]; intro H; [reflexivity|].
  rewrite category_scores_cons.
  assert (Hm : matched_keywords text_lower d = []).
  { unfold matched_keywords.
    assert (Hk : forall keyword, In keyword (keywords d) ->
                   contains keyword text_lower = false)
      by (intros k Hk; apply (H e d k); [now left | exact Hk]).
    induction (keywords d) as [|k ks IHk]; [reflexivity|].
    simpl. rewrite (Hk k) by now left.
    apply IHk. intros k' Hk'. apply Hk. now right. }
  rewrite Hm. simpl. apply IH.
  intros e' d' k Hin. apply (H e' d' k). now right.
Qed.

(** A text with a keyword has a scored category. *)
Lemma match_some_score (text_lower : pystr) (cats : list (pystr * category F))
  (e : pystr) (d : category F) (keyword : pystr) :
  In (e, d) cats -> In keyword (keywords d) ->
  contains keyword text_lower = true ->
  category_scores text_lower cats <> [].
Proof.
  intros He Hk Hc Hnil.
  assert (Hin : In (e, normalized_score text_lower d)
                   (category_scores text_lower cats)).
  { unfold category_scores. apply in_map_iff. exists (e, d).
    split; [reflexivity|]. apply filter_In. split; [exact He|].
    unfold has_match, matched_keywords. cbn [snd]. apply Nat.ltb_lt.
    assert (Hf : In keyword (filter (fun k => contains k text_lower)
                                    (keywords d)))
      by (apply filter_In; split; assumption).
    destruct (filter _ (keywords d)); [contradiction | simpl; lia]. }
  rewrite Hnil in Hin. contradiction.
Qed.

(** The keyword classifier always returns: a dict without the key
    ['fallback_used'], with a label of the closed set and a known intensity. *)
Lemma fallback_total (text : option pystr) :
  exists r, fallback_emotion_detection text = Ok r
            /\ fallback_used r = None
            /\ In (emotion r) EMOTION_LABELS
            /\ is_intensity (intensity r).
Proof.
  destruct text as [[|c t]|].
  - eexists. split; [reflexivity|].
    split; [reflexivity|]. split; [apply neutral_is_label|apply mild_is_intensity].
  - unfold fallback_emotion_detection. rewrite scores_of_text. cbn [bind].
    destruct (category_scores (lower (c :: t)) EMOTION_KEYWORDS)
      as [|first others] eqn:E.
    + eexists. split; [reflexivity|]. split; [reflexivity|].
      split; [apply neutral_is_label|apply mild_is_intensity].
    + pose proof (max_by_In snd others first) as Hin.
      destruct (max_by snd first others) as [pe pc].
      rewrite intensity_eq. cbn [bind].
      eexists. split; [reflexivity|]. cbn. split; [reflexivity|].
      split; [|apply intensity_band_is_intensity].
      apply (category_scores_labels (lower (c :: t)) pe pc).
      rewrite E. exact Hin.
  - eexists. split; [reflexivity|].
    split; [reflexivity|]. split; [apply neutral_is_label|apply mild_is_intensity].
Qed.

(** C6.  For every text and base confidence the estimator returns the band
    of the accumulated score: the base confidence, plus 0.1 for each
    intensifier present in the lowercased text, plus 0.2 when the ratio of
    uppercase characters exceeds 0.3 (the ratio of the empty text being 0),
    plus min(exclamation_count * 0.1, 0.3); the band is 'high' from 0.8,
    'moderate' from 0.5 and 'mild' below.  It never raises. *)
Theorem intensity_estimator_rule (text : pystr) (confidence : float) :
  determine_emotion_intensity text confidence
  = Ok (intensity_band (accumulated_intensity text confidence))
  /\ uppercase_ratio [] = of_int 0
  /\ intensity_band (accumulated_intensity text confidence)
     = (if fge (accumulated_intensity text confidence) (decimal 8 1)
        then str "high"
        else if fge (accumulated_intensity text confidence) (decimal 5 1)
             then str "moderate" else str "mild").
Proof.
  split; [|split].
  - unfold determine_emotion_intensity.
    rewrite caps_ratio_total. cbn [bind]. rewrite intensity_loop.
    unfold fgt, fge. fold (accumulated_intensity text confidence).
    unfold intensity_band.
    destruct (fle (decimal 8 1) (accumulated_intensity text confidence));
      [reflexivity|].
    destruct (fle (decimal 5 1) (accumulated_intensity text confidence));
      reflexivity.
  - reflexivity.
  - reflexivity.
Qed.

(** C10.  Every keyword holds a character that is not whitespace; hence a
    text in which a keyword occurs has at least one word, a text without
    words leaves the loop with no score and without dividing, and the
    normalization never divides by zero: the loop and the classifier return
    for every text. *)
Theorem normalization_never_divides_by_zero :
  (forall e d keyword, In (e, d) EMOTION_KEYWORDS -> In keyword (keywords d) ->
     exists c, In c keyword /\ isspace c = false)
  /\ (forall text_lower e d keyword,
        In (e, d) EMOTION_KEYWORDS -> In keyword (keywords d) ->
        contains keyword text_lower = true ->
        1 <= List.length (split text_lower))
  /\ (forall text_lower, List.length (split text_lower) = 0 ->
        score_categories text_lower EMOTION_KEYWORDS [] = Ok [])
  /\ (forall text_lower, exists scores,
        score_categories text_lower EMOTION_KEYWORDS [] = Ok scores)
  /\ (forall text, exists r, fallback_emotion_detection text = Ok r).
Proof.
  split; [|split; [|split; [|split]]].
  - intros e d keyword He Hk. exact (keyword_nonspace e d keyword He Hk).
  - intros text_lower e d keyword He Hk Hc.
    destruct (keyword_nonspace e d keyword He Hk) as (c & Hin & Hsp).
    apply (split_nonspace text_lower c); [|exact Hsp].
    exact (contains_In keyword text_lower c Hc Hin).
  - intros text_lower Hw. rewrite scores_of_text. f_equal.
    apply no_match_no_scores. intros e d keyword He Hk.
    destruct (contains keyword text_lower) eqn:Hc; [|reflexivity].
    destruct (keyword_nonspace e d keyword He Hk) as (c & Hin & Hsp).
    pose proof (split_nonspace text_lower c
                  (contains_In keyword text_lower c Hc Hin) Hsp).
    lia.
  - intro text_lower. eexists. apply scores_of_text.
  - intro text. destruct (fallback_total text) as (r & Hr & _).
    exists r. exact Hr.
Qed.

(** C9.  On a falsy argument ([None] or the empty string) the keyword
    classifier returns neutral / 0.3 / mild with an empty [all_emotions];
    on a non-empty text in which no keyword occurs it returns the same
    emotion, confidence and intensity with
    [all_emotions = [{'label': 'neutral', 'score': 0.3}]]. *)
Theorem default_branches_differ_in_all_emotions :
  fallback_emotion_detection None
  = Ok {| emotion := str "neutral"; confidence := decimal 3 1;
          all_emotions := []; intensity := str "mild";
          fallback_used := None |}
  /\ fallback_emotion_detection (Some [])
     = Ok {| emotion := str "neutral"; confidence := decimal 3 1;
             all_emotions := []; intensity := str "mild";
             fallback_used := None |}
  /\ forall text : pystr,
       text <> [] ->
       (forall e d keyword,
          In (e, d) EMOTION_KEYWORDS -> In keyword (keywords d) ->
          contains keyword (lower text) = false) ->
       fallback_emotion_detection (Some text)
       = Ok {| emotion := str "neutral"; confidence := decimal 3 1;
               all_emotions := [(str "neutral", decimal 3 1)];
               intensity := str "mild"; fallback_used := None |}.
Proof.
  split; [reflexivity|]. split; [reflexivity|].
  intros text Hne Hno. destruct text as [|c t]; [contradiction|].
  unfold fallback_emotion_detection. rewrite scores_of_text. cbn [bind].
  rewrite (no_match_no_scores (lower (c :: t)) EMOTION_KEYWORDS Hno).
  reflexivity.
Qed.

(** The choice of the primary emotion, for any arithmetic whose comparison
    orders the scores of the text. *)
Lemma first_greatest_of_ordered_scores {ordered : float -> Prop}
  {O : FloatOrder F ordered} (text : pystr) :
  text <> [] ->
  (exists e d keyword,
     In (e, d) EMOTION_KEYWORDS /\ In keyword (keywords d)
     /\ contains keyword (lower text) = true) ->
  (forall e s, In (e, s) (category_scores (lower text) EMOTION_KEYWORDS) ->
     ordered s) ->
  exists r before after,
    fallback_emotion_detection (Some text) = Ok r
    /\ category_scores (lower text) EMOTION_KEYWORDS
       = before ++ (emotion r, confidence r) :: after
    /\ (forall e s, In (e, s) before -> flt s (confidence r) = true)
    /\ (forall e s, In (e, s) after -> flt (confidence r) s = false).
Proof.
  intros Hne (e & d & keyword & He & Hk & Hc) Hord.
  destruct text as [|c t]; [contradiction|].
  unfold fallback_emotion_detection. rewrite scores_of_text. cbn [bind].
  pose proof (match_some_score (lower (c :: t)) EMOTION_KEYWORDS e d keyword
                He Hk Hc) as Hsome.
  destruct (category_scores (lower (c :: t)) EMOTION_KEYWORDS)
    as [|first others] eqn:E; [contradiction|].
  destruct (max_by_first_greatest snd others [] [] first) as
    (before & after & Heq & Hb & Ha).
  { intros [e' s'] Hin. exact (Hord e' s' Hin). }
  { intros x []. }
  { intros x []. }
  destruct (max_by snd first others) as [pe pc] eqn:Em.
  rewrite intensity_eq. cbn [bind].
  eexists. exists before, after. split; [reflexivity|]. cbn.
  split; [exact Heq|]. split.
  - intros e' s' Hin. exact (Hb (e', s') Hin).
  - intros e' s' Hin. exact (Ha (e', s') Hin).
Qed.

End ClassifierClaims.

(** ** The keyword classifier on doubles *)

Section DoubleFacts.
Context {U : Unicode}.

Lemma iter_pos_invariant {A : Type} (P : A -> Prop) (f : A -> A) :
  (forall x, P x -> P (f x)) -> forall p x, P x -> P (iter_pos f p x).
Proof.
  intro Hf. induction p as [p IH|p IH|]; intros x Hx; simpl; auto.
Qed.

Lemma shr_1_nonneg (mrs : shr_record) :
  (0 <= shr_m mrs -> 0 <= shr_m (shr_1 mrs))%Z.
Proof.
  destruct mrs as [m r s]. destruct m as [|[p|p|]|p]; simpl; lia.
Qed.

Lemma shr_fexp_nonneg (m e : Z) (l : location) :
  (0 <= m -> 0 <= shr_m (fst (shr_fexp 53 1024 m e l)))%Z.
Proof.
  intro Hm. unfold shr_fexp, shr.
  assert (H0 : (0 <= shr_m (shr_record_of_loc m l))%Z)
    by (destruct l as [|[]]; exact Hm).
  destruct (fexp 53 1024 (Zdigits2 m + e) - e)%Z as [|p|p]; cbn [fst];
    try exact H0.
  apply iter_pos_invariant; [exact shr_1_nonneg | exact H0].
Qed.

Lemma round_nearest_even_nonneg (m : Z) (l : location) :
  (0 <= m -> 0 <= round_nearest_even m l)%Z.
Proof.
  intro Hm. destruct l as [|[]]; simpl; try lia.
  destruct (Z.even m); lia.
Qed.

(** Rounding a non-negative mantissa never yields a NaN and keeps the
    sign. *)
Lemma binary_round_aux_signed (s : bool) (mx ex : Z) (lx : location) :
  (0 <= mx)%Z -> sf_signed s (binary_round_aux 53 1024 s mx ex lx).
Proof.
  intro Hm. unfold binary_round_aux.
  pose proof (shr_fexp_nonneg mx ex lx Hm) as H1.
  destruct (shr_fexp 53 1024 mx ex lx) as [mrs' e']. cbn [fst] in H1.
  pose proof (shr_fexp_nonneg _ e' loc_Exact
                (round_nearest_even_nonneg _ (loc_of_shr_record mrs') H1)) as H2.
  destruct (shr_fexp 53 1024 _ e' loc_Exact) as [mrs'' e'']. cbn [fst] in H2.
  destruct (shr_m mrs'') as [|p|p]; [reflexivity | | lia].
  destruct (e'' <=? 1024 - 53)%Z; reflexivity.
Qed.

Lemma binary_round_signed (s : bool) (m : positive) (e : Z) :
  sf_signed s (binary_round 53 1024 s m e).
Proof.
  unfold binary_round.
  destruct (shl_align m e _) as [mz ez].
  apply binary_round_aux_signed. lia.
Qed.

Lemma binary_normalize_nonneg (m e : Z) :
  (0 <= m)%Z -> sf_nonneg (binary_normalize 53 1024 m e false).
Proof.
  intro Hm. destruct m as [|p|p]; simpl; [reflexivity | | lia].
  apply binary_round_signed.
Qed.

Lemma of_int_nonneg (n : nat) : sf_nonneg (b64_of_int n).
Proof. apply binary_normalize_nonneg. lia. Qed.

Lemma SFadd_nonneg (x y : spec_float) :
  sf_nonneg x -> sf_nonneg y -> sf_nonneg (SFadd 53 1024 x y).
Proof.
  unfold sf_nonneg.
  destruct x as [sx|sx| |sx mx ex], y as [sy|sy| |sy my ey]; simpl;
    intros Hx Hy; try contradiction; subst; try reflexivity.
  apply binary_normalize_nonneg. unfold cond_Zopp. lia.
Qed.

Lemma SFmul_nonneg (x y : spec_float) :
  sf_nonneg x -> sf_finite_pos y = true -> sf_nonneg (SFmul 53 1024 x y).
Proof.
  unfold sf_nonneg.
  destruct x as [sx|sx| |sx mx ex], y as [sy|sy| |[] my ey]; simpl;
    intros Hx Hy; try contradiction; try discriminate; subst;
    try reflexivity.
  apply binary_round_aux_signed. lia.
Qed.

(** A positive finite number divided by zero, by a positive finite number
    or by plus infinity is not a NaN. *)
Lemma SFdiv_nonneg (x y : spec_float) :
  sf_finite_pos x = true -> sf_nonneg y -> sf_nonneg (SFdiv 53 1024 x y).
Proof.
  unfold sf_nonneg.
  destruct x as [sx|sx| |[] mx ex], y as [sy|sy| |sy my ey]; simpl;
    intros Hx Hy; try contradiction; try discriminate; subst;
    try reflexivity.
  unfold SFdiv_core_binary.
  match goal with
  | |- context [Z.div_eucl ?a ?b] =>
      assert (Hm' : (0 <= a)%Z);
      [ | pose proof (Z.div_pos a b Hm' ltac:(lia)) as Hq;
          unfold Z.div in Hq; destruct (Z.div_eucl a b) as [q r] ]
  end.
  - destruct (_ - _ - _)%Z as [|p|p]; try lia.
    apply Z.shiftl_nonneg. lia.
  - apply binary_round_aux_signed. exact Hq.
Qed.

Lemma pymin_nonneg (x y : spec_float) :
  sf_nonneg x -> sf_nonneg y -> sf_nonneg (pymin (F:=binary64) x y).
Proof.
  intros Hx Hy. unfold pymin. cbn [flt binary64].
  destruct (SFltb y x); assumption.
Qed.

(** The comparison of non-negative doubles is that of their ranks. *)
Lemma SFltb_key (x y : spec_float) :
  sf_nonneg x -> sf_nonneg y ->
  (SFltb x y = true <-> lex_lt (sf_key x) (sf_key y)).
Proof.
  unfold sf_nonneg, SFltb.
  destruct x as [sx|sx| |sx mx ex], y as [sy|sy| |sy my ey]; simpl;
    intros Hx Hy; try contradiction; subst; simpl;
    try (split; intro H; (discriminate H || reflexivity || lia)).
  change (Pos.compare_cont Eq mx my) with (Pos.compare mx my).
  destruct (Z.compare_spec ex ey); [destruct (Pos.compare_spec mx my)| |];
    split; intro H'; try discriminate H'; try reflexivity; lia.
Qed.

Lemma binary64_ordered : FloatOrder binary64 sf_nonneg.
Proof.
  split; cbn [flt float binary64]; intros a b c Ha Hb Hc.
  - rewrite (SFltb_key a b Ha Hb), (SFltb_key b c Hb Hc),
      (SFltb_key a c Ha Hc).
    unfold lex_lt.
    destruct (sf_key a) as [[a1 a2] a3], (sf_key b) as [[b1 b2] b3],
      (sf_key c) as [[c1 c2] c3]. lia.
  - rewrite <- !not_true_iff_false.
    rewrite (SFltb_key a b Ha Hb), (SFltb_key b c Hb Hc),
      (SFltb_key a c Ha Hc).
    unfold lex_lt.
    destruct (sf_key a) as [[a1 a2] a3], (sf_key b) as [[b1 b2] b3],
      (sf_key c) as [[c1 c2] c3]. lia.
Qed.

Lemma sf_eqb_eq (x y : spec_float) : sf_eqb x y = true -> x = y.
Proof.
  destruct x as [| | |s1 m1 e1], y as [| | |s2 m2 e2]; simpl; try discriminate.
  intro H. apply andb_true_iff in H. destruct H as [H He].
  apply andb_true_iff in H. destruct H as [Hs Hm].
  apply Bool.eqb_prop in Hs. apply Pos.eqb_eq in Hm. apply Z.eqb_eq in He.
  now subst.
Qed.

Lemma merge_sums_In (z : spec_float) (l1 l2 : list spec_float) :
  In z l1 \/ In z l2 -> In z (merge_sums l1 l2).
Proof.
  revert l2. induction l1 as [|x l1 IH1]; intro l2.
  - intros [[]|H]. destruct l2; exact H.
  - induction l2 as [|y l2 IH2]; intro H.
    + destruct H as [H|[]]. exact H.
    + cbn [merge_sums]. fold (merge_sums (x :: l1)).
      destruct (sf_eqb x y) eqn:E.
      * apply sf_eqb_eq in E. subst y. apply IH2.
        destruct H as [H|[H|H]]; auto. left. now left.
      * destruct (SFltb y x).
        -- destruct H as [H|[H|H]]; [right; apply IH2; now left | now left |].
           right. apply IH2. now right.
        -- destruct H as [[H|H]|H]; [now left | |].
           ++ right. apply IH1. now left.
           ++ right. apply IH1. now right.
Qed.

Lemma uniq_sums_In (z : spec_float) (l : list spec_float) :
  In z l -> In z (uniq_sums l).
Proof.
  induction l as [|x l IH]; [auto|]. intro H. cbn [uniq_sums].
  destruct l as [|y l]; [exact H|].
  destruct (sf_eqb x y) eqn:E.
  - apply sf_eqb_eq in E. subst y. apply IH.
    destruct H as [H|H]; [now left | exact H].
  - destruct H as [H|H]; [now left | right; now apply IH].
Qed.

(** A sum that can still grow stays reachable. *)
Lemma reachable_sums_fold (ws : list spec_float) :
  forall (taken : list bool) (sums : list spec_float) (acc : spec_float),
    In acc sums ->
    In (fold_left (SFadd 53 1024)
          (map snd (filter fst (combine taken ws))) acc)
       (reachable_sums ws sums).
Proof.
  induction ws as [|w ws IH]; intros taken sums acc Hacc.
  - destruct taken; exact Hacc.
  - destruct taken as [|b taken]; cbn [combine filter map fold_left].
    + change (In acc (reachable_sums (w :: ws) sums)).
      specialize (IH [] (uniq_sums
                           (merge_sums sums
                              (map (fun s => SFadd 53 1024 s w)
                                   (b64_of_int 0 :: sums)))) acc).
      cbn [combine filter map fold_left] in IH. apply IH.
      apply uniq_sums_In, merge_sums_In. now left.
    + cbn [reachable_sums]. destruct b; cbn [fst filter map fold_left snd].
      * apply IH. apply uniq_sums_In, merge_sums_In. right.
        right. apply (in_map (fun s => SFadd 53 1024 s w)). exact Hacc.
      * apply IH. apply uniq_sums_In, merge_sums_In. now left.
Qed.

(** From zero, once a keyword is taken, the sum is reachable. *)
Lemma reachable_sums_from_zero (ws : list spec_float) :
  forall (taken : list bool) (sums : list spec_float),
    filter fst (combine taken ws) <> [] ->
    In (fold_left (SFadd 53 1024)
          (map snd (filter fst (combine taken ws))) (b64_of_int 0))
       (reachable_sums ws sums).
Proof.
  induction ws as [|w ws IH]; intros taken sums Hne.
  - destruct taken; contradiction.
  - destruct taken as [|b taken]; [contradiction|].
    cbn [combine filter fst] in Hne |- *. cbn [reachable_sums].
    destruct b; cbn [map fold_left snd].
    + apply reachable_sums_fold. apply uniq_sums_In, merge_sums_In. right.
      now left.
    + apply IH. exact Hne.
Qed.

(** The keywords present in a text, as a choice among the keywords. *)
Lemma filter_as_choice {A B : Type} (p : A -> bool) (f : A -> B) (l : list A) :
  map f (filter p l)
  = map snd (filter fst (combine (map p l) (map f l))).
Proof.
  induction l as [|x l IH]; [reflexivity|].
  cbn [map filter combine fst]. destruct (p x); cbn [map snd]; now rewrite IH.
Qed.

Lemma category_sums_checked :
  forallb (fun entry : pystr * category binary64 =>
             forallb sf_finite_pos (category_sums (snd entry)))
          EMOTION_KEYWORDS = true.
Proof. vm_compute. reflexivity. Qed.

(** With a keyword present, the raw score is a positive finite double. *)
Lemma raw_score_finite_pos (text_lower : pystr) (e : pystr)
  (d : category binary64) :
  In (e, d) EMOTION_KEYWORDS ->
  matched_keywords text_lower d <> [] ->
  sf_finite_pos (raw_score text_lower d) = true.
Proof.
  intros He Hm. pose proof category_sums_checked as H.
  rewrite forallb_forall in H. specialize (H _ He). cbn [snd] in H.
  rewrite forallb_forall in H. apply H.
  unfold raw_score, sum_floats, category_sums.
  pose proof (filter_as_choice (fun keyword => contains keyword text_lower)
                (keyword_weight (weight d)) (keywords d)) as Hc.
  fold (matched_keywords text_lower d) in Hc. rewrite Hc.
  apply (reachable_sums_from_zero
           (map (keyword_weight (weight d)) (keywords d))
           (map (fun keyword => contains keyword text_lower) (keywords d)) []).
  intro Hnil. apply Hm.
  apply (map_eq_nil (keyword_weight (weight d))).
  exact (eq_trans Hc (f_equal (map snd) Hnil)).
Qed.

(** No score of a text is a NaN. *)
Lemma category_scores_nonneg (text_lower : pystr) (e : pystr) (s : spec_float) :
  In (e, s) (category_scores (F:=binary64) text_lower EMOTION_KEYWORDS) ->
  sf_nonneg s.
Proof.
  unfold category_scores. intro H. apply in_map_iff in H.
  destruct H as ([e' d] & Heq & Hin). cbn [fst snd] in Heq.
  injection Heq as -> <-.
  apply filter_In in Hin. destruct Hin as [Hin Hmatch].
  unfold has_match in Hmatch. cbn [snd] in Hmatch. apply Nat.ltb_lt in Hmatch.
  assert (Hne : matched_keywords text_lower d <> [])
    by (intro Hnil; rewrite Hnil in Hmatch; simpl in Hmatch; lia).
  unfold normalized_score.
  apply pymin_nonneg; [|apply of_int_nonneg].
  apply SFadd_nonneg.
  - apply SFdiv_nonneg; [|apply of_int_nonneg].
    exact (raw_score_finite_pos text_lower e d Hin Hne).
  - apply SFmul_nonneg; [apply of_int_nonneg | reflexivity].
Qed.

(** C5.  For every non-empty text in which a keyword occurs, on doubles:
    the scores the classifier compares are those of [category_scores], that
    is, for each category with a match, in the declaration order joy,
    sadness, anger, fear, surprise, love, neutral,
    min(raw/word_count + matches*0.1, 1.0) with raw the sum over the matched
    keywords of len(keyword)/10 + weight.  The returned emotion and
    confidence are an entry of that list; every entry before it is strictly
    smaller and no entry after it is greater: the greatest score wins and
    the declaration order breaks ties. *)
Theorem fallback_selects_first_greatest (text : pystr) :
  text <> [] ->
  (exists e d keyword,
     In (e, d) EMOTION_KEYWORDS /\ In keyword (keywords d)
     /\ contains keyword (lower text) = true) ->
  exists r before after,
    fallback_emotion_detection (F:=binary64) (Some text) = Ok r
    /\ category_scores (lower text) EMOTION_KEYWORDS
       = before ++ (emotion r, confidence r) :: after
    /\ map fst (category_scores (lower text) EMOTION_KEYWORDS)
       = map fst (filter (has_match (lower text))
                         (EMOTION_KEYWORDS (F:=binary64)))
    /\ map fst (EMOTION_KEYWORDS (F:=binary64)) = EMOTION_LABELS
    /\ (forall e s, In (e, s) before -> SFltb s (confidence r) = true)
    /\ (forall e s, In (e, s) after -> SFltb (confidence r) s = false).
Proof.
  intros Hne Hmatch.
  destruct (first_greatest_of_ordered_scores (O:=binary64_ordered) text
              Hne Hmatch (category_scores_nonneg (lower text)))
    as (r & before & after & Hr & Hscores & Hbefore & Hafter).
  exists r, before, after.
  split; [exact Hr|]. split; [exact Hscores|].
  split; [|split; [reflexivity | split; [exact Hbefore | exact Hafter]]].
  unfold category_scores. rewrite map_map. reflexivity.
Qed.

End DoubleFacts.

(** ** The pipeline *)

Section PipelineFacts.
Context {F : FloatOps} {U : Unicode}.

Lemma insert_desc_perm {A : Type} (key : A -> float) (x : A) (l : list A) :
  Permutation (insert_desc key x l) (x :: l).
Proof.
  induction l as [|y l IH]; simpl; [apply Permutation_refl|].
  destruct (flt (key x) (key y)).
  - eapply Permutation_trans; [apply perm_skip; exact IH | apply perm_swap].
  - apply Permutation_refl.
Qed.

(** Sorting drops and adds nothing. *)
Lemma sort_desc_perm {A : Type} (key : A -> float) (l : list A) :
  Permutation (sort_desc key l) l.
Proof.
  induction l as [|x l IH]; simpl; [apply perm_nil|].
  eapply Permutation_trans; [apply insert_desc_perm | now apply perm_skip].
Qed.

Lemma all_fields_items_of (fields : list (scored F)) :
  all_fields (items_of fields) = Ok fields.
Proof.
  unfold items_of. induction fields as [|[l s] fields IH]; [reflexivity|].
  cbn [map all_fields item_fields bind fst snd]. rewrite IH. reflexivity.
Qed.

Lemma all_fields_malformed (items : list (item F)) :
  In Malformed items -> forall fields, all_fields items <> Ok fields.
Proof.
  induction items as [|it items IH]; intros Hin fields H; [contradiction|].
  cbn [all_fields] in H. destruct Hin as [->|Hin]; [discriminate|].
  destruct it as [l s|]; [|discriminate]. cbn [item_fields bind] in H.
  destruct (all_fields items) as [xs|] eqn:E; [|discriminate].
  exact (IH Hin xs eq_refl).
Qed.

Lemma all_fields_In (items : list (item F)) (fields : list (scored F)) :
  all_fields items = Ok fields ->
  forall label score, In (label, score) fields -> In (Item label score) items.
Proof.
  revert fields. induction items as [|it items IH]; intros fields H label score Hin.
  - simpl in H. inversion H; subst. contradiction.
  - simpl in H. destruct it as [l s|]; [|discriminate].
    cbn [item_fields bind] in H.
    destruct (all_fields items) as [xs|] eqn:E; [|discriminate].
    cbn [bind] in H. inversion H; subst.
    destruct Hin as [Hin|Hin].
    + inversion Hin; subst. now left.
    + right. apply (IH xs eq_refl). exact Hin.
Qed.

(** What the [try] block returns, when it returns. *)
Lemma primary_result_returns (t : pystr) (results : response F) (r : result F) :
  primary_result t results = Ok (Some r) ->
  exists items fields top rest,
    results = AList items
    /\ all_fields items = Ok fields
    /\ sort_desc snd fields = top :: rest
    /\ r = {| emotion := lower (fst top);
              confidence := snd top;
              all_emotions :=
                map (fun p : scored F => (lower (fst p), snd p)) (top :: rest);
              intensity :=
                intensity_band (accumulated_intensity t (snd top));
              fallback_used := Some false |}.
Proof.
  intro H. destruct results as [| |items]; try discriminate.
  destruct items as [|it items]; [discriminate|].
  unfold primary_result in H.
  destruct (all_fields (it :: items)) as [fields|] eqn:Ef; [|discriminate].
  cbn [bind] in H.
  destruct (sort_desc snd fields) as [|top rest] eqn:Es; [discriminate|].
  rewrite intensity_eq in H. cbn [bind] in H. injection H as <-.
  exists (it :: items), fields, top, rest.
  split; [reflexivity|]. split; [exact Ef|]. split; [exact Es|]. reflexivity.
Qed.

(** The keyword method as the pipeline uses it. *)
Lemma use_fallback_total (t : pystr) :
  exists r0 r,
    fallback_emotion_detection (Some t) = Ok r0
    /\ use_fallback t = Ok r
    /\ fallback_used r = Some true
    /\ same_analysis r r0
    /\ In (emotion r) EMOTION_LABELS
    /\ is_intensity (intensity r).
Proof.
  destruct (fallback_total (Some t)) as (r0 & Hr0 & _ & Hl & Hi).
  unfold use_fallback. rewrite Hr0. cbn [bind].
  exists r0. eexists. split; [reflexivity|]. split; [reflexivity|].
  cbn. unfold same_analysis. cbn. auto 10.
Qed.

Lemma analyze_none (st : state F) :
  analyze_emotion_with_confidence st None = (Ok short_circuit_result, st).
Proof. reflexivity. Qed.

Lemma analyze_short (st : state F) (t : pystr) :
  too_short t = true ->
  analyze_emotion_with_confidence st (Some t) = (Ok short_circuit_result, st).
Proof. intro H. unfold analyze_emotion_with_confidence. now rewrite H. Qed.

(** With the flag set the model is not called. *)
Lemma analyze_in_fallback_mode (st : state F) (t : pystr) :
  fallback_mode st = true -> too_short t = false ->
  analyze_emotion_with_confidence st (Some t) = (use_fallback t, st).
Proof.
  intros Hf Hs. unfold analyze_emotion_with_confidence. now rewrite Hs, Hf.
Qed.

Lemma analyze_without_model (st : state F) (t : pystr) :
  emotion_classifier st = None -> too_short t = false ->
  analyze_emotion_with_confidence st (Some t) = (use_fallback t, st).
Proof.
  intros Hm Hs. unfold analyze_emotion_with_confidence. rewrite Hs, Hm.
  now destruct (fallback_mode st).
Qed.

(** With the flag clear and a model loaded, the model is called once. *)
Lemma analyze_with_model (st : state F) (t : pystr) (model : classifier F) :
  fallback_mode st = false -> emotion_classifier st = Some model ->
  too_short t = false ->
  analyze_emotion_with_confidence st (Some t)
  = match primary_result t (model (cls_calls st) t) with
    | Ok (Some r) => (Ok r, count_call st)
    | _ => (use_fallback t, set_fallback_mode (count_call st) true)
    end.
Proof.
  intros Hf Hm Hs. unfold analyze_emotion_with_confidence.
  rewrite Hs, Hf, Hm.
  destruct (primary_result t (model (cls_calls st) t)) as [[r|]|]; reflexivity.
Qed.

(** A call never clears the flag. *)
Lemma analyze_keeps_flag (st : state F) (text : option pystr) :
  fallback_mode st = true ->
  snd (analyze_emotion_with_confidence st text) = st.
Proof.
  intro Hf. destruct text as [t|]; [|reflexivity].
  destruct (too_short t) eqn:Hs.
  - now rewrite analyze_short.
  - now rewrite analyze_in_fallback_mode.
Qed.

Lemma analyze_flag_result (st : state F) (text : option pystr) :
  fallback_mode st = true ->
  exists r, fst (analyze_emotion_with_confidence st text) = Ok r
            /\ fallback_used r = Some true.
Proof.
  intro Hf. destruct text as [t|].
  - destruct (too_short t) eqn:Hs.
    + rewrite analyze_short by assumption. eexists. split; reflexivity.
    + rewrite analyze_in_fallback_mode by assumption.
      destruct (use_fallback_total t) as (r0 & r & _ & Hr & Hu & _).
      exists r. split; assumption.
  - eexists. split; reflexivity.
Qed.

(** A failure of the model sets the flag. *)
Lemma primary_failure_sets_flag (st : state F) (t : pystr)
  (model : classifier F) :
  fallback_mode st = false -> emotion_classifier st = Some model ->
  too_short t = false ->
  (model (cls_calls st) t = Raises
   \/ model (cls_calls st) t = NotAList
   \/ model (cls_calls st) t = AList []
   \/ exists items, model (cls_calls st) t = AList items /\ In Malformed items) ->
  fallback_mode (snd (analyze_emotion_with_confidence st (Some t))) = true.
Proof.
  intros Hf Hm Hs Hbad. rewrite (analyze_with_model st t model Hf Hm Hs).
  destruct (primary_result t (model (cls_calls st) t)) as [[r|]|] eqn:E;
    try reflexivity.
  exfalso. apply primary_result_returns in E.
  destruct E as (items & fields & top & rest & Hr & Hfields & Hsort & _).
  destruct Hbad as [H|[H|[H|(items' & H & Hin)]]]; rewrite H in Hr;
    try discriminate.
  - inversion Hr; subst. simpl in Hfields. inversion Hfields; subst.
    discriminate.
  - injection Hr as <-.
    exact (all_fields_malformed items' Hin fields Hfields).
Qed.

End PipelineFacts.

Section PipelineClaims.
Context {F : FloatOps} {U : Unicode}.

(** C2.  For every text that is missing, empty, whitespace-only or shorter
    than 3 characters once stripped, the entry point returns neutral, 0.3,
    mild with [fallback_used = True] and leaves the process state as it was:
    the model is not called and the flag is not touched. *)
Theorem short_text_short_circuits (st : state F) (text : option pystr) :
  (text = None \/ exists t, text = Some t /\ List.length (strip t) < 3) ->
  analyze_emotion_with_confidence st text
  = (Ok {| emotion := str "neutral";
           confidence := decimal 3 1;
           all_emotions := [(str "neutral", decimal 3 1)];
           intensity := str "mild";
           fallback_used := Some true |}, st).
Proof.
  intros [->|(t & -> & Hlen)]; [reflexivity|].
  apply analyze_short. unfold too_short.
  destruct t as [|c t]; [reflexivity|].
  now apply Nat.ltb_lt.
Qed.

(** C3.  Once [fallback_mode] is true, every later call of the entry point,
    whatever the texts, leaves it true, does not call the model, and
    returns a result with [fallback_used = True]. *)
Theorem fallback_mode_is_sticky (st : state F) (texts : list (option pystr)) :
  fallback_mode st = true ->
  fallback_mode (snd (analyze_all st texts)) = true
  /\ cls_calls (snd (analyze_all st texts)) = cls_calls st
  /\ Forall (fun r => exists x, r = Ok x /\ fallback_used x = Some true)
            (fst (analyze_all st texts)).
Proof.
  intro Hf. induction texts as [|t texts IH].
  - simpl. auto.
  - cbn [analyze_all].
    pose proof (analyze_keeps_flag st t Hf) as Hst.
    pose proof (analyze_flag_result st t Hf) as Hr.
    destruct (analyze_emotion_with_confidence st t) as [r st1].
    cbn [fst snd] in Hst, Hr. subst st1.
    destruct (analyze_all st texts) as [rs st2].
    cbn [fst snd] in *. destruct IH as (H1 & H2 & H3).
    split; [exact H1|]. split; [exact H2|].
    constructor; [exact Hr | exact H3].
Qed.

(** C1 as the code has it.  For every state and every text the entry point
    returns a result dict with the key ['fallback_used'] and one of the
    three intensities.  When the result comes from the short-circuit or the
    keyword method ([fallback_used = True]) its emotion is in the closed
    set; when it comes from the model ([fallback_used = False]) its emotion
    is the lowercased label of one of the entries the model returned. *)
Theorem analyze_always_returns (st : state F) (text : option pystr) :
  exists r,
    fst (analyze_emotion_with_confidence st text) = Ok r
    /\ well_formed r
    /\ (fallback_used r = Some true /\ In (emotion r) EMOTION_LABELS
        \/ fallback_used r = Some false
           /\ exists t model items label score,
                text = Some t
                /\ emotion_classifier st = Some model
                /\ model (cls_calls st) t = AList items
                /\ In (Item label score) items
                /\ emotion r = lower label).
Proof.
  assert (Hshort : exists r : result F,
             Ok short_circuit_result = Ok r /\ well_formed r
             /\ (fallback_used r = Some true /\ In (emotion r) EMOTION_LABELS
                 \/ fallback_used r = Some false
                    /\ exists t model items label score,
                         text = Some t
                         /\ emotion_classifier st = Some model
                         /\ model (cls_calls st) t = AList items
                         /\ In (Item label score) items
                         /\ emotion r = lower label)).
  { exists short_circuit_result. split; [reflexivity|]. split.
    - split; [exists true; reflexivity | apply mild_is_intensity].
    - left. split; [reflexivity | apply neutral_is_label]. }
  assert (Hfb : forall t, exists r : result F,
             use_fallback t = Ok r /\ well_formed r
             /\ (fallback_used r = Some true /\ In (emotion r) EMOTION_LABELS
                 \/ fallback_used r = Some false
                    /\ exists t model items label score,
                         text = Some t
                         /\ emotion_classifier st = Some model
                         /\ model (cls_calls st) t = AList items
                         /\ In (Item label score) items
                         /\ emotion r = lower label)).
  { intro t. destruct (use_fallback_total t) as (r0 & r & _ & Hr & Hu & _ & Hl & Hi).
    exists r. split; [exact Hr|]. split.
    - split; [exists true; exact Hu | exact Hi].
    - left. split; assumption. }
  destruct text as [t|]; [|exact Hshort].
  destruct (too_short t) eqn:Hs.
  { rewrite analyze_short by assumption. exact Hshort. }
  destruct (fallback_mode st) eqn:Hf.
  { rewrite analyze_in_fallback_mode by assumption. apply Hfb. }
  destruct (emotion_classifier st) as [model|] eqn:Hm.
  2:{ rewrite analyze_without_model by assumption. apply Hfb. }
  rewrite (analyze_with_model st t model Hf Hm Hs).
  destruct (primary_result t (model (cls_calls st) t)) as [[r|]|] eqn:E;
    try apply Hfb.
  apply primary_result_returns in E.
  destruct E as (items & fields & [label score] & rest & Hresp & Hfields
                 & Hsort & ->).
  eexists. split; [reflexivity|]. cbn. split.
  - split; [exists false; reflexivity | apply intensity_band_is_intensity].
  - right. split; [reflexivity|].
    exists t, model, items, label, score.
    repeat split; try assumption; try reflexivity.
    apply (all_fields_In items fields Hfields).
    apply (Permutation_in _ (sort_desc_perm snd fields)).
    rewrite Hsort. now left.
Qed.

(** The result of the primary path on a non-empty list of entries with a
    string label and a float score: the sorted entries, labels lowercased. *)
Lemma primary_path_result (st : state F) (t : pystr)
  (model : classifier F) (fields : list (scored F)) :
  fallback_mode st = false -> emotion_classifier st = Some model ->
  too_short t = false -> fields <> [] ->
  model (cls_calls st) t = AList (items_of fields) ->
  exists r top rest,
    fst (analyze_emotion_with_confidence st (Some t)) = Ok r
    /\ fallback_used r = Some false
    /\ sort_desc snd fields = top :: rest
    /\ Permutation (top :: rest) fields
    /\ all_emotions r
       = map (fun p : scored F => (lower (fst p), snd p)) (top :: rest)
    /\ emotion r = lower (fst top)
    /\ confidence r = snd top.
Proof.
  intros Hf Hm Hs Hne Hresp.
  rewrite (analyze_with_model st t model Hf Hm Hs), Hresp.
  destruct fields as [|f fields]; [contradiction|].
  unfold primary_result. cbn [items_of map].
  change (Item (fst f) (snd f) :: map (fun p => Item (fst p) (snd p)) fields)
    with (items_of (f :: fields)).
  rewrite all_fields_items_of. cbn [bind].
  pose proof (sort_desc_perm snd (f :: fields)) as P.
  destruct (sort_desc snd (f :: fields)) as [|top rest] eqn:Es.
  { apply Permutation_nil in P. discriminate. }
  rewrite intensity_eq. cbn [bind fst].
  eexists. exists top, rest. split; [reflexivity|]. cbn.
  repeat split; try reflexivity. exact P.
Qed.

(** C8.  The keyword classifier is a total function of the text alone: for
    every text there is one result, and every run of the keyword method by
    the pipeline, in whatever process state with the flag set, returns the
    same emotion, confidence, intensity and all_emotions and leaves the
    state unchanged; so do two runs one after the other. *)
Theorem fallback_is_deterministic (text : pystr) :
  exists r0,
    fallback_emotion_detection (Some text) = Ok r0
    /\ forall st : state F,
         fallback_mode st = true -> too_short text = false ->
         exists r,
           analyze_emotion_with_confidence st (Some text) = (Ok r, st)
           /\ same_analysis r r0
           /\ analyze_all st [Some text; Some text] = ([Ok r; Ok r], st).
Proof.
  destruct (use_fallback_total text) as (r0 & r & Hr0 & Hr & _ & Hsame & _).
  exists r0. split; [exact Hr0|].
  intros st Hf Hs. exists r.
  assert (Hcall : analyze_emotion_with_confidence st (Some text) = (Ok r, st))
    by (rewrite analyze_in_fallback_mode by assumption; now rewrite Hr).
  split; [exact Hcall|]. split; [exact Hsame|].
  cbn [analyze_all]. rewrite Hcall. cbv beta iota. rewrite Hcall. reflexivity.
Qed.

End PipelineClaims.

(** ** The greeting *)

Section GreetingClaims.
Context {U : Unicode}.

Lemma random_choice_position {A : Type} (randbelow : nat -> nat) (l : list A) :
  (forall n, 0 < n -> randbelow n < n) -> l <> [] ->
  exists x, random_choice randbelow l = Ok x
            /\ nth_error l (randbelow (List.length l)) = Some x.
Proof.
  intros Hr Hne. destruct l as [|a l]; [contradiction|].
  unfold random_choice. apply index_nat. apply Hr. simpl. lia.
Qed.

(** A list of two or more elements has a first, a last and an interior. *)
Lemma first_interior_last {A : Type} (l : list A) :
  2 <= List.length l ->
  exists first interior last, l = first :: interior ++ [last].
Proof.
  intro H. destruct l as [|x l]; [simpl in H; lia|].
  destruct (exists_last (l:=l)) as (mid & y & ->).
  - intros ->. simpl in H. lia.
  - exists x, mid, y. reflexivity.
Qed.

(** C7.  For a persona whose greeting list has at least 2 elements,
    intensity 'high' returns the first element and 'mild' the last, whatever
    the generator draws; 'moderate' returns [random.choice] of the interior
    (the list without its first and last element) when there are at least 3
    elements and of the whole list otherwise, that is the element at the
    position the generator draws below the length of that list. *)
Theorem greeting_by_intensity (randbelow : nat -> nat) (data : persona)
  (greetings : list pystr) :
  greeting_variations data = Some greetings ->
  2 <= List.length greetings ->
  (forall n, 0 < n -> randbelow n < n) ->
  exists first interior last,
    greetings = first :: interior ++ [last]
    /\ get_persona_greeting randbelow (Some data) (str "high") = Ok first
    /\ get_persona_greeting randbelow (Some data) (str "mild") = Ok last
    /\ (3 <= List.length greetings ->
        get_persona_greeting randbelow (Some data) (str "moderate")
        = random_choice randbelow interior
        /\ exists x, random_choice randbelow interior = Ok x
             /\ nth_error interior (randbelow (List.length interior)) = Some x)
    /\ (List.length greetings = 2 ->
        get_persona_greeting randbelow (Some data) (str "moderate")
        = random_choice randbelow greetings
        /\ exists x, random_choice randbelow greetings = Ok x
             /\ nth_error greetings (randbelow 2) = Some x).
Proof.
  intros Hg Hlen Hr.
  destruct (first_interior_last greetings Hlen) as (x & mid & y & ->).
  exists x, mid, y. split; [reflexivity|].
  assert (Hgt : (1 <? List.length (x :: mid ++ [y])) = true)
    by (apply Nat.ltb_lt; lia).
  unfold get_persona_greeting. rewrite Hg, Hgt.
  split; [reflexivity|]. split.
  - change (str_eqb (str "mild") (str "high")) with false. cbv iota.
    rewrite str_eqb_refl.
    change (x :: mid ++ [y]) with ((x :: mid) ++ [y]). apply index_last.
  - change (str_eqb (str "moderate") (str "high")) with false.
    change (str_eqb (str "moderate") (str "mild")) with false. cbv iota.
    split; intro H3.
    + assert (E : (2 <? List.length (x :: mid ++ [y])) = true)
        by (apply Nat.ltb_lt; lia).
      rewrite E, slice_interior. split; [reflexivity|].
      apply random_choice_position; [exact Hr|].
      intros ->. simpl in H3. lia.
    + assert (E : (2 <? List.length (x :: mid ++ [y])) = false)
        by (apply Nat.ltb_ge; lia).
      rewrite E. split; [reflexivity|].
      destruct (random_choice_position randbelow (x :: mid ++ [y]) Hr)
        as (z & Hz & Hnth); [discriminate|].
      rewrite H3 in Hnth. exists z. split; assumption.
Qed.

End GreetingClaims.

(** ** Concrete runs *)

(** Exact rationals are ordered as [FloatOrder] asks. *)
Lemma Q_flt_lt (a b : Q) : negb (Qle_bool b a) = true <-> (a < b)%Q.
Proof.
  rewrite negb_true_iff. split; intro H.
  - apply Qnot_le_lt. intro Hle. apply Qle_bool_iff in Hle. congruence.
  - destruct (Qle_bool b a) eqn:E; [|reflexivity].
    apply Qle_bool_iff in E. exfalso. exact (Qlt_not_le _ _ H E).
Qed.

Lemma Q_flt_ge (a b : Q) : negb (Qle_bool b a) = false <-> (b <= a)%Q.
Proof. rewrite negb_false_iff. apply Qle_bool_iff. Qed.

Lemma exact_rationals_ordered : FloatOrder exact_rationals (fun _ => True).
Proof.
  split; cbn [flt float exact_rationals]; intros a b c _ _ _.
  - rewrite !Q_flt_lt. apply Qlt_trans.
  - rewrite !Q_flt_ge. intros H1 H2. exact (Qle_trans _ _ _ H2 H1).
Qed.

(** The scenarios of the specification, run on IEEE doubles. *)
Example thrilled_is_joy_and_high :
  (r <- fallback_emotion_detection (F:=binary64) (U:=ascii_unicode)
          (Some (str "I am absolutely thrilled and excited!!!")) ;;
   Ok (emotion r, intensity r))
  = Ok (str "joy", str "high").
Proof. vm_compute. reflexivity. Qed.

Example no_keyword_is_neutral :
  fallback_emotion_detection (F:=binary64) (U:=ascii_unicode)
    (Some (str "xyz qwerty"))
  = Ok {| emotion := str "neutral"; confidence := decimal 3 1;
          all_emotions := [(str "neutral", decimal 3 1)];
          intensity := str "mild"; fallback_used := None |}.
Proof. reflexivity. Qed.

(** Three increments of 0.1 on a base of 0.5: in doubles the sum is
    0.7999999999999999, below the threshold 0.8 that the exact sum reaches;
    the band follows the arithmetic the class is instantiated with. *)
Example rounded_sum_decides_band :
  intensity_band (F:=binary64)
    (fadd (fadd (fadd (decimal 5 1) (decimal 1 1)) (decimal 1 1)) (decimal 1 1))
  = str "moderate"
  /\ intensity_band (F:=exact_rationals)
       (fadd (fadd (fadd (decimal 5 1) (decimal 1 1)) (decimal 1 1))
             (decimal 1 1))
     = str "high".
Proof. split; vm_compute; reflexivity. Qed.

(** Witness of C2: "ok" with a model loaded. *)
Lemma short_text_short_circuits_witness :
  analyze_emotion_with_confidence (U:=ascii_unicode)
    (started_with disgust_model) (Some (str "ok"))
  = (Ok {| emotion := str "neutral";
           confidence := decimal 3 1;
           all_emotions := [(str "neutral", decimal 3 1)];
           intensity := str "mild";
           fallback_used := Some true |}, started_with disgust_model).
Proof.
  apply (short_text_short_circuits (U:=ascii_unicode)).
  right. exists (str "ok"). split; [reflexivity|].
  vm_compute. lia.
Defined.

(** Witness of C3: a model that raises on the first request sets the flag;
    the two requests after it are served by the keyword method. *)
Lemma fallback_mode_is_sticky_witness :
  fallback_mode
    (snd (analyze_emotion_with_confidence (U:=ascii_unicode)
            (started_with raising_model) (Some (str "I am happy today"))))
  = true
  /\ (fallback_mode
        (snd (analyze_all (U:=ascii_unicode)
                (snd (analyze_emotion_with_confidence (U:=ascii_unicode)
                        (started_with raising_model)
                        (Some (str "I am happy today"))))
                [Some (str "I feel great"); Some (str "so sad")])) = true
      /\ cls_calls
           (snd (analyze_all (U:=ascii_unicode)
                   (snd (analyze_emotion_with_confidence (U:=ascii_unicode)
                           (started_with raising_model)
                           (Some (str "I am happy today"))))
                   [Some (str "I feel great"); Some (str "so sad")]))
         = cls_calls
             (snd (analyze_emotion_with_confidence (U:=ascii_unicode)
                     (started_with raising_model)
                     (Some (str "I am happy today"))))
      /\ Forall (fun r => exists x, r = Ok x /\ fallback_used x = Some true)
           (fst (analyze_all (U:=ascii_unicode)
                   (snd (analyze_emotion_with_confidence (U:=ascii_unicode)
                           (started_with raising_model)
                           (Some (str "I am happy today"))))
                   [Some (str "I feel great"); Some (str "so sad")]))).
Proof.
  split; [vm_compute; reflexivity|].
  apply (fallback_mode_is_sticky (U:=ascii_unicode)).
  vm_compute. reflexivity.
Defined.

(** Counterexample to C1 as stated: the model's top label 'disgust' becomes
    the emotion of the result, outside the closed set. *)
Lemma emotion_outside_closed_set :
  (r <- fst (analyze_emotion_with_confidence (U:=ascii_unicode)
               (started_with disgust_model)
               (Some (str "this smell is disgusting"))) ;;
   Ok (emotion r, fallback_used r))
  = Ok (str "disgust", Some false)
  /\ (In (str "disgust") EMOTION_LABELS -> False).
Proof.
  split; [vm_compute; reflexivity|].
  vm_compute. intuition discriminate.
Qed.

(** Counterexample to C4 as stated: the label 'disgust' of the model, which
    is not in the closed set, appears in [all_emotions] as it came, neither
    replaced by 'neutral' nor removed. *)
Lemma unknown_label_kept_in_all_emotions :
  (r <- fst (analyze_emotion_with_confidence (U:=ascii_unicode)
               (started_with anger_model)
               (Some (str "I am angry and disgusted"))) ;;
   Ok (emotion r, map fst (all_emotions r)))
  = Ok (str "anger", [str "anger"; str "disgust"; str "neutral"])
  /\ (In (str "disgust") EMOTION_LABELS -> False).
Proof.
  split; [vm_compute; reflexivity|].
  vm_compute. intuition discriminate.
Qed.

(** The same choice on exact rationals, where every score is ordered. *)
Corollary exact_scores_first_greatest (text : pystr) :
  text <> [] ->
  (exists e d keyword,
     In (e, d) (EMOTION_KEYWORDS (F:=exact_rationals))
     /\ In keyword (keywords d)
     /\ contains keyword (lower (Unicode:=ascii_unicode) text) = true) ->
  exists r before after,
    fallback_emotion_detection (F:=exact_rationals) (U:=ascii_unicode)
      (Some text) = Ok r
    /\ category_scores (lower text) EMOTION_KEYWORDS
       = before ++ (emotion r, confidence r) :: after
    /\ (forall e s, In (e, s) before -> (s < confidence r)%Q)
    /\ (forall e s, In (e, s) after -> (s <= confidence r)%Q).
Proof.
  intros Hne Hmatch.
  destruct (first_greatest_of_ordered_scores (O:=exact_rationals_ordered)
              text Hne Hmatch (fun _ _ _ => I))
    as (r & before & after & Hr & Hscores & Hbefore & Hafter).
  exists r, before, after. split; [exact Hr|]. split; [exact Hscores|].
  split; intros e s Hin.
  - apply Q_flt_lt. exact (Hbefore e s Hin).
  - apply Q_flt_ge. exact (Hafter e s Hin).
Qed.

(** Witness of C5: 'happy' and 'angry' tie, 'sad' is lower; the tie goes to
    joy, declared first. *)
Lemma fallback_selects_first_greatest_witness :
  exists r before after,
    fallback_emotion_detection (F:=binary64) (U:=ascii_unicode)
      (Some (str "I am sad and angry but happy")) = Ok r
    /\ category_scores (lower (str "I am sad and angry but happy"))
         EMOTION_KEYWORDS
       = before ++ (emotion r, confidence r) :: after
    /\ map fst (category_scores (lower (str "I am sad and angry but happy"))
                  EMOTION_KEYWORDS)
       = map fst (filter (has_match (lower (str "I am sad and angry but happy")))
                         (EMOTION_KEYWORDS (F:=binary64)))
    /\ map fst (EMOTION_KEYWORDS (F:=binary64)) = EMOTION_LABELS
    /\ (forall e s, In (e, s) before -> SFltb s (confidence r) = true)
    /\ (forall e s, In (e, s) after -> SFltb (confidence r) s = false).
Proof.
  apply (fallback_selects_first_greatest (U:=ascii_unicode)).
  - discriminate.
  - eexists. eexists. exists (str "happy").
    split; [left; reflexivity|].
    split; [left; reflexivity|].
    vm_compute. reflexivity.
Defined.

(** The run of the witness, computed: joy wins the tie with anger. *)
Example tie_goes_to_joy :
  (r <- fallback_emotion_detection (F:=binary64) (U:=ascii_unicode)
          (Some (str "I am sad and angry but happy")) ;;
   Ok (emotion r, map fst (all_emotions r),
       map (SFeqb (confidence r)) (map snd (all_emotions r))))
  = Ok (str "joy", [str "joy"; str "anger"; str "sadness"],
        [true; true; false]).
Proof. vm_compute. reflexivity. Qed.

(** Witness of C7: the five greetings of 'joy', the generator drawing the
    largest index. *)
Lemma greeting_by_intensity_witness :
  exists first interior last,
    joy_greetings = first :: interior ++ [last]
    /\ get_persona_greeting (fun n => n - 1) (Some joy_persona) (str "high")
       = Ok first
    /\ get_persona_greeting (fun n => n - 1) (Some joy_persona) (str "mild")
       = Ok last
    /\ (3 <= List.length joy_greetings ->
        get_persona_greeting (fun n => n - 1) (Some joy_persona)
          (str "moderate")
        = random_choice (fun n => n - 1) interior
        /\ exists x, random_choice (fun n => n - 1) interior = Ok x
             /\ nth_error interior (List.length interior - 1) = Some x)
    /\ (List.length joy_greetings = 2 ->
        get_persona_greeting (fun n => n - 1) (Some joy_persona)
          (str "moderate")
        = random_choice (fun n => n - 1) joy_greetings
        /\ exists x, random_choice (fun n => n - 1) joy_greetings = Ok x
             /\ nth_error joy_greetings (2 - 1) = Some x).
Proof.
  apply (greeting_by_intensity (fun n => n - 1) joy_persona joy_greetings).
  - reflexivity.
  - simpl. lia.
  - intros n Hn. lia.
Defined.

(** The same run, computed: the first, the last, and the third of the three
    interior greetings. *)
Example joy_greetings_by_intensity :
  get_persona_greeting (fun n => n - 1) (Some joy_persona) (str "high")
  = index joy_greetings 0
  /\ get_persona_greeting (fun n => n - 1) (Some joy_persona) (str "mild")
     = index joy_greetings 4
  /\ get_persona_greeting (fun n => n - 1) (Some joy_persona) (str "moderate")
     = index joy_greetings 3.
Proof. repeat split; vm_compute; reflexivity. Qed.

(** ** Further properties: the state of the pipeline *)

Section PipelineState.
Context {F : FloatOps} {U : Unicode}.

(** The two ways a request leaves the state: untouched, or with one more
    call counted and the flag possibly set. *)
Lemma analyze_state_cases (st : state F) (text : option pystr) :
  (snd (analyze_emotion_with_confidence st text) = st
   /\ ~ (exists t model,
           text = Some t /\ too_short t = false
           /\ fallback_mode st = false
           /\ emotion_classifier st = Some model))
  \/ ((snd (analyze_emotion_with_confidence st text) = count_call st
       \/ snd (analyze_emotion_with_confidence st text)
          = set_fallback_mode (count_call st) true)
      /\ exists t model,
           text = Some t /\ too_short t = false
           /\ fallback_mode st = false
           /\ emotion_classifier st = Some model).
Proof.
  destruct text as [t|].
  2:{ left. split; [reflexivity|]. intros (t & model & H & _). discriminate. }
  destruct (too_short t) eqn:Hs.
  { left. rewrite analyze_short by assumption. split; [reflexivity|].
    intros (t' & model & H & Hs' & _). injection H as <-. congruence. }
  destruct (fallback_mode st) eqn:Hf.
  { left. rewrite analyze_in_fallback_mode by assumption.
    split; [reflexivity|].
    intros (t' & model & _ & _ & H & _). discriminate. }
  destruct (emotion_classifier st) as [model|] eqn:Hm.
  2:{ left. rewrite analyze_without_model by assumption.
      split; [reflexivity|].
      intros (t' & model & _ & _ & _ & H). discriminate. }
  right. rewrite (analyze_with_model st t model Hf Hm Hs).
  split; [|exists t, model; auto].
  destruct (primary_result t (model (cls_calls st) t)) as [[r|]|];
    cbn [snd]; auto.
Qed.

(** X1.  A request never replaces the loaded model and never clears the
    flag; it calls the model at most once, and exactly once when the text is
    long enough, the flag is clear and a model is loaded. *)
Theorem analyze_state_change (st : state F) (text : option pystr) :
  emotion_classifier (snd (analyze_emotion_with_confidence st text))
  = emotion_classifier st
  /\ (fallback_mode st = true ->
      fallback_mode (snd (analyze_emotion_with_confidence st text)) = true)
  /\ (cls_calls (snd (analyze_emotion_with_confidence st text))
      = cls_calls st
      \/ cls_calls (snd (analyze_emotion_with_confidence st text))
         = S (cls_calls st))
  /\ (cls_calls (snd (analyze_emotion_with_confidence st text))
      = S (cls_calls st)
      <-> exists t model,
            text = Some t /\ too_short t = false
            /\ fallback_mode st = false
            /\ emotion_classifier st = Some model).
Proof.
  destruct (analyze_state_cases st text) as [[-> Hno]|[Hst Hyes]].
  - split; [reflexivity|]. split; [auto|]. split; [now left|].
    split; [intro H; lia | intro H; contradiction].
  - destruct Hyes as (t & model & Ht & Hs & Hf & Hm).
    destruct Hst as [-> | ->]; cbn;
      (split; [reflexivity|]; split; [congruence|]; split; [now right|];
       split; [intros _; exists t, model; auto | reflexivity]).
Qed.

(** X2.  When the call to the model raises, or returns something that is
    not a list, an empty list, or a list with an entry on which the [try]
    block raises ([Malformed]: reading its score or its label raises, the
    label has no [lower], or the score is [None], a string, a list or a
    dict), the request sets [fallback_mode], counts one call, and answers
    with the result of the keyword method marked [fallback_used = True].
    An entry with a numeric score that is no float is not such an entry: the
    code accepts it. *)
Theorem model_failure_falls_back (st : state F) (t : pystr)
  (model : classifier F) :
  fallback_mode st = false -> emotion_classifier st = Some model ->
  too_short t = false ->
  (model (cls_calls st) t = Raises
   \/ model (cls_calls st) t = NotAList
   \/ model (cls_calls st) t = AList []
   \/ exists items, model (cls_calls st) t = AList items /\ In Malformed items) ->
  exists r0 r,
    fallback_emotion_detection (Some t) = Ok r0
    /\ analyze_emotion_with_confidence st (Some t)
       = (Ok r, set_fallback_mode (count_call st) true)
    /\ fallback_used r = Some true
    /\ same_analysis r r0.
Proof.
  intros Hf Hm Hs Hbad.
  destruct (use_fallback_total t) as (r0 & r & Hr0 & Hr & Hu & Hsame & _).
  exists r0, r. split; [exact Hr0|]. split; [|split; assumption].
  rewrite (analyze_with_model st t model Hf Hm Hs), <- Hr.
  destruct (primary_result t (model (cls_calls st) t)) as [[x|]|] eqn:E;
    try reflexivity.
  exfalso. apply primary_result_returns in E.
  destruct E as (items & fields & top & rest & Hresp & Hfields & Hsort & _).
  destruct Hbad as [H|[H|[H|(items' & H & Hin)]]]; rewrite H in Hresp;
    try discriminate.
  - injection Hresp as <-. simpl in Hfields. injection Hfields as <-.
    discriminate.
  - injection Hresp as <-.
    exact (all_fields_malformed items' Hin fields Hfields).
Qed.

(** X3.  A result with [fallback_used = False] is only returned by a
    request that called the model, with the flag clear before and after;
    its [all_emotions] is not empty and starts with the emotion and the
    confidence of the result. *)
Theorem primary_result_means_model_called (st : state F)
  (text : option pystr) (r : result F) :
  fst (analyze_emotion_with_confidence st text) = Ok r ->
  fallback_used r = Some false ->
  fallback_mode st = false
  /\ fallback_mode (snd (analyze_emotion_with_confidence st text)) = false
  /\ cls_calls (snd (analyze_emotion_with_confidence st text))
     = S (cls_calls st)
  /\ exists rest,
       all_emotions r = (emotion r, confidence r) :: rest.
Proof.
  intros Hr Hu.
  destruct text as [t|].
  2:{ rewrite analyze_none in Hr. cbn in Hr. injection Hr as <-.
      discriminate. }
  destruct (too_short t) eqn:Hs.
  { rewrite analyze_short in Hr by assumption. cbn in Hr.
    injection Hr as <-. discriminate. }
  assert (Hfb : use_fallback t = Ok r -> False).
  { intro H. destruct (use_fallback_total t) as (r0 & r' & _ & Hr' & Hu' & _).
    rewrite Hr' in H. injection H as ->. congruence. }
  destruct (fallback_mode st) eqn:Hf.
  { rewrite analyze_in_fallback_mode in Hr by assumption. now apply Hfb in Hr. }
  destruct (emotion_classifier st) as [model|] eqn:Hm.
  2:{ rewrite analyze_without_model in Hr by assumption. now apply Hfb in Hr. }
  rewrite (analyze_with_model st t model Hf Hm Hs) in Hr |- *.
  destruct (primary_result t (model (cls_calls st) t)) as [[x|]|] eqn:E;
    cbn [fst snd] in Hr |- *; try (now apply Hfb in Hr).
  injection Hr as ->.
  apply primary_result_returns in E.
  destruct E as (items & fields & top & rest & _ & _ & _ & ->).
  split; [reflexivity|]. split; [exact Hf|]. split; [reflexivity|].
  exists (map (fun p : scored F => (lower (fst p), snd p)) rest).
  reflexivity.
Qed.

(** X4.  A process whose model failed to load never calls a model: after
    any sequence of requests the call counter is still 0, the flag is
    still set, and every result has [fallback_used = True].  Whatever was
    loaded, the number of calls never exceeds the number of requests. *)
Theorem failed_load_never_calls_model (texts : list (option pystr)) :
  cls_calls (snd (analyze_all (initialize_emotion_classifier None) texts)) = 0
  /\ fallback_mode
       (snd (analyze_all (initialize_emotion_classifier None) texts)) = true
  /\ Forall (fun r => exists x : result F,
                        r = Ok x /\ fallback_used x = Some true)
            (fst (analyze_all (initialize_emotion_classifier None) texts))
  /\ forall loaded : option (classifier F),
       cls_calls (snd (analyze_all (initialize_emotion_classifier loaded)
                                   texts))
       <= List.length texts.
Proof.
  assert (Hsticky : forall (st : state F) (l : list (option pystr)),
             fallback_mode st = true ->
             fallback_mode (snd (analyze_all st l)) = true
             /\ cls_calls (snd (analyze_all st l)) = cls_calls st
             /\ Forall (fun r => exists x, r = Ok x
                                           /\ fallback_used x = Some true)
                       (fst (analyze_all st l))).
  { intros st l Hf. induction l as [|t l IH]; [simpl; auto|].
    cbn [analyze_all].
    pose proof (analyze_keeps_flag st t Hf) as Hst.
    pose proof (analyze_flag_result st t Hf) as Hr.
    destruct (analyze_emotion_with_confidence st t) as [r st1].
    cbn [fst snd] in Hst, Hr. subst st1.
    destruct (analyze_all st l) as [rs st2].
    cbn [fst snd] in *. destruct IH as (H1 & H2 & H3).
    split; [exact H1|]. split; [exact H2|].
    constructor; [exact Hr | exact H3]. }
  destruct (Hsticky (initialize_emotion_classifier None) texts eq_refl)
    as (H1 & H2 & H3).
  split; [exact H2|]. split; [exact H1|]. split; [exact H3|].
  intro loaded.
  assert (Hbound : forall (l : list (option pystr)) (st : state F),
             cls_calls (snd (analyze_all st l))
             <= cls_calls st + List.length l).
  { induction l as [|t l IH]; intro st; [simpl; lia|].
    cbn [analyze_all].
    assert (Hc : cls_calls (snd (analyze_emotion_with_confidence st t))
                 <= S (cls_calls st)).
    { destruct (analyze_state_cases st t) as [[-> _]|[[-> | ->] _]];
        cbn; lia. }
    destruct (analyze_emotion_with_confidence st t) as [r st1].
    cbn [snd] in Hc. specialize (IH st1).
    destruct (analyze_all st1 l) as [rs st2]. cbn [snd] in *.
    simpl. lia. }
  specialize (Hbound texts (initialize_emotion_classifier loaded)).
  destruct loaded; exact Hbound.
Qed.

End PipelineState.

(** ** Further properties: the keyword classifier *)

Section ClassifierProperties.
Context {F : FloatOps} {U : Unicode}.

(** An entry of [category_scores] comes from a category with a match. *)
Lemma category_scores_In (text_lower : pystr)
  (cats : list (pystr * category F)) (e : pystr) (s : float) :
  In (e, s) (category_scores text_lower cats) ->
  exists d,
    In (e, d) cats /\ matched_keywords text_lower d <> []
    /\ s = normalized_score text_lower d.
Proof.
  unfold category_scores. intro H. apply in_map_iff in H.
  destruct H as ([e' d] & Heq & Hin). cbn [fst snd] in Heq.
  injection Heq as -> <-.
  apply filter_In in Hin. destruct Hin as [Hin Hm].
  unfold has_match in Hm. cbn [snd] in Hm. apply Nat.ltb_lt in Hm.
  exists d. split; [exact Hin|]. split; [|reflexivity].
  intro Hnil. rewrite Hnil in Hm. simpl in Hm. lia.
Qed.

(** X5.  For a non-empty text in which a keyword occurs, the keyword
    classifier lists in [all_emotions] exactly the categories that have a
    keyword in the lowercased text, each once, and the emotion it returns is
    one of them. *)
Theorem fallback_reports_matching_categories (text : pystr) :
  text <> [] ->
  (exists e d keyword,
     In (e, d) EMOTION_KEYWORDS /\ In keyword (keywords d)
     /\ contains keyword (lower text) = true) ->
  exists r,
    fallback_emotion_detection (Some text) = Ok r
    /\ Permutation (map fst (all_emotions r))
         (map fst (filter (has_match (lower text))
                          (EMOTION_KEYWORDS (F:=F))))
    /\ NoDup (map fst (all_emotions r))
    /\ exists d keyword,
         In (emotion r, d) EMOTION_KEYWORDS /\ In keyword (keywords d)
         /\ contains keyword (lower text) = true.
Proof.
  intros Hne (e & d & keyword & He & Hk & Hc).
  destruct text as [|c t]; [contradiction|].
  unfold fallback_emotion_detection. rewrite scores_of_text. cbn [bind].
  pose proof (match_some_score (lower (c :: t)) EMOTION_KEYWORDS e d keyword
                He Hk Hc) as Hsome.
  assert (Hlabels : map fst (category_scores (lower (c :: t)) EMOTION_KEYWORDS)
                    = map fst (filter (has_match (lower (c :: t)))
                                      (EMOTION_KEYWORDS (F:=F)))).
  { unfold category_scores. rewrite map_map. reflexivity. }
  destruct (category_scores (lower (c :: t)) EMOTION_KEYWORDS)
    as [|first others] eqn:E; [contradiction|].
  pose proof (max_by_In snd others first) as Hin.
  destruct (max_by snd first others) as [pe pc].
  rewrite intensity_eq. cbn [bind].
  eexists. split; [reflexivity|]. cbn [all_emotions emotion].
  assert (Hperm : Permutation (map fst (sort_desc snd (first :: others)))
                    (map fst (filter (has_match (lower (c :: t)))
                                     (EMOTION_KEYWORDS (F:=F))))).
  { rewrite <- Hlabels. apply Permutation_map, sort_desc_perm. }
  split; [exact Hperm|]. split.
  - apply (Permutation_NoDup (Permutation_sym Hperm)).
    assert (Hnd : NoDup (map fst (EMOTION_KEYWORDS (F:=F))))
      by (rewrite labels_of_keywords; apply labels_distinct).
    revert Hnd. generalize (EMOTION_KEYWORDS (F:=F)).
    induction l as [|x l IH]; intro Hnd; [constructor|].
    inversion Hnd as [|? ? Hx Hl]; subst. cbn [filter].
    destruct (has_match (lower (c :: t)) x); [|now apply IH].
    cbn [map]. constructor; [|now apply IH].
    intro Hin'. apply Hx. apply in_map_iff in Hin'.
    destruct Hin' as (y & Hy & Hyin). apply filter_In in Hyin.
    apply in_map_iff. exists y. split; [exact Hy | apply Hyin].
  - assert (Hpe : In (pe, pc) (category_scores (lower (c :: t))
                                               EMOTION_KEYWORDS))
      by (rewrite E; exact Hin).
    destruct (category_scores_In _ _ _ _ Hpe) as (d' & Hd & Hm & _).
    unfold matched_keywords in Hm.
    destruct (filter (fun k => contains k (lower (c :: t))) (keywords d'))
      as [|k ks] eqn:Ek; [contradiction|].
    assert (Hk' : In k (filter (fun k => contains k (lower (c :: t)))
                               (keywords d'))) by (rewrite Ek; now left).
    apply filter_In in Hk'. exists d', k. tauto.
Qed.

End ClassifierProperties.

Section DoubleProperties.
Context {U : Unicode}.

(** The weak comparison of non-negative doubles is that of their ranks. *)
Lemma SFleb_key (x y : spec_float) :
  sf_nonneg x -> sf_nonneg y ->
  (SFleb x y = true <-> ~ lex_lt (sf_key y) (sf_key x)).
Proof.
  unfold sf_nonneg, SFleb.
  destruct x as [sx|sx| |sx mx ex], y as [sy|sy| |sy my ey]; simpl;
    intros Hx Hy; try contradiction; subst; simpl;
    try (split; intro H; (discriminate H || reflexivity || lia)).
  change (Pos.compare_cont Eq mx my) with (Pos.compare mx my).
  destruct (Z.compare_spec ex ey); [destruct (Pos.compare_spec mx my)| |];
    split; intro H'; try discriminate H'; try reflexivity; lia.
Qed.

Lemma nonneg_above_zero (x : spec_float) :
  sf_nonneg x -> SFleb (b64_of_int 0) x = true.
Proof.
  destruct x as [s|s| |s m e]; simpl; intro H; try contradiction; subst;
    reflexivity.
Qed.

(** A capped score is at most 1.0. *)
Lemma pymin_one_below_one (x : spec_float) :
  sf_nonneg x -> SFleb (pymin (F:=binary64) x (b64_of_int 1)) (b64_of_int 1) = true.
Proof.
  intro Hx. unfold pymin. cbn [flt binary64].
  destruct (SFltb (b64_of_int 1) x) eqn:E; [reflexivity|].
  apply (SFleb_key x (b64_of_int 1) Hx (of_int_nonneg 1)).
  intro Hlt.
  apply (SFltb_key (b64_of_int 1) x (of_int_nonneg 1) Hx) in Hlt. congruence.
Qed.

Lemma category_scores_in_unit (text_lower : pystr) (e : pystr)
  (s : spec_float) :
  In (e, s) (category_scores (F:=binary64) text_lower EMOTION_KEYWORDS) ->
  in_unit_interval s.
Proof.
  intro Hin. split.
  - apply nonneg_above_zero. exact (category_scores_nonneg text_lower e s Hin).
  - destruct (category_scores_In (F:=binary64) _ _ _ _ Hin)
      as (d & Hd & Hne & ->).
    unfold normalized_score. apply pymin_one_below_one.
    apply SFadd_nonneg.
    + apply SFdiv_nonneg; [|apply of_int_nonneg].
      exact (raw_score_finite_pos text_lower e d Hd Hne).
    + apply SFmul_nonneg; [apply of_int_nonneg | reflexivity].
Qed.

(** X6.  On doubles, for every argument, the confidence the keyword
    classifier returns and every score of its [all_emotions] lie between
    0.0 and 1.0; none is a NaN. *)
Theorem fallback_scores_in_unit_interval (text : option pystr) :
  exists r,
    fallback_emotion_detection (F:=binary64) text = Ok r
    /\ in_unit_interval (confidence r)
    /\ Forall (fun entry => in_unit_interval (snd entry)) (all_emotions r).
Proof.
  assert (H03 : in_unit_interval (decimal (F:=binary64) 3 1))
    by (split; reflexivity).
  destruct text as [[|c t]|].
  - eexists. split; [reflexivity|]. split; [exact H03 | constructor].
  - unfold fallback_emotion_detection. rewrite scores_of_text. cbn [bind].
    pose proof (category_scores_in_unit (lower (c :: t))) as Hunit.
    destruct (category_scores (lower (c :: t)) EMOTION_KEYWORDS)
      as [|first others] eqn:E.
    + eexists. split; [reflexivity|]. split; [exact H03|].
      constructor; [exact H03 | constructor].
    + pose proof (max_by_In snd others first) as Hin.
      destruct (max_by snd first others) as [pe pc].
      rewrite intensity_eq. cbn [bind].
      eexists. split; [reflexivity|]. cbn [confidence all_emotions].
      split; [exact (Hunit pe pc Hin)|].
      apply Forall_forall. intros [e s] Hes.
      apply (Hunit e s).
      exact (Permutation_in _ (sort_desc_perm snd (first :: others)) Hes).
  - eexists. split; [reflexivity|]. split; [exact H03 | constructor].
Qed.

Lemma SFltb_asym_nonneg (x y : spec_float) :
  sf_nonneg x -> sf_nonneg y -> SFltb x y = true -> SFltb y x = false.
Proof.
  intros Hx Hy H. apply (SFltb_key x y Hx Hy) in H.
  apply not_true_iff_false. intro H'. apply (SFltb_key y x Hy Hx) in H'.
  unfold lex_lt in *.
  destruct (sf_key x) as [[a1 a2] a3], (sf_key y) as [[b1 b2] b3]. lia.
Qed.

(** Sorting entries whose scores are not NaN leaves every entry before
    the entries that do not score more. *)
Lemma sort_desc_strongly_sorted (l : list (scored binary64)) :
  Forall (fun entry => sf_nonneg (snd entry)) l ->
  StronglySorted score_ge (sort_desc (F:=binary64) snd l).
Proof.
  induction l as [|x l IH]; intro Hl; [constructor|].
  inversion Hl as [|? ? Hx Hl']; subst. specialize (IH Hl').
  cbn [sort_desc].
  assert (Hs : Forall (fun entry : scored binary64 => sf_nonneg (snd entry))
                      (sort_desc (F:=binary64) snd l)).
  { apply Forall_forall. intros y Hy. rewrite Forall_forall in Hl'.
    apply Hl'. exact (Permutation_in _ (sort_desc_perm snd l) Hy). }
  revert IH Hs. generalize (sort_desc (F:=binary64) snd l). clear Hl Hl' l.
  induction l as [|y l IHl]; intros Hsorted Hnn.
  - cbn. constructor; constructor.
  - cbn [insert_desc]. cbn [flt binary64].
    inversion Hsorted as [|? ? Hs' Hy]; subst.
    inversion Hnn as [|? ? Hyn Hln]; subst.
    destruct (SFltb (snd x) (snd y)) eqn:E.
    + constructor; [apply IHl; assumption|].
      apply Forall_forall. intros z Hz.
      apply (Permutation_in _ (insert_desc_perm snd x l)) in Hz.
      destruct Hz as [<-|Hz].
      * exact (SFltb_asym_nonneg _ _ Hx Hyn E).
      * rewrite Forall_forall in Hy. now apply Hy.
    + constructor; [exact Hsorted|].
      constructor; [exact E|].
      apply Forall_forall. intros z Hz.
      rewrite Forall_forall in Hy, Hln.
      exact (flt_negtrans (FloatOrder:=binary64_ordered) (snd x) (snd y) (snd z)
               Hx Hyn (Hln z Hz) E (Hy z Hz)).
Qed.

(** A list has one first greatest entry. *)
Lemma first_greatest_unique (b a b' a' : list (scored binary64))
  (h m : scored binary64) :
  b ++ h :: a = b' ++ m :: a' ->
  (forall z, In z b -> SFltb (snd z) (snd h) = true) ->
  (forall z, In z a -> SFltb (snd h) (snd z) = false) ->
  (forall z, In z b' -> SFltb (snd z) (snd m) = true) ->
  (forall z, In z a' -> SFltb (snd m) (snd z) = false) ->
  h = m.
Proof.
  revert b'. induction b as [|z b IHb]; intros b' Heq Hb Ha Hb' Ha'.
  - destruct b' as [|z' b']; cbn [app] in Heq.
    + now injection Heq.
    + injection Heq as <- Heq. exfalso.
      assert (Hin : In m a) by (rewrite Heq; apply in_or_app; right; now left).
      pose proof (Ha m Hin) as H1.
      pose proof (Hb' h (or_introl eq_refl)) as H2. congruence.
  - destruct b' as [|z' b']; cbn [app] in Heq.
    + injection Heq as -> Heq. exfalso.
      assert (Hin : In h a')
        by (rewrite <- Heq; apply in_or_app; right; now left).
      pose proof (Ha' h Hin) as H1.
      pose proof (Hb m (or_introl eq_refl)) as H2. congruence.
    + injection Heq as _ Heq.
      apply (IHb b' Heq); auto.
      * intros w Hw. apply Hb. now right.
      * intros w Hw. apply Hb'. now right.
Qed.

(** The first entry of the sorted list is the one [max] finds. *)
Lemma sort_desc_head_is_max (l : list (scored binary64))
  (x : scored binary64) :
  Forall (fun entry => sf_nonneg (snd entry)) (x :: l) ->
  exists rest,
    sort_desc (F:=binary64) snd (x :: l)
    = max_by (F:=binary64) snd x l :: rest.
Proof.
  intro Hnn.
  assert (Hfirst : forall (l : list (scored binary64)),
             Forall (fun entry => sf_nonneg (snd entry)) l ->
             forall h t, sort_desc (F:=binary64) snd l = h :: t ->
             exists before after,
               l = before ++ h :: after
               /\ (forall z, In z before -> SFltb (snd z) (snd h) = true)
               /\ (forall z, In z after -> SFltb (snd h) (snd z) = false)).
  { clear. induction l as [|y l IH]; intros Hl h t Hsort; [discriminate|].
    inversion Hl as [|? ? Hy Hl']; subst. cbn [sort_desc] in Hsort.
    destruct (sort_desc (F:=binary64) snd l) as [|h' t'] eqn:Es.
    - assert (l = []).
      { pose proof (sort_desc_perm (F:=binary64) snd l) as P. rewrite Es in P.
        apply Permutation_nil in P. exact P. }
      subst l. cbn in Hsort. injection Hsort as <- <-.
      exists [], []. split; [reflexivity|]. split; intros z [].
    - destruct (IH Hl' h' t' eq_refl) as (b & a & -> & Hb & Ha).
      assert (Hh' : sf_nonneg (snd h')).
      { rewrite Forall_forall in Hl'. apply Hl', in_or_app. right. now left. }
      cbn [insert_desc] in Hsort. cbn [flt binary64] in Hsort.
      destruct (SFltb (snd y) (snd h')) eqn:E.
      + injection Hsort as <- <-. exists (y :: b), a.
        split; [reflexivity|]. split; [|exact Ha].
        intros z [<-|Hz]; [exact E | now apply Hb].
      + injection Hsort as <- <-. exists [], (b ++ h' :: a).
        split; [reflexivity|]. split; [intros z []|].
        intros z Hz.
        assert (Hzn : sf_nonneg (snd z))
          by (rewrite Forall_forall in Hl'; now apply Hl').
        apply in_app_or in Hz. destruct Hz as [Hz|[<-|Hz]].
        * destruct (SFltb (snd y) (snd z)) eqn:Eyz; [|reflexivity].
          pose proof (flt_trans (FloatOrder:=binary64_ordered)
                        (snd y) (snd z) (snd h') Hy Hzn Hh' Eyz (Hb z Hz))
            as Ht.
          cbn [flt binary64] in Ht. congruence.
        * exact E.
        * exact (flt_negtrans (FloatOrder:=binary64_ordered)
                   (snd y) (snd h') (snd z) Hy Hh' Hzn E (Ha z Hz)). }
  pose proof (sort_desc_perm (F:=binary64) snd (x :: l)) as P.
  destruct (sort_desc (F:=binary64) snd (x :: l)) as [|h t] eqn:Es.
  { apply Permutation_nil in P. discriminate. }
  destruct (Hfirst (x :: l) Hnn h t Es) as (b & a & Heq & Hb & Ha).
  destruct (max_by_first_greatest (O:=binary64_ordered) snd l [] [] x)
    as (b' & a' & Heq' & Hb' & Ha').
  { intros z Hz. rewrite Forall_forall in Hnn. now apply Hnn. }
  { intros z []. }
  { intros z []. }
  change ([] ++ x :: [] ++ l) with (x :: l) in Heq'. exists t. f_equal.
  rewrite Heq in Heq'.
  exact (first_greatest_unique b a b' a' h (max_by (F:=binary64) snd x l)
           Heq' Hb Ha Hb' Ha').
Qed.

(** X7.  On doubles, for every non-empty text, [all_emotions] of the
    keyword classifier is in descending order of score (no entry scores
    less than a later one) and begins with the emotion and the confidence
    of the result. *)
Theorem fallback_all_emotions_sorted (text : pystr) :
  text <> [] ->
  exists r rest,
    fallback_emotion_detection (F:=binary64) (Some text) = Ok r
    /\ all_emotions r = (emotion r, confidence r) :: rest
    /\ StronglySorted score_ge (all_emotions r).
Proof.
  intro Hne. destruct text as [|c t]; [contradiction|].
  unfold fallback_emotion_detection. rewrite scores_of_text. cbn [bind].
  pose proof (category_scores_nonneg (lower (c :: t))) as Hnn.
  destruct (category_scores (lower (c :: t)) EMOTION_KEYWORDS)
    as [|first others] eqn:E.
  - eexists. exists []. split; [reflexivity|]. split; [reflexivity|].
    cbn. constructor; constructor.
  - assert (Hall : Forall (fun entry : scored binary64 => sf_nonneg (snd entry))
                          (first :: others)).
    { apply Forall_forall. intros [e s] Hes. exact (Hnn e s Hes). }
    destruct (sort_desc_head_is_max others first Hall) as (rest & Hsort).
    pose proof (sort_desc_strongly_sorted (first :: others) Hall) as Hsorted.
    destruct (max_by snd first others) as [pe pc].
    rewrite intensity_eq. cbn [bind].
    eexists. exists rest. split; [reflexivity|].
    cbn [all_emotions emotion confidence]. split; assumption.
Qed.

End DoubleProperties.

(** ** The answer of the model, sorted *)

Section SortedByScore.
Context {F : FloatOps} {A : Type}.
Variable key : A -> float.
Variable ordered : float -> Prop.
Hypothesis asym : forall a b : float,
  ordered a -> ordered b -> flt a b = true -> flt b a = false.
Hypothesis trans : forall a b c : float,
  ordered a -> ordered b -> ordered c ->
  flt a b = true -> flt b c = true -> flt a c = true.
Hypothesis negtrans : forall a b c : float,
  ordered a -> ordered b -> ordered c ->
  flt a b = false -> flt b c = false -> flt a c = false.

Lemma sort_desc_keys (l : list A) :
  Forall (fun x => ordered (key x)) l ->
  Forall (fun x => ordered (key x)) (sort_desc key l).
Proof.
  intro Hl. apply Forall_forall. intros y Hy. rewrite Forall_forall in Hl.
  apply Hl. exact (Permutation_in _ (sort_desc_perm key l) Hy).
Qed.

(** Inserting into a descending list gives a descending list. *)
Lemma insert_desc_sorted (x : A) (l : list A) :
  ordered (key x) -> Forall (fun y => ordered (key y)) l ->
  StronglySorted (fun a b => flt (key a) (key b) = false) l ->
  StronglySorted (fun a b => flt (key a) (key b) = false)
                 (insert_desc key x l).
Proof.
  intros Hx. induction l as [|y l IH]; intros Hl Hsorted.
  - cbn. constructor; constructor.
  - cbn [insert_desc].
    inversion Hsorted as [|? ? Hs' Hy]; subst.
    inversion Hl as [|? ? Hyo Hlo]; subst.
    destruct (flt (key x) (key y)) eqn:E.
    + constructor; [apply IH; assumption|].
      apply Forall_forall. intros z Hz.
      apply (Permutation_in _ (insert_desc_perm key x l)) in Hz.
      destruct Hz as [<-|Hz].
      * exact (asym _ _ Hx Hyo E).
      * rewrite Forall_forall in Hy. now apply Hy.
    + constructor; [exact Hsorted|].
      constructor; [exact E|].
      apply Forall_forall. intros z Hz.
      rewrite Forall_forall in Hy, Hlo.
      exact (negtrans (key x) (key y) (key z) Hx Hyo (Hlo z Hz) E (Hy z Hz)).
Qed.

(** The sorted list is descending: no entry has a smaller key than a later
    one. *)
Lemma sort_desc_sorted (l : list A) :
  Forall (fun x => ordered (key x)) l ->
  StronglySorted (fun a b => flt (key a) (key b) = false) (sort_desc key l).
Proof.
  induction l as [|x l IH]; intro Hl; [constructor|].
  inversion Hl as [|? ? Hx Hl']; subst.
  cbn [sort_desc]. apply insert_desc_sorted; [exact Hx | | now apply IH].
  now apply sort_desc_keys.
Qed.

(** The first entry of the sorted list is the first of the entries with the
    greatest key in the list as it was given. *)
Lemma sort_desc_first_greatest (l : list A) (h : A) (t : list A) :
  Forall (fun x => ordered (key x)) l ->
  sort_desc key l = h :: t ->
  exists before after,
    l = before ++ h :: after
    /\ (forall z, In z before -> flt (key z) (key h) = true)
    /\ (forall z, In z after -> flt (key h) (key z) = false).
Proof.
  revert h t. induction l as [|y l IH]; intros h t Hl Hsort; [discriminate|].
  inversion Hl as [|? ? Hy Hl']; subst. cbn [sort_desc] in Hsort.
  destruct (sort_desc key l) as [|h' t'] eqn:Es.
  - assert (l = []).
    { pose proof (sort_desc_perm key l) as P. rewrite Es in P.
      apply Permutation_nil in P. exact P. }
    subst l. cbn in Hsort. injection Hsort as <- <-.
    exists [], []. split; [reflexivity|]. split; intros z [].
  - destruct (IH h' t' Hl' eq_refl) as (b & a & -> & Hb & Ha).
    assert (Hh' : ordered (key h')).
    { rewrite Forall_forall in Hl'. apply Hl', in_or_app. right. now left. }
    cbn [insert_desc] in Hsort.
    destruct (flt (key y) (key h')) eqn:E.
    + injection Hsort as <- <-. exists (y :: b), a.
      split; [reflexivity|]. split; [|exact Ha].
      intros z [<-|Hz]; [exact E | now apply Hb].
    + injection Hsort as <- <-. exists [], (b ++ h' :: a).
      split; [reflexivity|]. split; [intros z []|].
      intros z Hz.
      assert (Hzo : ordered (key z))
        by (rewrite Forall_forall in Hl'; now apply Hl').
      apply in_app_or in Hz. destruct Hz as [Hz|[<-|Hz]].
      * destruct (flt (key y) (key z)) eqn:Eyz; [|reflexivity].
        pose proof (trans (key y) (key z) (key h') Hy Hzo Hh' Eyz (Hb z Hz))
          as Ht.
        congruence.
      * exact E.
      * exact (negtrans (key y) (key h') (key z) Hy Hh' Hzo E (Ha z Hz)).
Qed.

End SortedByScore.

Section PrimaryPathOnDoubles.
Context {U : Unicode}.

(** The comparison of doubles that are not NaN is that of their ranks. *)
Lemma SFltb_rank (x y : spec_float) :
  not_nan x -> not_nan y ->
  (SFltb x y = true <-> lex_lt (sf_rank x) (sf_rank y)).
Proof.
  unfold not_nan, SFltb.
  destruct x as [[|]|[|]| |[|] mx ex], y as [[|]|[|]| |[|] my ey]; simpl;
    intros Hx Hy; try congruence;
    try (split; intro H; (discriminate H || reflexivity || lia));
    change (Pos.compare_cont Eq mx my) with (Pos.compare mx my);
    destruct (Z.compare_spec ex ey); try destruct (Pos.compare_spec mx my);
    simpl; split; intro H'; try discriminate H'; try reflexivity; lia.
Qed.

Lemma SFltb_asym (a b : spec_float) :
  not_nan a -> not_nan b -> SFltb a b = true -> SFltb b a = false.
Proof.
  intros Ha Hb H. apply (SFltb_rank a b Ha Hb) in H.
  apply not_true_iff_false. intro H'. apply (SFltb_rank b a Hb Ha) in H'.
  unfold lex_lt in *.
  destruct (sf_rank a) as [[a1 a2] a3], (sf_rank b) as [[b1 b2] b3]. lia.
Qed.

Lemma SFltb_trans (a b c : spec_float) :
  not_nan a -> not_nan b -> not_nan c ->
  SFltb a b = true -> SFltb b c = true -> SFltb a c = true.
Proof.
  intros Ha Hb Hc.
  rewrite (SFltb_rank a b Ha Hb), (SFltb_rank b c Hb Hc),
    (SFltb_rank a c Ha Hc).
  unfold lex_lt.
  destruct (sf_rank a) as [[a1 a2] a3], (sf_rank b) as [[b1 b2] b3],
    (sf_rank c) as [[c1 c2] c3]. lia.
Qed.

Lemma SFltb_negtrans (a b c : spec_float) :
  not_nan a -> not_nan b -> not_nan c ->
  SFltb a b = false -> SFltb b c = false -> SFltb a c = false.
Proof.
  intros Ha Hb Hc. rewrite <- !not_true_iff_false.
  rewrite (SFltb_rank a b Ha Hb), (SFltb_rank b c Hb Hc),
    (SFltb_rank a c Ha Hc).
  unfold lex_lt.
  destruct (sf_rank a) as [[a1 a2] a3], (sf_rank b) as [[b1 b2] b3],
    (sf_rank c) as [[c1 c2] c3]. lia.
Qed.

(** C4 as the code has it, on doubles.  When the model answers with a
    non-empty list of entries with a string label and a float score, none of
    the scores a NaN, the result carries every entry of the model, none
    dropped and none added, each label lowercased and otherwise unchanged,
    in descending order of score (no entry scores less than a later one);
    the emotion and the confidence are those of the first one, which is the
    first of the entries with the greatest score in the list the model
    returned.  No label is replaced by 'neutral' and none is rejected. *)
Theorem model_labels_pass_through (st : state binary64) (t : pystr)
  (model : classifier binary64) (fields : list (scored binary64)) :
  fallback_mode st = false -> emotion_classifier st = Some model ->
  too_short t = false -> fields <> [] ->
  model (cls_calls st) t = AList (items_of fields) ->
  Forall (fun p => not_nan (snd p)) fields ->
  exists r top rest before after,
    fst (analyze_emotion_with_confidence st (Some t)) = Ok r
    /\ fallback_used r = Some false
    /\ Permutation (top :: rest) fields
    /\ StronglySorted score_ge (top :: rest)
    /\ fields = before ++ top :: after
    /\ (forall p, In p before -> SFltb (snd p) (snd top) = true)
    /\ (forall p, In p after -> SFltb (snd top) (snd p) = false)
    /\ all_emotions r
       = map (fun p : scored binary64 => (lower (fst p), snd p)) (top :: rest)
    /\ emotion r = lower (fst top)
    /\ confidence r = snd top.
Proof.
  intros Hf Hm Hs Hne Hresp Hnan.
  destruct (primary_path_result st t model fields Hf Hm Hs Hne Hresp)
    as (r & top & rest & Hr & Hu & Hsort & Hperm & Hall & He & Hc).
  pose proof (sort_desc_sorted (F:=binary64) snd not_nan SFltb_asym
                SFltb_negtrans fields Hnan) as Hsorted.
  rewrite Hsort in Hsorted.
  destruct (sort_desc_first_greatest (F:=binary64) snd not_nan SFltb_trans
              SFltb_negtrans fields top rest Hnan Hsort)
    as (before & after & Heq & Hb & Ha).
  exists r, top, rest, before, after.
  split; [exact Hr|]. split; [exact Hu|]. split; [exact Hperm|].
  split; [exact Hsorted|]. split; [exact Heq|].
  split; [exact Hb|]. split; [exact Ha|].
  split; [exact Hall|]. split; [exact He | exact Hc].
Qed.

End PrimaryPathOnDoubles.

(** Witness of C4: four entries out of order, two of them with the same
    score. *)
Lemma model_labels_pass_through_witness :
  exists r top rest before after,
    fst (analyze_emotion_with_confidence (U:=ascii_unicode)
           (started_with unsorted_model)
           (Some (str "I am angry and disgusted"))) = Ok r
    /\ fallback_used r = Some false
    /\ Permutation (top :: rest) unsorted_model_fields
    /\ StronglySorted score_ge (top :: rest)
    /\ unsorted_model_fields = before ++ top :: after
    /\ (forall p, In p before -> SFltb (snd p) (snd top) = true)
    /\ (forall p, In p after -> SFltb (snd top) (snd p) = false)
    /\ all_emotions r
       = map (fun p : scored binary64 => (lower (fst p), snd p)) (top :: rest)
    /\ emotion r = lower (fst top)
    /\ confidence r = snd top.
Proof.
  apply (model_labels_pass_through (U:=ascii_unicode)
           (started_with unsorted_model) (str "I am angry and disgusted")
           unsorted_model unsorted_model_fields).
  - reflexivity.
  - reflexivity.
  - vm_compute. reflexivity.
  - discriminate.
  - reflexivity.
  - repeat constructor; vm_compute; discriminate.
Defined.

(** The run of the witness, computed: the two entries at 0.4 keep the order
    the model gave them, and 'anger' is the emotion. *)
Example unsorted_answer_is_sorted :
  (r <- fst (analyze_emotion_with_confidence (U:=ascii_unicode)
               (started_with unsorted_model)
               (Some (str "I am angry and disgusted"))) ;;
   Ok (emotion r, map fst (all_emotions r), fallback_used r))
  = Ok (str "anger",
        [str "anger"; str "disgust"; str "joy"; str "neutral"],
        Some false).
Proof. vm_compute. reflexivity. Qed.

(** ** Further properties: slices, greetings and quotes *)

Section SelectionProperties.
Context {U : Unicode}.

Lemma clamp_nat (len k : nat) : clamp len (Z.of_nat k) = Nat.min k len.
Proof.
  unfold clamp, norm_index.
  assert (E : (Z.of_nat k <? 0)%Z = false) by (apply Z.ltb_ge; lia).
  rewrite E. lia.
Qed.

Lemma clamp_neg (len k : nat) :
  0 < k -> clamp len (- Z.of_nat k) = len - k.
Proof.
  intro Hk. unfold clamp, norm_index.
  assert (E : (- Z.of_nat k <? 0)%Z = true) by (apply Z.ltb_lt; lia).
  rewrite E. lia.
Qed.

(** [l[a:b]] for [0 <= a <= b]. *)
Lemma slice_range {A : Type} (l : list A) (a b : nat) :
  a <= b -> slice l (Z.of_nat a) (Z.of_nat b) = firstn (b - a) (skipn a l).
Proof.
  intro Hab. unfold slice. rewrite !clamp_nat.
  destruct (Nat.le_gt_cases (List.length l) a) as [Ha|Ha].
  - rewrite (skipn_all2 l) by lia. rewrite (skipn_all2 l) by lia.
    now rewrite !firstn_nil.
  - replace (Nat.min a (List.length l)) with a by lia.
    destruct (Nat.le_gt_cases b (List.length l)) as [Hb|Hb].
    + now replace (Nat.min b (List.length l)) with b by lia.
    + replace (Nat.min b (List.length l)) with (List.length l) by lia.
      rewrite !firstn_all2; try reflexivity; rewrite length_skipn; lia.
Qed.

(** [l[:k]] *)
Lemma slice_prefix {A : Type} (l : list A) (k : nat) :
  slice l 0 (Z.of_nat k) = firstn k l.
Proof.
  change 0%Z with (Z.of_nat 0). rewrite (slice_range l 0 k) by lia.
  now rewrite Nat.sub_0_r.
Qed.

(** [l[-k:]] for [k >= 1]. *)
Lemma slice_suffix {A : Type} (l : list A) (k : nat) :
  0 < k ->
  slice l (- Z.of_nat k) (Z.of_nat (List.length l))
  = skipn (List.length l - k) l.
Proof.
  intro Hk. unfold slice. rewrite clamp_neg by assumption. rewrite clamp_nat.
  rewrite Nat.min_id. apply firstn_all2. rewrite length_skipn. lia.
Qed.

Lemma index_In {A : Type} (l : list A) (i : Z) (x : A) :
  index l i = Ok x -> In x l.
Proof.
  unfold index. destruct (norm_index (List.length l) i <? 0)%Z; [discriminate|].
  destruct (nth_error l _) as [y|] eqn:E; [|discriminate].
  intro H. injection H as <-. exact (nth_error_In _ _ E).
Qed.

(** [random.choice] of a non-empty list returns one of its elements. *)
Lemma random_choice_In {A : Type} (randbelow : nat -> nat) (l : list A) :
  (forall n, 0 < n -> randbelow n < n) -> l <> [] ->
  exists x, random_choice randbelow l = Ok x /\ In x l.
Proof.
  intros Hr Hne.
  destruct (random_choice_position randbelow l Hr Hne) as (x & Hx & Hnth).
  exists x. split; [exact Hx | exact (nth_error_In _ _ Hnth)].
Qed.

Lemma random_choice_empty {A : Type} (randbelow : nat -> nat) :
  random_choice randbelow (@nil A) = Raise IndexError.
Proof. reflexivity. Qed.

Lemma random_choice_raises {A : Type} (randbelow : nat -> nat) (l : list A)
  (e : exn) :
  random_choice randbelow l = Raise e -> e = IndexError.
Proof.
  unfold random_choice, index. destruct l as [|a l]; [congruence|].
  destruct (norm_index _ _ <? 0)%Z; [congruence|].
  destruct (nth_error _ _); congruence.
Qed.

Lemma str_eqb_cases (a b : pystr) : {a = b} + {str_eqb a b = false}.
Proof.
  destruct (str_eqb a b) eqn:E; [left; now apply str_eqb_eq | now right].
Qed.

(** X8.  For a persona with a non-empty greeting list, whatever the
    intensity string and whatever the generator draws, the greeting
    selection does not raise and returns one of the greetings of the
    list. *)
Theorem greeting_is_from_the_list (randbelow : nat -> nat) (data : persona)
  (greetings : list pystr) (intensity : pystr) :
  greeting_variations data = Some greetings ->
  greetings <> [] ->
  (forall n, 0 < n -> randbelow n < n) ->
  exists g,
    get_persona_greeting randbelow (Some data) intensity = Ok g
    /\ In g greetings.
Proof.
  intros Hg Hne Hr. unfold get_persona_greeting. rewrite Hg.
  destruct (1 <? List.length greetings) eqn:Hlen.
  2:{ apply random_choice_In; assumption. }
  apply Nat.ltb_lt in Hlen.
  destruct (first_interior_last greetings) as (x & mid & y & ->); [lia|].
  destruct (str_eqb intensity (str "high")).
  { exists x. split; [reflexivity | now left]. }
  destruct (str_eqb intensity (str "mild")).
  { exists y. split.
    - change (x :: mid ++ [y]) with ((x :: mid) ++ [y]). apply index_last.
    - right. apply in_or_app. right. now left. }
  destruct (2 <? List.length (x :: mid ++ [y])) eqn:H2.
  - rewrite slice_interior.
    destruct (random_choice_In randbelow mid Hr) as (g & Hgo & Hin).
    + intros ->. apply Nat.ltb_lt in H2. simpl in H2. lia.
    + exists g. split; [exact Hgo|]. right. apply in_or_app. now left.
  - apply random_choice_In; [exact Hr | discriminate].
Qed.

(** X9.  The edges of the greeting selection: without persona data, or
    without the key ['greeting_variations'], the fixed greeting is returned
    for every intensity; with an empty list the call raises IndexError for
    every intensity; with a single greeting that greeting is returned for
    every intensity. *)
Theorem greeting_edge_cases (randbelow : nat -> nat) (intensity : pystr) :
  get_persona_greeting randbelow None intensity = Ok default_greeting
  /\ get_persona_greeting randbelow
       (Some {| greeting_variations := None |}) intensity
     = Ok default_greeting
  /\ get_persona_greeting randbelow
       (Some {| greeting_variations := Some [] |}) intensity
     = Raise IndexError
  /\ forall g : pystr,
       (forall n, 0 < n -> randbelow n < n) ->
       get_persona_greeting randbelow
         (Some {| greeting_variations := Some [g] |}) intensity
       = Ok g.
Proof.
  split; [reflexivity|]. split; [reflexivity|]. split; [reflexivity|].
  intros g Hr. unfold get_persona_greeting. cbn [greeting_variations].
  change (1 <? List.length [g]) with false. cbv iota.
  unfold random_choice. cbn [List.length].
  assert (H0 : randbelow 1 = 0) by (specialize (Hr 1); lia).
  rewrite H0. reflexivity.
Qed.

(** The slice each intensity draws from, among more than three quotes. *)
Lemma quote_slices (quotes : list pystr) :
  3 < List.length quotes ->
  slice quotes (-2) (Z.of_nat (List.length quotes))
  = skipn (List.length quotes - 2) quotes
  /\ slice quotes 0 2 = firstn 2 quotes
  /\ slice quotes 1 (-1) = removelast (tl quotes).
Proof.
  intro Hlen. split; [|split].
  - exact (slice_suffix quotes 2 ltac:(lia)).
  - exact (slice_prefix quotes 2).
  - destruct (first_interior_last quotes) as (x & mid & y & ->); [lia|].
    rewrite slice_interior. cbn [tl]. now rewrite removelast_last.
Qed.

Lemma quote_pool_size (quotes : list pystr) (intensity : pystr) :
  3 < List.length quotes ->
  2 <= List.length (quote_pool quotes intensity)
  /\ incl (quote_pool quotes intensity) quotes.
Proof.
  intro Hlen. unfold quote_pool.
  destruct (str_eqb intensity (str "high")).
  { split; [rewrite length_skipn; lia|].
    intros q Hq. rewrite <- (firstn_skipn (List.length quotes - 2) quotes).
    apply in_or_app. now right. }
  destruct (str_eqb intensity (str "mild")).
  { split; [rewrite length_firstn; lia|].
    intros q Hq. rewrite <- (firstn_skipn 2 quotes).
    apply in_or_app. now left. }
  destruct (first_interior_last quotes) as (x & mid & y & ->); [lia|].
  cbn [tl]. rewrite removelast_last. split.
  - simpl in Hlen. rewrite length_app in Hlen. simpl in Hlen. lia.
  - intros q Hq. right. apply in_or_app. now left.
Qed.

(** The quote drawn by [generate_persona_response]. *)
Lemma drawn_quote (QUOTES_DATA : quotes_table)
  (draw_quote draw_pattern : nat -> nat) (emotion intensity : pystr)
  (data : response_persona) :
  generate_persona_response QUOTES_DATA draw_quote draw_pattern emotion
    (Some data) intensity
  = (quote <-
       random_choice draw_quote
         (if 3 <? List.length (quotes_for QUOTES_DATA emotion)
          then quote_pool (quotes_for QUOTES_DATA emotion) intensity
          else quotes_for QUOTES_DATA emotion) ;;
     match response_patterns data with
     | Some patterns =>
         enhancement <- random_choice draw_pattern patterns ;;
         Ok (enhancement ++ str " " ++ quote)
     | None => Ok quote
     end).
Proof.
  unfold generate_persona_response. cbv zeta.
  destruct (3 <? List.length (quotes_for QUOTES_DATA emotion)) eqn:E;
    [|reflexivity].
  apply Nat.ltb_lt in E. destruct (quote_slices _ E) as (H1 & H2 & H3).
  unfold quote_pool. rewrite H1, H2, H3.
  destruct (str_eqb intensity (str "high")); [reflexivity|].
  destruct (str_eqb intensity (str "mild")); reflexivity.
Qed.

(** X10.  With more than three quotes for the emotion,
    [generate_persona_response] draws the quote among the last two for
    intensity 'high', among the first two for 'mild' and among all but the
    first and the last otherwise; it returns the quote alone when the
    persona has no ['response_patterns'], and a pattern of the persona, a
    space and the quote when it has some. *)
Theorem response_quote_by_intensity (QUOTES_DATA : quotes_table)
  (draw_quote draw_pattern : nat -> nat) (emotion intensity : pystr)
  (data : response_persona) :
  3 < List.length (quotes_for QUOTES_DATA emotion) ->
  (forall n, 0 < n -> draw_quote n < n) ->
  (forall n, 0 < n -> draw_pattern n < n) ->
  response_patterns data <> Some [] ->
  exists quote,
    In quote (quote_pool (quotes_for QUOTES_DATA emotion) intensity)
    /\ In quote (quotes_for QUOTES_DATA emotion)
    /\ match response_patterns data with
       | None =>
           generate_persona_response QUOTES_DATA draw_quote draw_pattern
             emotion (Some data) intensity = Ok quote
       | Some patterns =>
           exists enhancement,
             In enhancement patterns
             /\ generate_persona_response QUOTES_DATA draw_quote draw_pattern
                  emotion (Some data) intensity
                = Ok (enhancement ++ str " " ++ quote)
       end.
Proof.
  intros Hlen Hq Hp Hpat. rewrite drawn_quote.
  assert (E : (3 <? List.length (quotes_for QUOTES_DATA emotion)) = true)
    by now apply Nat.ltb_lt.
  rewrite E.
  destruct (quote_pool_size _ intensity Hlen) as [Hsize Hincl].
  destruct (random_choice_In draw_quote
              (quote_pool (quotes_for QUOTES_DATA emotion) intensity) Hq)
    as (quote & Hquote & Hin).
  { intro Hnil. rewrite Hnil in Hsize. simpl in Hsize. lia. }
  exists quote. split; [exact Hin|]. split; [exact (Hincl _ Hin)|].
  rewrite Hquote. cbn [bind].
  destruct (response_patterns data) as [patterns|]; [|reflexivity].
  destruct (random_choice_In draw_pattern patterns Hp) as (enh & Henh & He).
  { intros ->. now apply Hpat. }
  exists enh. split; [exact He|]. now rewrite Henh.
Qed.

(** X11.  [generate_persona_response] raises IndexError, whatever the
    intensity and the draws, when the quotes it finds for the emotion (the
    list of the emotion, or the list of 'neutral' when the table has no
    entry for the emotion) are an empty list, and, for every table and
    every emotion string, in the table or not, when the persona has an
    empty list of response patterns; without persona data it returns its
    fixed sentence and reads no quote. *)
Theorem response_raises_on_empty_lists (QUOTES_DATA : quotes_table)
  (draw_quote draw_pattern : nat -> nat) (emotion intensity : pystr) :
  (forall data,
     quotes_for QUOTES_DATA emotion = [] ->
     generate_persona_response QUOTES_DATA draw_quote draw_pattern emotion
       (Some data) intensity = Raise IndexError)
  /\ (forall data,
        dict_get QUOTES_DATA emotion = Some [] ->
        generate_persona_response QUOTES_DATA draw_quote draw_pattern emotion
          (Some data) intensity = Raise IndexError)
  /\ generate_persona_response QUOTES_DATA draw_quote draw_pattern emotion
       (Some {| response_patterns := Some [] |}) intensity
     = Raise IndexError
  /\ generate_persona_response QUOTES_DATA draw_quote draw_pattern emotion
       None intensity
     = Ok (str "Stay strong. You've got this! " ++ [128170%N]).
Proof.
  assert (Hempty : forall data,
            quotes_for QUOTES_DATA emotion = [] ->
            generate_persona_response QUOTES_DATA draw_quote draw_pattern
              emotion (Some data) intensity = Raise IndexError).
  { intros data Hnil. rewrite drawn_quote, Hnil. reflexivity. }
  split; [exact Hempty|]. split; [|split; [|reflexivity]].
  - intros data Hnil. apply Hempty.
    unfold quotes_for, dict_get_or. now rewrite Hnil.
  - rewrite drawn_quote. cbn [response_patterns].
    destruct (random_choice draw_quote _) as [q|e] eqn:E; [reflexivity|].
    apply random_choice_raises in E. now subst e.
Qed.

(** The quotes found in the built-in table: those of the emotion when it
    is one of the seven labels, those of 'neutral' otherwise. *)
Lemma builtin_quotes_for (emotion : pystr) :
  (exists quotes,
     In (emotion, quotes) builtin_quotes
     /\ quotes_for builtin_quotes emotion = quotes)
  \/ (~ In emotion EMOTION_LABELS
      /\ quotes_for builtin_quotes emotion
         = [str "Keep going. You're doing fine."]).
Proof.
  unfold quotes_for.
  assert (Hn : dict_get_or builtin_quotes (str "neutral")
                 [str "You're doing great!"]
               = [str "Keep going. You're doing fine."]) by reflexivity.
  rewrite Hn. unfold dict_get_or, builtin_quotes. cbn [dict_get].
  destruct (str_eqb_cases (str "joy") emotion) as [<- | H1];
    [left; eexists; split; [|reflexivity]; simpl; tauto | rewrite H1].
  destruct (str_eqb_cases (str "sadness") emotion) as [<- | H2];
    [left; eexists; split; [|reflexivity]; simpl; tauto | rewrite H2].
  destruct (str_eqb_cases (str "anger") emotion) as [<- | H3];
    [left; eexists; split; [|reflexivity]; simpl; tauto | rewrite H3].
  destruct (str_eqb_cases (str "fear") emotion) as [<- | H4];
    [left; eexists; split; [|reflexivity]; simpl; tauto | rewrite H4].
  destruct (str_eqb_cases (str "surprise") emotion) as [<- | H5];
    [left; eexists; split; [|reflexivity]; simpl; tauto | rewrite H5].
  destruct (str_eqb_cases (str "love") emotion) as [<- | H6];
    [left; eexists; split; [|reflexivity]; simpl; tauto | rewrite H6].
  destruct (str_eqb_cases (str "neutral") emotion) as [<- | H7];
    [left; eexists; split; [|reflexivity]; simpl; tauto | rewrite H7].
  right. split; [|reflexivity].
  unfold EMOTION_LABELS. intro Hin.
  repeat (destruct Hin as [<- | Hin];
          [rewrite str_eqb_refl in *; discriminate|]).
  exact Hin.
Qed.

(** X12.  When [quotes.json] cannot be read, [load_quotes] returns the
    built-in table, and with it [generate_persona_response] answers for
    every emotion string and every intensity, provided the persona has no
    empty list of response patterns: the quote is one of the built-in
    quotes of the emotion when the emotion is one of the seven labels, and
    the built-in quote of 'neutral' for any other string. *)
Theorem builtin_quotes_always_answer (draw_quote draw_pattern : nat -> nat)
  (emotion intensity : pystr) (data : response_persona) :
  (forall n, 0 < n -> draw_quote n < n) ->
  (forall n, 0 < n -> draw_pattern n < n) ->
  response_patterns data <> Some [] ->
  exists quote response,
    generate_persona_response (load_quotes LoadRaises) draw_quote
      draw_pattern emotion (Some data) intensity = Ok response
    /\ ((exists quotes,
           In (emotion, quotes) builtin_quotes /\ In quote quotes)
        \/ (~ In emotion EMOTION_LABELS
            /\ quote = str "Keep going. You're doing fine."))
    /\ match response_patterns data with
       | None => response = quote
       | Some patterns =>
           exists enhancement,
             In enhancement patterns
             /\ response = enhancement ++ str " " ++ quote
       end.
Proof.
  intros Hq Hp Hpat. cbn [load_quotes]. rewrite drawn_quote.
  assert (Hshort : (3 <? List.length (quotes_for builtin_quotes emotion))
                   = false
                   /\ quotes_for builtin_quotes emotion <> []).
  { destruct (builtin_quotes_for emotion) as [(quotes & Hin & ->)|[_ ->]];
      [|split; [reflexivity | discriminate]].
    unfold builtin_quotes in Hin. simpl in Hin.
    repeat (destruct Hin as [Hin|Hin];
            [injection Hin as _ <-; split; [reflexivity | discriminate]|]).
    contradiction. }
  destruct Hshort as [Hshort Hne]. rewrite Hshort.
  destruct (random_choice_In draw_quote (quotes_for builtin_quotes emotion)
              Hq Hne) as (quote & Hquote & Hin).
  rewrite Hquote. cbn [bind].
  assert (Hwhere : (exists quotes,
                      In (emotion, quotes) builtin_quotes /\ In quote quotes)
                   \/ (~ In emotion EMOTION_LABELS
                       /\ quote = str "Keep going. You're doing fine.")).
  { destruct (builtin_quotes_for emotion) as [(quotes & Ht & E)|[Hl E]].
    - left. exists quotes. split; [exact Ht|]. now rewrite <- E.
    - right. split; [exact Hl|]. rewrite E in Hin.
      destruct Hin as [<-|[]]. reflexivity. }
  destruct (response_patterns data) as [patterns|].
  - destruct (random_choice_In draw_pattern patterns Hp) as (enh & Henh & He).
    { intros ->. now apply Hpat. }
    rewrite Henh. cbn [bind].
    exists quote. eexists. split; [reflexivity|]. split; [exact Hwhere|].
    exists enh. split; [exact He | reflexivity].
  - exists quote, quote. split; [reflexivity|]. split; [exact Hwhere|].
    reflexivity.
Qed.

End SelectionProperties.

(** ** Further properties: input validation and activities *)

Section ValidationProperties.
Context {U : Unicode} {W : WordChars}.

Lemma space_is_space : isspace 32%N = true.
Proof. rewrite isspace_ascii by reflexivity. reflexivity. Qed.

(** Reading past characters that are not whitespace. *)
Lemma split_from_word (w rest cur : pystr) :
  (forall c, In c w -> isspace c = false) ->
  split_from (w ++ rest) cur = split_from rest (rev w ++ cur).
Proof.
  revert cur. induction w as [|c w IH]; intros cur Hw; [reflexivity|].
  cbn [app split_from]. rewrite (Hw c) by now left.
  rewrite IH by (intros d Hd; apply Hw; now right).
  cbn [rev]. now rewrite <- app_assoc.
Qed.

(** The words [split()] returns are words. *)
Lemma split_from_words (s cur : pystr) :
  (forall c, In c cur -> isspace c = false) ->
  Forall is_word (split_from s cur).
Proof.
  revert cur. induction s as [|c s IH]; intros cur Hcur.
  - cbn [split_from]. destruct cur as [|d cur]; [constructor|].
    constructor; [|constructor]. split.
    + intro H. apply (f_equal (@List.length _)) in H.
      rewrite length_rev in H. discriminate.
    + intros x Hx. apply Hcur. now apply in_rev.
  - cbn [split_from]. destruct (isspace c) eqn:Hc.
    + destruct cur as [|d cur]; [apply IH; intros x []|].
      constructor; [|apply IH; intros x []]. split.
      * intro H. apply (f_equal (@List.length _)) in H.
        rewrite length_rev in H. discriminate.
      * intros x Hx. apply Hcur. now apply in_rev.
    + apply IH. intros x [<-|Hx]; [exact Hc | now apply Hcur].
Qed.

(** Splitting what was joined with single spaces gives the words back. *)
Lemma split_join (words : list pystr) :
  Forall is_word words -> split (join (str " ") words) = words.
Proof.
  unfold split. induction words as [|w words IH]; intro Hw; [reflexivity|].
  inversion Hw as [|? ? [Hne Hns] Hws]; subst.
  cbn [join]. destruct words as [|w2 words].
  - rewrite <- (app_nil_r w) at 1. rewrite split_from_word by assumption.
    rewrite app_nil_r. cbn [split_from].
    destruct (rev w) as [|d r] eqn:E.
    + apply (f_equal (@List.length _)) in E. rewrite length_rev in E.
      destruct w; [contradiction | discriminate].
    + rewrite <- E, rev_involutive. reflexivity.
  - rewrite split_from_word by assumption. rewrite app_nil_r.
    change (str " " ++ join (str " ") (w2 :: words))
      with (32%N :: join (str " ") (w2 :: words)).
    cbn [split_from]. rewrite space_is_space.
    destruct (rev w) as [|d r] eqn:E.
    + apply (f_equal (@List.length _)) in E. rewrite length_rev in E.
      destruct w; [contradiction | discriminate].
    + rewrite <- E, rev_involutive. f_equal. now apply IH.
Qed.

(** In words joined with single spaces every whitespace is a space. *)
Lemma join_whitespace (words : list pystr) (c : char) :
  Forall is_word words -> In c (join (str " ") words) ->
  isspace c = true -> c = 32%N.
Proof.
  induction words as [|w words IH]; intros Hw Hin Hc; [contradiction|].
  inversion Hw as [|? ? [Hne Hns] Hws]; subst.
  cbn [join] in Hin. destruct words as [|w2 words].
  - rewrite (Hns c Hin) in Hc. discriminate.
  - apply in_app_or in Hin. destruct Hin as [Hin|Hin].
    + rewrite (Hns c Hin) in Hc. discriminate.
    + change (str " " ++ join (str " ") (w2 :: words))
        with (32%N :: join (str " ") (w2 :: words)) in Hin.
      destruct Hin as [<-|Hin]; [reflexivity | now apply IH].
Qed.

Lemma split_words (text : pystr) : Forall is_word (split text).
Proof. apply split_from_words. intros c []. Qed.

Lemma normalize_spaces_idempotent (text : pystr) :
  normalize_spaces (normalize_spaces text) = normalize_spaces text.
Proof.
  unfold normalize_spaces. now rewrite split_join by apply split_words.
Qed.

(** A text of characters that are not whitespace is one word. *)
Lemma split_one_word (text : pystr) :
  text <> [] -> (forall c, In c text -> isspace c = false) ->
  split text = [text].
Proof.
  intros Hne Hns. change text with (join (str " ") [text]) at 1.
  apply split_join. constructor; [split; assumption | constructor].
Qed.

(** The answer of [validate_input] on a non-empty text, by the length of
    the normalized text. *)
Lemma validate_input_cases (text : pystr) :
  text <> [] ->
  validate_input (Some text)
  = if List.length (normalize_spaces text) <? 3 then
      (None, Some (str "Please share a bit more about how you're feeling."))
    else if 2000 <? List.length (normalize_spaces text) then
      (Some (firstn 2000 (normalize_spaces text)),
       Some (str "Input was truncated to 2000 characters."))
    else (Some (filter kept_by_filter (normalize_spaces text)), None).
Proof.
  intro Hne. destruct text as [|c t]; [contradiction|].
  unfold validate_input. fold (normalize_spaces (c :: t)). cbv zeta.
  change 2000%Z with (Z.of_nat 2000). rewrite slice_prefix. reflexivity.
Qed.

(** X13.  [validate_input] answers on a text as on the text with its
    whitespace normalized (the words joined by single spaces), unless that
    form is empty: a text of whitespace only is refused with the message
    asking for "a bit more", the empty text with the message asking for
    "something". *)
Theorem validate_input_ignores_spacing (text : pystr) :
  (normalize_spaces text <> [] ->
   validate_input (Some (normalize_spaces text)) = validate_input (Some text))
  /\ (text <> [] -> normalize_spaces text = [] ->
      validate_input (Some text)
      = (None, Some (str "Please share a bit more about how you're feeling."))
      /\ validate_input (Some (normalize_spaces text))
         = (None,
            Some (str "Please share something about how you're feeling."))).
Proof.
  split.
  - intro Hn.
    assert (Hne : text <> []) by (intros ->; now apply Hn).
    rewrite (validate_input_cases _ Hn), (validate_input_cases _ Hne).
    now rewrite normalize_spaces_idempotent.
  - intros Hne Hnil. rewrite (validate_input_cases _ Hne), Hnil.
    split; reflexivity.
Qed.

(** X14.  When [validate_input] returns a text and no message, the text is
    the normalized input without the characters the pattern rejects: each
    of its characters is a word character, whitespace or one of
    [. ! ? , ; : - ( )], its only whitespace is the space U+0020, and it has
    at most 2000 characters; the normalized input had at least 3. *)
Theorem validated_text_is_clean (text : option pystr) (out : pystr) :
  validate_input text = (Some out, None) ->
  exists t,
    text = Some t
    /\ out = filter kept_by_filter (normalize_spaces t)
    /\ 3 <= List.length (normalize_spaces t) <= 2000
    /\ List.length out <= 2000
    /\ Forall (fun c => kept_by_filter c = true) out
    /\ (forall c, In c out -> isspace c = true -> c = 32%N).
Proof.
  intro H. destruct text as [[|c t]|]; try discriminate.
  exists (c :: t). split; [reflexivity|].
  rewrite validate_input_cases in H by discriminate.
  destruct (List.length (normalize_spaces (c :: t)) <? 3) eqn:E3;
    [discriminate|].
  destruct (2000 <? List.length (normalize_spaces (c :: t))) eqn:E2;
    [discriminate|].
  injection H as <-.
  apply Nat.ltb_ge in E3, E2.
  split; [reflexivity|]. split; [lia|]. split.
  - etransitivity; [apply filter_length_le | exact E2].
  - split.
    + apply Forall_forall. intros x Hx. apply filter_In in Hx. tauto.
    + intros x Hx Hsp. apply filter_In in Hx. destruct Hx as [Hx _].
      exact (join_whitespace (split (c :: t)) x (split_words (c :: t)) Hx Hsp).
Qed.

(** X15.  When the normalized text has more than 2000 characters,
    [validate_input] returns its first 2000 characters with the truncation
    message, and returns them as they are: the pattern is not applied on
    this path. *)
Theorem long_text_is_cut_not_cleaned (text : pystr) :
  2000 < List.length (normalize_spaces text) ->
  validate_input (Some text)
  = (Some (firstn 2000 (normalize_spaces text)),
     Some (str "Input was truncated to 2000 characters."))
  /\ List.length (firstn 2000 (normalize_spaces text)) = 2000.
Proof.
  intro Hlen.
  assert (Hne : text <> []) by (intros ->; simpl in Hlen; lia).
  rewrite (validate_input_cases _ Hne).
  assert (E3 : (List.length (normalize_spaces text) <? 3) = false)
    by (apply Nat.ltb_ge; lia).
  assert (E2 : (2000 <? List.length (normalize_spaces text)) = true)
    by (apply Nat.ltb_lt; lia).
  rewrite E3, E2. split; [reflexivity|].
  rewrite length_firstn. lia.
Qed.

(** X16.  A text of 3 to 2000 characters, none of them whitespace and none
    accepted by the pattern, is accepted all the same: [validate_input]
    returns the empty text and no message. *)
Theorem rejected_characters_leave_empty_text (text : pystr) :
  3 <= List.length text <= 2000 ->
  (forall c, In c text -> kept_by_filter c = false) ->
  validate_input (Some text) = (Some [], None).
Proof.
  intros Hlen Hrej.
  assert (Hne : text <> []) by (intros ->; simpl in Hlen; lia).
  assert (Hns : forall c, In c text -> isspace c = false).
  { intros c Hc. specialize (Hrej c Hc). unfold kept_by_filter in Hrej.
    destruct (isspace c); [|reflexivity].
    rewrite orb_true_r in Hrej. discriminate. }
  rewrite (validate_input_cases _ Hne).
  unfold normalize_spaces. rewrite (split_one_word _ Hne Hns).
  cbn [join].
  assert (E3 : (List.length text <? 3) = false) by (apply Nat.ltb_ge; lia).
  assert (E2 : (2000 <? List.length text) = false) by (apply Nat.ltb_ge; lia).
  rewrite E3, E2. f_equal. f_equal.
  clear - Hrej. induction text as [|c t IH]; [reflexivity|].
  cbn [filter]. rewrite (Hrej c) by now left.
  apply IH. intros d Hd. apply Hrej. now right.
Qed.

End ValidationProperties.

Section ActivityProperties.
Context {U : Unicode}.

(** X17.  [get_time_based_activities] shows at most three activities: from
    6 to 11 the first three, from 12 to 17 those at positions 2 to 4, at any
    other hour (also one outside 0..23) the last three, each lowercased
    behind the words for the time of day.  With fewer than three activities
    the afternoon list is empty, while the morning and evening lists of a
    non-empty list never are. *)
Theorem activities_by_hour (activities : list pystr) (current_hour : Z) :
  ((6 <= current_hour < 12)%Z ->
   get_time_based_activities activities current_hour
   = map (fun activity => str "This morning: " ++ lower activity)
         (firstn 3 activities))
  /\ ((12 <= current_hour < 18)%Z ->
      get_time_based_activities activities current_hour
      = map (fun activity => str "This afternoon: " ++ lower activity)
            (firstn 3 (skipn 2 activities)))
  /\ ((current_hour < 6 \/ 18 <= current_hour)%Z ->
      get_time_based_activities activities current_hour
      = map (fun activity => str "This evening: " ++ lower activity)
            (skipn (List.length activities - 3) activities))
  /\ List.length (get_time_based_activities activities current_hour) <= 3
  /\ (List.length activities <= 2 -> (12 <= current_hour < 18)%Z ->
      get_time_based_activities activities current_hour = [])
  /\ (activities <> [] -> ~ (12 <= current_hour < 18)%Z ->
      get_time_based_activities activities current_hour <> []).
Proof.
  assert (Hm : (6 <= current_hour < 12)%Z ->
               get_time_based_activities activities current_hour
               = map (fun activity => str "This morning: " ++ lower activity)
                     (firstn 3 activities)).
  { intro H. unfold get_time_based_activities.
    replace ((6 <=? current_hour)%Z && (current_hour <? 12)%Z) with true
      by (symmetry; apply andb_true_iff; split;
          [apply Z.leb_le | apply Z.ltb_lt]; lia).
    change 3%Z with (Z.of_nat 3). now rewrite slice_prefix. }
  assert (Ha : (12 <= current_hour < 18)%Z ->
               get_time_based_activities activities current_hour
               = map (fun activity => str "This afternoon: " ++ lower activity)
                     (firstn 3 (skipn 2 activities))).
  { intro H. unfold get_time_based_activities.
    replace ((6 <=? current_hour)%Z && (current_hour <? 12)%Z) with false
      by (symmetry; apply andb_false_iff; right; apply Z.ltb_ge; lia).
    replace ((12 <=? current_hour)%Z && (current_hour <? 18)%Z) with true
      by (symmetry; apply andb_true_iff; split;
          [apply Z.leb_le | apply Z.ltb_lt]; lia).
    change 2%Z with (Z.of_nat 2). change 5%Z with (Z.of_nat 5).
    now rewrite slice_range by lia. }
  assert (He : (current_hour < 6 \/ 18 <= current_hour)%Z ->
               get_time_based_activities activities current_hour
               = map (fun activity => str "This evening: " ++ lower activity)
                     (skipn (List.length activities - 3) activities)).
  { intro H. unfold get_time_based_activities.
    replace ((6 <=? current_hour)%Z && (current_hour <? 12)%Z) with false
      by (symmetry; apply andb_false_iff;
          destruct H; [left; apply Z.leb_gt | right; apply Z.ltb_ge]; lia).
    replace ((12 <=? current_hour)%Z && (current_hour <? 18)%Z) with false
      by (symmetry; apply andb_false_iff;
          destruct H; [left; apply Z.leb_gt | right; apply Z.ltb_ge]; lia).
    change (-3)%Z with (- Z.of_nat 3)%Z. now rewrite slice_suffix by lia. }
  split; [exact Hm|]. split; [exact Ha|]. split; [exact He|].
  assert (Hcases : (6 <= current_hour < 12)%Z \/ (12 <= current_hour < 18)%Z
                   \/ (current_hour < 6 \/ 18 <= current_hour)%Z) by lia.
  split; [|split].
  - destruct Hcases as [H|[H|H]].
    + rewrite (Hm H), length_map, length_firstn. lia.
    + rewrite (Ha H), length_map, length_firstn. lia.
    + rewrite (He H), length_map, length_skipn. lia.
  - intros Hn H. rewrite (Ha H). rewrite skipn_all2 by lia. reflexivity.
  - intros Hne Hnot Hnil.
    assert (Hlen : 0 < List.length activities)
      by (destruct activities; [contradiction | simpl; lia]).
    apply (f_equal (@List.length _)) in Hnil.
    destruct Hcases as [H|[H|H]]; [| contradiction |].
    + rewrite (Hm H), length_map, length_firstn in Hnil.
      change (List.length (@nil pystr)) with 0 in Hnil. lia.
    + rewrite (He H), length_map, length_skipn in Hnil.
      change (List.length (@nil pystr)) with 0 in Hnil. lia.
Qed.

End ActivityProperties.

Section IntensityOnDoubles.
Context {U : Unicode}.

(** Adding [0.0] does not change how a double compares. *)
Lemma add_zero_compares (t x : spec_float) :
  SFleb t (SFadd 53 1024 x (S754_zero false)) = SFleb t x.
Proof.
  destruct x as [[|]| | |]; reflexivity.
Qed.

(** No uppercase character: the ratio is not above [0.3]. *)
Lemma zero_ratio_not_shouting (y : spec_float) :
  SFltb (decimal (F:=binary64) 3 1) (SFdiv 53 1024 (b64_of_int 0) y) = false.
Proof. destruct y as [[|]|[|]| |[|] m e]; vm_compute; reflexivity. Qed.

(** X18.  On doubles, a text without an uppercase character, an
    exclamation mark or an intensity word adds nothing: its intensity is the
    band of the confidence alone, for every double, NaN and the infinities
    included. *)
Theorem plain_text_intensity (text : pystr) (confidence : spec_float) :
  existsb isupper text = false ->
  count_char 33%N text = 0 ->
  existsb (fun word => contains word (lower text)) high_intensity_words
  = false ->
  determine_emotion_intensity (F:=binary64) text confidence
  = Ok (intensity_band (F:=binary64) confidence).
Proof.
  intros Hup Hex Hw. rewrite intensity_eq. f_equal.
  unfold accumulated_intensity.
  assert (Hf : filter (fun word => contains word (lower text))
                 high_intensity_words = []).
  { clear - Hw. induction high_intensity_words as [|w ws IH];
      [reflexivity|].
    cbn [existsb] in Hw. apply orb_false_iff in Hw. destruct Hw as [H1 H2].
    cbn [filter]. rewrite H1. now apply IH. }
  rewrite Hf, Hex. cbn [fold_left].
  assert (Hr : flt (FloatOps:=binary64) (decimal 3 1) (uppercase_ratio text)
               = false).
  { unfold uppercase_ratio. destruct text as [|c t]; [reflexivity|].
    assert (Hnone : filter isupper (c :: t) = []).
    { clear - Hup. induction (c :: t) as [|x l IH]; [reflexivity|].
      cbn [existsb] in Hup. apply orb_false_iff in Hup.
      destruct Hup as [H1 H2]. cbn [filter]. rewrite H1. now apply IH. }
    rewrite Hnone. exact (zero_ratio_not_shouting _). }
  rewrite Hr.
  replace (pymin (F:=binary64) (fmul (of_int 0) (decimal 1 1)) (decimal 3 1))
    with (S754_zero false) by (vm_compute; reflexivity).
  unfold intensity_band. cbn [fle fadd binary64].
  now rewrite !add_zero_compares.
Qed.

End IntensityOnDoubles.

(** ** Concrete runs of the further properties *)

(** Witness of X2: the model raises on the first request. *)
Lemma model_failure_falls_back_witness :
  exists r0 r,
    fallback_emotion_detection (U:=ascii_unicode)
      (Some (str "I am happy today")) = Ok r0
    /\ analyze_emotion_with_confidence (U:=ascii_unicode)
         (started_with raising_model) (Some (str "I am happy today"))
       = (Ok r, set_fallback_mode (count_call (started_with raising_model)) true)
    /\ fallback_used r = Some true
    /\ same_analysis r r0.
Proof.
  apply (model_failure_falls_back (U:=ascii_unicode)
           (started_with raising_model) (str "I am happy today")
           raising_model).
  - reflexivity.
  - reflexivity.
  - vm_compute. reflexivity.
  - left. reflexivity.
Defined.

(** Witness of X3: the answer of [anger_model]. *)
Lemma primary_result_means_model_called_witness :
  exists r,
    fst (analyze_emotion_with_confidence (U:=ascii_unicode)
           (started_with anger_model)
           (Some (str "I am angry and disgusted"))) = Ok r
    /\ fallback_used r = Some false
    /\ fallback_mode (started_with anger_model) = false
    /\ fallback_mode
         (snd (analyze_emotion_with_confidence (U:=ascii_unicode)
                 (started_with anger_model)
                 (Some (str "I am angry and disgusted")))) = false
    /\ cls_calls
         (snd (analyze_emotion_with_confidence (U:=ascii_unicode)
                 (started_with anger_model)
                 (Some (str "I am angry and disgusted"))))
       = S (cls_calls (started_with anger_model))
    /\ exists rest, all_emotions r = (emotion r, confidence r) :: rest.
Proof.
  assert (H : match fst (analyze_emotion_with_confidence (U:=ascii_unicode)
                           (started_with anger_model)
                           (Some (str "I am angry and disgusted"))) with
              | Ok r => fallback_used r
              | Raise _ => None
              end = Some false) by (vm_compute; reflexivity).
  destruct (fst (analyze_emotion_with_confidence (U:=ascii_unicode)
                   (started_with anger_model)
                   (Some (str "I am angry and disgusted"))))
    as [r|e] eqn:E; [|discriminate H].
  exists r. split; [reflexivity|]. split; [exact H|].
  exact (primary_result_means_model_called (U:=ascii_unicode)
           (started_with anger_model)
           (Some (str "I am angry and disgusted")) r E H).
Defined.

(** Witness of X5: 'sad', 'angry' and 'happy' in one text. *)
Lemma fallback_reports_matching_categories_witness :
  exists r,
    fallback_emotion_detection (F:=binary64) (U:=ascii_unicode)
      (Some (str "I am sad and angry but happy")) = Ok r
    /\ Permutation (map fst (all_emotions r))
         (map fst (filter (has_match (lower (str "I am sad and angry but happy")))
                          (EMOTION_KEYWORDS (F:=binary64))))
    /\ NoDup (map fst (all_emotions r))
    /\ exists d keyword,
         In (emotion r, d) EMOTION_KEYWORDS /\ In keyword (keywords d)
         /\ contains keyword (lower (str "I am sad and angry but happy")) = true.
Proof.
  apply (fallback_reports_matching_categories (F:=binary64) (U:=ascii_unicode)).
  - discriminate.
  - eexists. eexists. exists (str "happy").
    split; [left; reflexivity|].
    split; [left; reflexivity|].
    vm_compute. reflexivity.
Defined.

(** Witness of X7: the same text. *)
Lemma fallback_all_emotions_sorted_witness :
  exists r rest,
    fallback_emotion_detection (F:=binary64) (U:=ascii_unicode)
      (Some (str "I am sad and angry but happy")) = Ok r
    /\ all_emotions r = (emotion r, confidence r) :: rest
    /\ StronglySorted score_ge (all_emotions r).
Proof.
  apply (fallback_all_emotions_sorted (U:=ascii_unicode)). discriminate.
Defined.

(** Witness of X8: the greetings of 'joy' and an intensity string that is
    none of the three names. *)
Lemma greeting_is_from_the_list_witness :
  exists g,
    get_persona_greeting (fun n => n - 1) (Some joy_persona) (str "extreme")
    = Ok g
    /\ In g joy_greetings.
Proof.
  apply (greeting_is_from_the_list (fun n => n - 1) joy_persona joy_greetings
           (str "extreme")).
  - reflexivity.
  - discriminate.
  - intros n Hn. lia.
Defined.

(** Witness of X10: five quotes for 'joy', intensity 'high'. *)
Lemma response_quote_by_intensity_witness :
  exists quote,
    In quote (quote_pool (quotes_for five_joy_quotes (str "joy")) (str "high"))
    /\ In quote (quotes_for five_joy_quotes (str "joy"))
    /\ match response_patterns joy_responses with
       | None =>
           generate_persona_response five_joy_quotes (fun n => n - 1)
             (fun _ => 0) (str "joy") (Some joy_responses) (str "high")
           = Ok quote
       | Some patterns =>
           exists enhancement,
             In enhancement patterns
             /\ generate_persona_response five_joy_quotes (fun n => n - 1)
                  (fun _ => 0) (str "joy") (Some joy_responses) (str "high")
                = Ok (enhancement ++ str " " ++ quote)
       end.
Proof.
  apply (response_quote_by_intensity five_joy_quotes (fun n => n - 1)
           (fun _ => 0) (str "joy") (str "high") joy_responses).
  - apply Nat.ltb_lt. reflexivity.
  - intros n Hn. lia.
  - intros n Hn. exact Hn.
  - discriminate.
Defined.

(** The run of the witness, computed: the last of the five quotes behind
    the first pattern. *)
Example joy_response_at_high :
  generate_persona_response five_joy_quotes (fun n => n - 1) (fun _ => 0)
    (str "joy") (Some joy_responses) (str "high")
  = Ok (str "That's absolutely wonderful! Let your joy be loud.").
Proof. vm_compute. reflexivity. Qed.

(** Witness of X12: the label 'disgust' of the model, which the built-in
    table does not have. *)
Lemma builtin_quotes_always_answer_witness :
  exists quote response,
    generate_persona_response (load_quotes LoadRaises) (fun _ => 0)
      (fun _ => 0) (str "disgust") (Some joy_responses) (str "high")
    = Ok response
    /\ ((exists quotes,
           In (str "disgust", quotes) builtin_quotes /\ In quote quotes)
        \/ (~ In (str "disgust") EMOTION_LABELS
            /\ quote = str "Keep going. You're doing fine."))
    /\ match response_patterns joy_responses with
       | None => response = quote
       | Some patterns =>
           exists enhancement,
             In enhancement patterns
             /\ response = enhancement ++ str " " ++ quote
       end.
Proof.
  apply (builtin_quotes_always_answer (fun _ => 0) (fun _ => 0)
           (str "disgust") (str "high") joy_responses).
  - intros n Hn. exact Hn.
  - intros n Hn. exact Hn.
  - discriminate.
Defined.

(** Witness of X14: runs of spaces are reduced and the angle brackets
    removed. *)
Lemma validated_text_is_clean_witness :
  exists t,
    Some (str "  I feel   great <today>!  ") = Some t
    /\ str "I feel great today!"
       = filter (kept_by_filter (U:=ascii_unicode) (W:=ascii_words))
                (normalize_spaces (U:=ascii_unicode) t)
    /\ 3 <= List.length (normalize_spaces (U:=ascii_unicode) t) <= 2000
    /\ List.length (str "I feel great today!") <= 2000
    /\ Forall (fun c => kept_by_filter (U:=ascii_unicode) (W:=ascii_words) c
                        = true)
              (str "I feel great today!")
    /\ (forall c, In c (str "I feel great today!") ->
                  isspace (Unicode:=ascii_unicode) c = true -> c = 32%N).
Proof.
  apply (validated_text_is_clean (U:=ascii_unicode) (W:=ascii_words)
           (Some (str "  I feel   great <today>!  "))
           (str "I feel great today!")).
  vm_compute. reflexivity.
Defined.

(** Witness of X15: 2001 at signs, which the pattern would delete. *)
Lemma long_text_is_cut_not_cleaned_witness :
  (validate_input (U:=ascii_unicode) (W:=ascii_words)
     (Some (repeat 64%N 2001))
   = (Some (firstn 2000 (normalize_spaces (U:=ascii_unicode)
                           (repeat 64%N 2001))),
      Some (str "Input was truncated to 2000 characters."))
   /\ List.length (firstn 2000 (normalize_spaces (U:=ascii_unicode)
                                  (repeat 64%N 2001))) = 2000)
  /\ kept_by_filter (U:=ascii_unicode) (W:=ascii_words) 64%N = false.
Proof.
  split; [|reflexivity].
  apply (long_text_is_cut_not_cleaned (U:=ascii_unicode) (W:=ascii_words)
           (repeat 64%N 2001)).
  apply Nat.ltb_lt. vm_compute. reflexivity.
Defined.

(** Witness of X16: four characters the pattern deletes. *)
Lemma rejected_characters_leave_empty_text_witness :
  validate_input (U:=ascii_unicode) (W:=ascii_words) (Some (str "@#$%"))
  = (Some [], None).
Proof.
  apply (rejected_characters_leave_empty_text (U:=ascii_unicode)
           (W:=ascii_words) (str "@#$%")).
  - split; [apply Nat.leb_le | apply Nat.leb_le]; reflexivity.
  - intros c [<-|[<-|[<-|[<-|[]]]]]; reflexivity.
Defined.

(** Witness of X18: a plain sentence at confidence 0.9. *)
Lemma plain_text_intensity_witness :
  determine_emotion_intensity (F:=binary64) (U:=ascii_unicode)
    (str "i feel fine today") (decimal 9 1)
  = Ok (intensity_band (F:=binary64) (decimal 9 1)).
Proof.
  apply (plain_text_intensity (U:=ascii_unicode) (str "i feel fine today")
           (decimal (F:=binary64) 9 1)).
  - vm_compute. reflexivity.
  - vm_compute. reflexivity.
  - vm_compute. reflexivity.
Defined.

(** The same run, computed. *)
Example plain_text_at_high_confidence :
  determine_emotion_intensity (F:=binary64) (U:=ascii_unicode)
    (str "i feel fine today") (decimal 9 1)
  = Ok (str "high").
Proof. vm_compute. reflexivity. Qed.

(** A text of whitespace only and the empty text are refused with different
    messages. *)
Example blank_and_empty_messages :
  validate_input (U:=ascii_unicode) (W:=ascii_words) (Some (str "    "))
  = (None, Some (str "Please share a bit more about how you're feeling."))
  /\ validate_input (U:=ascii_unicode) (W:=ascii_words) (Some [])
     = (None, Some (str "Please share something about how you're feeling.")).
Proof. split; vm_compute; reflexivity. Qed.

(** Three activities: the morning and the evening show all of them, the
    afternoon only the third. *)
Example three_activities_by_hour :
  get_time_based_activities (U:=ascii_unicode)
    [str "Create a gratitude photo collage";
     str "Plan a celebration for your wins";
     str "Start an uplifting playlist"] 14
  = [str "This afternoon: start an uplifting playlist"]
  /\ List.length
       (get_time_based_activities (U:=ascii_unicode)
          [str "Create a gratitude photo collage";
           str "Plan a celebration for your wins";
           str "Start an uplifting playlist"] 9) = 3
  /\ get_time_based_activities (U:=ascii_unicode)
       [str "Create a gratitude photo collage";
        str "Plan a celebration for your wins"] 14
     = [].
Proof. repeat split; vm_compute; reflexivity. Qed.
